(** * go-guacamole: the client package, embedded and verified

    A shallow embedding of the Go package [guacamole] (client.go, errors.go,
    types.go, users.go): the nullable attribute map codec, the structured
    API error and its chain predicates, the path builder, the request
    pipeline, the token exchange and the JSON-Patch builders.

    Go strings are byte strings: [string] over [ascii].  Go [int] values
    that occur (HTTP status codes) are [Z].  A Go map is a [gmap]; the nil
    map is [None].  The [error] interface is an inductive type of the
    values [errors.As] tells apart: the errors this package builds, and
    the trees, nil pointers and [As] methods a caller can hand to the
    predicates; the nil error is [None].  A call that can panic returns
    an [outcome]. *)

From Stdlib Require Import ZArith NArith Lia.
From Stdlib Require Ascii String DecimalString.
Import (notations) Ascii.
From stdpp Require Import base option list gmap strings sorting.

Local Open Scope Z_scope.

(** ** Bytes and strings *)

Abbreviation byte := Ascii.ascii.

Definition code (c : byte) : N := Ascii.N_of_ascii c.

(** [lo <= c && c <= hi] on bytes. *)
Definition between (lo hi c : byte) : bool :=
  ((code lo <=? code c) && (code c <=? code hi))%N.

(** [c] is one of the bytes of [cs] (a Go [switch c { case ... }]). *)
Fixpoint one_of (c : byte) (cs : string) : bool :=
  match cs with
  | EmptyString => false
  | String d cs' => Ascii.eqb c d || one_of c cs'
  end.

Definition str_eqb (a b : string) : bool := bool_decide (a = b).

(** Every byte of [s] satisfies [p]. *)
Fixpoint all_bytes (p : byte → bool) (s : string) : bool :=
  match s with
  | EmptyString => true
  | String c s' => p c && all_bytes p s'
  end.

(** [strings.Join(l, sep)]. *)
Fixpoint strings_Join (l : list string) (sep : string) : string :=
  match l with
  | [] => ""
  | [x] => x
  | x :: rest => x +:+ sep +:+ strings_Join rest sep
  end.

(** Go's [<=] on the string keys of map entries (bytewise, as
    [String.leb]); encoding/json and net/url write maps in key order. *)
Definition by_key_le {V} (a b : string * V) : Prop := String.leb a.1 b.1.

Global Instance by_key_le_dec {V} (a b : string * V) : Decision (by_key_le a b).
Proof. unfold by_key_le. apply _. Defined.

(** The double quote byte. *)
Definition dq : string := String (Ascii.ascii_of_nat 34) EmptyString.

(** ** net/url: escaping

    [url.PathEscape] and [url.QueryEscape] are [escape] in the modes
    [encodePathSegment] and [encodeQueryComponent]; these are the two modes
    the package reaches, through [dataPath] and through [url.Values.Encode]
    in [Authenticate]. *)
Module url.

Inductive encoding := encodePathSegment | encodeQueryComponent.

Definition is_query (mode : encoding) : bool :=
  match mode with encodeQueryComponent => true | encodePathSegment => false end.

Definition upperhex (n : N) : byte :=
  match String.get (N.to_nat n) "0123456789ABCDEF" with
  | Some c => c
  | None => "0"%char
  end.

(** RFC 3986 as net/url reads it: alphanumerics and the marks [-_.~] are
    never escaped; of the reserved bytes a path segment keeps
    [$ & + : = @] and escapes [/ ; , ?]; a query component escapes every
    reserved byte; every other byte is escaped. *)
Definition shouldEscape (c : byte) (mode : encoding) : bool :=
  if between "a" "z" c || between "A" "Z" c || between "0" "9" c then false
  else if one_of c "-_.~" then false
  else if one_of c "$&+,/:;=?@" then
    match mode with
    | encodePathSegment => one_of c "/;,?"
    | encodeQueryComponent => true
    end
  else true.

Definition escape_byte (c : byte) (mode : encoding) : string :=
  if Ascii.eqb c " " && is_query mode then "+"
  else if shouldEscape c mode then
    String "%" (String (upperhex (N.shiftr (code c) 4))
               (String (upperhex (N.land (code c) 15)) EmptyString))
  else String c EmptyString.

Fixpoint escape (s : string) (mode : encoding) : string :=
  match s with
  | EmptyString => EmptyString
  | String c s' => escape_byte c mode +:+ escape s' mode
  end.

Definition PathEscape (s : string) : string := escape s encodePathSegment.
Definition QueryEscape (s : string) : string := escape s encodeQueryComponent.

(** [url.Values] is [map[string][]string]; [Set] replaces the values of a
    key, [Encode] writes [key=value] for every value, both sides
    query-escaped, joined by [&], in key order. *)
Definition Values_Set (form : gmap string (list string)) (key value : string)
  : gmap string (list string) :=
  <[key := [value]]> form.

Definition Values_Encode (form : gmap string (list string)) : string :=
  strings_Join
    (flat_map (λ kv, map (λ v, QueryEscape kv.1 +:+ "=" +:+ QueryEscape v) kv.2)
              (merge_sort by_key_le (map_to_list form))) "&".

End url.

(** ** path: Join and Clean *)
Module path.

(** The elements of a path between its slashes ([""] has the one element
    [""]). *)
Fixpoint elements (p : string) : list string :=
  match p with
  | EmptyString => [EmptyString]
  | String c p' =>
      if Ascii.eqb c "/" then EmptyString :: elements p'
      else match elements p' with
           | e :: es => String c e :: es
           | [] => [String c EmptyString]
           end
  end.

Definition rooted (p : string) : bool :=
  match p with String c _ => Ascii.eqb c "/" | EmptyString => false end.

(** One element of [Clean]'s loop.  The state is the output so far, as the
    list of its elements with the last written first, and the number of
    leading [..] elements, which a later [..] cannot remove (Go's [dotdot]
    mark). *)
Definition clean_step (is_rooted : bool) (st : list string * nat) (e : string)
  : list string * nat :=
  let '(out, dotdot) := st in
  if str_eqb e "" || str_eqb e "." then st
  else if str_eqb e ".." then
    if bool_decide (dotdot < length out)%nat then (tail out, dotdot)
    else if is_rooted then st
    else (".." :: out, S dotdot)
  else (e :: out, dotdot).

(** [path.Clean]: slashes collapse, [.] elements vanish, an inner [..]
    removes the element before it, [..] at the root of a rooted path
    vanishes, and the empty result is [.]. *)
Definition Clean (p : string) : string :=
  if str_eqb p "" then "."
  else
    let r := rooted p in
    let '(out, _) := fold_left (clean_step r) (elements p) ([], 0%nat) in
    let body := strings_Join (rev out) "/" in
    if r then "/" +:+ body
    else if str_eqb body "" then "." else body.

(** [path.Join]: empty leading elements are ignored; the rest is joined
    with slashes and cleaned; no non-empty element gives [""]. *)
Fixpoint Join (elem : list string) : string :=
  match elem with
  | [] => ""
  | e :: rest =>
      if str_eqb e "" then Join rest else Clean (strings_Join elem "/")
  end.

(** An element that [Clean] copies as it is: not empty, not [.], not
    [..]. *)
Definition ordinary (e : string) : bool :=
  negb (str_eqb e "") && negb (str_eqb e ".") && negb (str_eqb e "..").

Definition no_slash (e : string) : bool :=
  all_bytes (λ c, negb (Ascii.eqb c "/")) e.

End path.

(** ** types.go: PatchOperation *)

Record PatchOperation := mkPatchOperation {
  Op : string;
  Path : string;
  Value : string
}.

(** ** users.go: patch helpers *)

Definition AddConnectionPermission (connectionID permission : string) :=
  {| Op := "add"; Path := "/connectionPermissions/" +:+ connectionID;
     Value := permission |}.
Definition RemoveConnectionPermission (connectionID permission : string) :=
  {| Op := "remove"; Path := "/connectionPermissions/" +:+ connectionID;
     Value := permission |}.
Definition AddConnectionGroupPermission (groupID permission : string) :=
  {| Op := "add"; Path := "/connectionGroupPermissions/" +:+ groupID;
     Value := permission |}.
Definition RemoveConnectionGroupPermission (groupID permission : string) :=
  {| Op := "remove"; Path := "/connectionGroupPermissions/" +:+ groupID;
     Value := permission |}.
Definition AddSharingProfilePermission (profileID permission : string) :=
  {| Op := "add"; Path := "/sharingProfilePermissions/" +:+ profileID;
     Value := permission |}.
Definition RemoveSharingProfilePermission (profileID permission : string) :=
  {| Op := "remove"; Path := "/sharingProfilePermissions/" +:+ profileID;
     Value := permission |}.
Definition AddUserPermission (targetUsername permission : string) :=
  {| Op := "add"; Path := "/userPermissions/" +:+ targetUsername;
     Value := permission |}.
Definition RemoveUserPermission (targetUsername permission : string) :=
  {| Op := "remove"; Path := "/userPermissions/" +:+ targetUsername;
     Value := permission |}.
Definition AddUserGroupPermission (groupID permission : string) :=
  {| Op := "add"; Path := "/userGroupPermissions/" +:+ groupID;
     Value := permission |}.
Definition RemoveUserGroupPermission (groupID permission : string) :=
  {| Op := "remove"; Path := "/userGroupPermissions/" +:+ groupID;
     Value := permission |}.
Definition AddSystemPermission (permission : string) :=
  {| Op := "add"; Path := "/systemPermissions"; Value := permission |}.
Definition RemoveSystemPermission (permission : string) :=
  {| Op := "remove"; Path := "/systemPermissions"; Value := permission |}.
Definition AddGroupMembership (identifier : string) :=
  {| Op := "add"; Path := "/"; Value := identifier |}.
Definition RemoveGroupMembership (identifier : string) :=
  {| Op := "remove"; Path := "/"; Value := identifier |}.

(** ** encoding/json values *)

(** A JSON text as the scanner of encoding/json reads it.  Numbers keep
    their literal; strings are already unquoted. *)
#[warnings="-register-all"] Inductive json :=
  | JNull
  | JBool (b : bool)
  | JNumber (raw : string)
  | JString (s : string)
  | JArray (elems : list json)
  | JObject (members : list (string * json)).

(** ** errors.go *)

Definition ErrTypeNotFound : string := "NOT_FOUND".
Definition ErrTypePermissionDenied : string := "PERMISSION_DENIED".

(** The error type has a field named [Type] in Go. *)
Record APIError := mkAPIError {
  Message : string;
  Type_ : string;
  HTTPStatus : Z
}.

(** Values of the Go interface [error], told apart as far as [errors.As]
    with a target of type [**APIError] tells them apart:
    - a [*APIError] that is not nil, and the nil [*APIError] stored in the
      interface (an interface value that is itself not nil); the type has
      no [Unwrap] and no [As] method;
    - an error that wraps nothing (transport, encoding);
    - [fmt.Errorf("<context>: %w", err)], or any value whose
      [Unwrap() error] gives [err];
    - a value with [Unwrap() []error] ([errors.Join], [fmt.Errorf] with
      several [%w]); an entry may be nil;
    - a value of a type whose method [As(any) bool] reports true for the
      target and leaves [target] in it (nil when it stores nothing); a
      value whose [As] reports false is, to [errors.As], the value
      without the method, and one whose [Unwrap() error] gives nil is an
      error that wraps nothing. *)
#[warnings="-register-all"] Inductive error :=
  | ErrAPIError (e : APIError)
  | ErrNilAPIError
  | ErrOpaque (msg : string)
  | ErrWrap (context : string) (err : error)
  | ErrJoin (errs : list (option error))
  | ErrAs (target : option APIError).

(** A Go result pair [(T, error)] of which one side is nil. *)
Inductive result (A : Type) :=
  | Ok (a : A)
  | Err (err : error).
Arguments Ok {A} a.
Arguments Err {A} err.

(** A call of a Go function that returns a [T]: it returns, or it
    panics. *)
Inductive outcome (T : Type) :=
  | Returns (t : T)
  | Panics.
Arguments Returns {T} t.
Arguments Panics {T}.

Definition APIError_IsNotFound (e : APIError) : bool :=
  str_eqb (Type_ e) ErrTypeNotFound.

Definition APIError_IsPermissionDenied (e : APIError) : bool :=
  str_eqb (Type_ e) ErrTypePermissionDenied.

Definition Unwrap (err : error) : option error :=
  match err with
  | ErrWrap _ inner => Some inner
  | _ => None
  end.

(** The chain of [err]: [err], then what [Unwrap() error] gives,
    repeatedly. *)
Fixpoint chain (err : error) : list error :=
  err :: match err with
         | ErrWrap _ inner => chain inner
         | _ => []
         end.


(** [errors.as(err, &apiErr)] for [apiErr] of type [*APIError], which is
    nil before the call: [None] when it reports false, and otherwise the
    pointer it leaves in [apiErr], [Some None] for the nil pointer.  It
    goes through the tree depth first, each error before what it wraps,
    and stops at the first error that is a [*APIError] or whose [As]
    method reports true. *)
Fixpoint errors_as (err : error) : option (option APIError) :=
  match err with
  | ErrAPIError e => Some (Some e)
  | ErrNilAPIError => Some None
  | ErrAs target => Some target
  | ErrOpaque _ => None
  | ErrWrap _ inner => errors_as inner
  | ErrJoin errs =>
      (fix first (l : list (option error)) : option (option APIError) :=
         match l with
         | [] => None
         | None :: rest => first rest
         | Some e :: rest =>
             match errors_as e with
             | Some found => Some found
             | None => first rest
             end
         end) errs
  end.

(** [errors.As(err, &apiErr)]: false for the nil error. *)
Definition errors_As (err : option error) : option (option APIError) :=
  match err with
  | None => None
  | Some e => errors_as e
  end.

(** [apiErr.IsNotFound()] reads [e.Type] through the pointer, so it panics
    when [errors.As] has left the nil pointer in [apiErr]. *)
Definition IsNotFound (err : option error) : outcome bool :=
  match errors_As err with
  | Some (Some apiErr) => Returns (APIError_IsNotFound apiErr)
  | Some None => Panics
  | None => Returns false
  end.

Definition IsPermissionDenied (err : option error) : outcome bool :=
  match errors_As err with
  | Some (Some apiErr) => Returns (APIError_IsPermissionDenied apiErr)
  | Some None => Panics
  | None => Returns false
  end.

(** An error made of [*APIError] values that are not nil, of errors that
    wrap nothing and of single [%w] wrappers only: the errors this
    package returns. *)
Fixpoint single_chain (err : error) : bool :=
  match err with
  | ErrAPIError _ | ErrOpaque _ => true
  | ErrWrap _ inner => single_chain inner
  | _ => false
  end.

(** ** net/http values *)

(** A response body as a stream: the bytes it yields and whether it ends
    in a read error instead of EOF. *)
Record Body := mkBody {
  data : string;
  readErr : bool
}.

Definition io_ReadAll (b : Body) : string * bool := (data b, readErr b).

Record Response := mkResponse {
  StatusCode : Z;
  RespBody : Body
}.

(** [http.Header] is [map[string][]string]. *)
Record Request := mkRequest {
  Method : string;
  URL : string;
  Header : gmap string (list string);
  ReqBody : option string
}.

(** [req.Header.Set(key, value)].  The two keys the package sets,
    [Content-Type] and [Guacamole-Token], are in canonical form already. *)
Definition Header_Set (req : Request) (key value : string) : Request :=
  {| Method := Method req; URL := URL req;
     Header := <[key := [value]]> (Header req); ReqBody := ReqBody req |}.

Definition Header_Get (req : Request) (key : string) : string :=
  match Header req !! key with
  | Some (v :: _) => v
  | _ => ""
  end.

(** ** The Go standard library, as far as the package relies on it

    What the package delegates to encoding/json and net/http and does not
    decide itself is a parameter of the development; every theorem holds
    for all instances. *)
Class GoLib := {
  (** [json.Unmarshal]: the value of a complete JSON text; [None] for bytes
      that are not one valid JSON text. *)
  json_value : string → option json;
  (** [json.Decoder.Decode]: the first JSON value of a stream; [None] when
      the stream holds none. *)
  json_stream_value : Body → option json;
  (** the JSON string literal encoding/json writes for a Go string *)
  json_string : string → string;
  (** the case folding under which encoding/json matches an object key
      with a struct field that no key names exactly *)
  foldName : string → string;
  (** [http.StatusText] *)
  StatusText : Z → string;
  (** [http.NewRequestWithContext] accepts this method and URL *)
  request_ok : string → string → bool
}.

(** ** types.go: AuthResponse *)

Record AuthResponse := mkAuthResponse {
  AuthToken : string;
  Username : string;
  DataSource : string;
  AvailableDataSources : list string
}.

(** ** client.go: Client *)

(** [httpClient] is the transport: what [c.httpClient.Do(req)] returns. *)
Record Client := mkClient {
  baseURL : string;
  httpClient : Request → result Response;
  authToken : string;
  dataSource : string
}.

(** ** types.go: NullableStringMap and the resource structs *)

(** [map[string]string] with the nil map as [None]. *)
Abbreviation NullableStringMap := (option (gmap string string)).

(** [m[k]]: the zero value [""] for a key that is not in the map, and for
    every key of the nil map. *)
Definition index (m : NullableStringMap) (k : string) : string :=
  match m with
  | Some entries => default "" (entries !! k)
  | None => ""
  end.

(** [_, ok := m[k]]. *)
Definition has_key (m : NullableStringMap) (k : string) : bool :=
  match m with
  | Some entries => bool_decide (is_Some (entries !! k))
  | None => false
  end.

(** The keys of [m]. *)
Definition keys (m : NullableStringMap) : gset string :=
  match m with
  | Some entries => dom entries
  | None => ∅
  end.

Definition len (m : NullableStringMap) : nat :=
  match m with
  | Some entries => size entries
  | None => 0
  end.

Module Connection.
Record t := mk {
  Identifier : string;
  Name : string;
  ParentIdentifier : string;
  Protocol : string;
  Parameters : option (gmap string string);
  Attributes : NullableStringMap;
  ActiveConnections : Z
}.
End Connection.

Module ConnectionGroup.
#[warnings="-register-all"] Inductive t := mk {
  Identifier : string;
  Name : string;
  ParentIdentifier : string;
  Type_ : string;
  Attributes : NullableStringMap;
  ActiveConnections : Z;
  ChildConnections : list Connection.t;
  ChildConnectionGroups : list t
}.
End ConnectionGroup.

Module User.
Record t := mk {
  Username : string;
  Password : string;
  Disabled : bool;
  Attributes : NullableStringMap;
  LastActive : Z
}.
End User.

Module UserGroup.
Record t := mk {
  Identifier : string;
  Disabled : bool;
  Attributes : NullableStringMap
}.
End UserGroup.

Module SharingProfile.
Record t := mk {
  Identifier : string;
  Name : string;
  PrimaryConnectionIdentifier : string;
  Parameters : option (gmap string string);
  Attributes : NullableStringMap
}.
End SharingProfile.

(** A struct field as [json.Marshal] writes it: the name of its tag,
    whether the tag says [omitempty], whether the value is the empty value
    of its type, and the JSON text of the value. *)
Record member := mkMember {
  mname : string;
  omitempty : bool;
  mempty : bool;
  mvalue : result string
}.

(** A struct field as encoding/json sees it: the name its tag gives,
    whether a JSON value fits the Go type of the field, and the store of a
    JSON value into it.  A value that does not fit is an
    [UnmarshalTypeError]; decoding goes on after it and the error is
    returned at the end. *)
Record field (S : Type) := mkField {
  fname : string;
  ffits : json → bool;
  fstore : json → S → S
}.
Arguments fname {S} f.
Arguments ffits {S} f v.
Arguments fstore {S} f v s.

Section Package.
Context `{GoLib}.

(** *** encoding/json: decoding into the package's types *)

(** The field an object key addresses: the one it names exactly, else the
    first it names up to case folding. *)
Definition find_field {S} (fields : list (field S)) (key : string)
  : option (field S) :=
  match find (λ f, str_eqb (fname f) key) fields with
  | Some f => Some f
  | None => find (λ f, str_eqb (foldName (fname f)) (foldName key)) fields
  end.

(** The name of the field a key addresses. *)
Definition addressed {S} (fields : list (field S)) (key : string)
  : option string :=
  fname <$> find_field fields key.

Definition decode_member {S} (fields : list (field S))
    (st : S * bool) (kv : string * json) : S * bool :=
  match find_field fields kv.1 with
  | None => st
  | Some f => (fstore f kv.2 st.1, st.2 || negb (ffits f kv.2))
  end.

(** Decoding a JSON value into a struct: [null] changes nothing, an object
    stores its members in order (a later member overwrites an earlier one),
    any other value is a type error.  The boolean reports an error. *)
Definition decode_struct {S} (fields : list (field S)) (v : json) (s : S)
  : S * bool :=
  match v with
  | JNull => (s, false)
  | JObject members => fold_left (decode_member fields) members (s, false)
  | _ => (s, true)
  end.

(** A JSON value into a Go [string]: [null] changes nothing, a value that
    is no string changes nothing and does not fit. *)
Definition decode_string (v : json) (old : string) : string :=
  match v with
  | JString s => s
  | _ => old
  end.

Definition fits_string (v : json) : bool :=
  match v with
  | JString _ | JNull => true
  | _ => false
  end.

(** A JSON value into a fresh Go [[]string]. *)
Definition decode_strings (v : json) (old : list string) : list string :=
  match v with
  | JArray elems => map (λ e, decode_string e "") elems
  | JNull => []
  | _ => old
  end.

Definition fits_strings (v : json) : bool :=
  match v with
  | JArray elems => forallb fits_string elems
  | JNull => true
  | _ => false
  end.

(** [v] is the JSON string [value]. *)
Definition is_string (v : json) (value : string) : bool :=
  match v with
  | JString s => str_eqb s value
  | _ => false
  end.

(** The object has a member named [name] whose value is the string
    [value], and every member that addresses the field [name] has that
    value. *)
Definition carries {S} (fields : list (field S))
    (members : list (string * json)) (name value : string) : bool :=
  existsb (λ kv, str_eqb kv.1 name && is_string kv.2 value) members
  && forallb (λ kv, if bool_decide (addressed fields kv.1 = Some name)
                    then is_string kv.2 value else true)
       members.

(** Every member that addresses a field has a value of the field's type. *)
Definition fits {S} (fields : list (field S))
    (members : list (string * json)) : bool :=
  forallb (λ kv, match find_field fields kv.1 with
                 | Some f => ffits f kv.2
                 | None => true
                 end) members.

(** [HTTPStatus] carries the tag [json:"-"] and is no field for
    encoding/json. *)
Definition APIError_fields : list (field APIError) :=
  [ mkField _ "message" fits_string (λ v e,
      {| Message := decode_string v (Message e); Type_ := Type_ e;
         HTTPStatus := HTTPStatus e |});
    mkField _ "type" fits_string (λ v e,
      {| Message := Message e; Type_ := decode_string v (Type_ e);
         HTTPStatus := HTTPStatus e |}) ].

Definition AuthResponse_fields : list (field AuthResponse) :=
  [ mkField _ "authToken" fits_string (λ v a,
      {| AuthToken := decode_string v (AuthToken a); Username := Username a;
         DataSource := DataSource a;
         AvailableDataSources := AvailableDataSources a |});
    mkField _ "username" fits_string (λ v a,
      {| AuthToken := AuthToken a; Username := decode_string v (Username a);
         DataSource := DataSource a;
         AvailableDataSources := AvailableDataSources a |});
    mkField _ "dataSource" fits_string (λ v a,
      {| AuthToken := AuthToken a; Username := Username a;
         DataSource := decode_string v (DataSource a);
         AvailableDataSources := AvailableDataSources a |});
    mkField _ "availableDataSources" fits_strings (λ v a,
      {| AuthToken := AuthToken a; Username := Username a;
         DataSource := DataSource a;
         AvailableDataSources :=
           decode_strings v (AvailableDataSources a) |}) ].

(** [json.Unmarshal(body, apiErr)]: bytes that are no JSON text are
    rejected before anything is stored. *)
Definition json_Unmarshal_APIError (body : string) (apiErr : APIError)
  : APIError * bool :=
  match json_value body with
  | None => (apiErr, true)
  | Some v => decode_struct APIError_fields v apiErr
  end.

(** [json.NewDecoder(body).Decode(&auth)]. *)
Definition json_Decode_AuthResponse (body : Body) (auth : AuthResponse)
  : AuthResponse * bool :=
  match json_stream_value body with
  | None => (auth, true)
  | Some v => decode_struct AuthResponse_fields v auth
  end.

(** *** client.go: parseError *)

Definition parseError (resp : Response) : error :=
  let apiErr :=
    {| Message := ""; Type_ := ""; HTTPStatus := StatusCode resp |} in
  let '(body, err) := io_ReadAll (RespBody resp) in
  if err || (String.length body =? 0)%nat then
    ErrAPIError {| Message := StatusText (StatusCode resp);
                   Type_ := Type_ apiErr; HTTPStatus := HTTPStatus apiErr |}
  else
    let '(apiErr, bad) := json_Unmarshal_APIError body apiErr in
    if bad then
      ErrAPIError {| Message := body; Type_ := Type_ apiErr;
                     HTTPStatus := HTTPStatus apiErr |}
    else ErrAPIError apiErr.

(** *** net/http: NewRequestWithContext *)

Definition http_NewRequest (method url : string) (body : option string)
  : result Request :=
  if request_ok method url then
    Ok {| Method := method; URL := url; Header := ∅; ReqBody := body |}
  else Err (ErrOpaque "net/http: invalid request").

(** *** client.go: do

    [B] is the Go type of the value passed as [body] and [json_Marshal] is
    [json.Marshal] on it; [None] is the nil [body]. *)
Section Pipeline.
Context {B : Type} (json_Marshal : B → result string).

(** The request [do] hands to the transport. *)
Definition do_request (c : Client) (method path : string) (body : option B)
  : result Request :=
  let bodyReader :=
    match body with
    | Some b =>
        match json_Marshal b with
        | Err err => Err (ErrWrap "guacamole: marshal request body: " err)
        | Ok data => Ok (Some data)
        end
    | None => Ok None
    end in
  match bodyReader with
  | Err err => Err err
  | Ok bodyReader =>
      match http_NewRequest method (baseURL c +:+ path) bodyReader with
      | Err err => Err (ErrWrap "guacamole: build request: " err)
      | Ok req =>
          let req :=
            if body is Some _
            then Header_Set req "Content-Type" "application/json" else req in
          let req :=
            if negb (str_eqb (authToken c) "")
            then Header_Set req "Guacamole-Token" (authToken c) else req in
          Ok req
      end
  end.

Definition do (c : Client) (method path : string) (body : option B)
  : result Response :=
  match do_request c method path body with
  | Err err => Err err
  | Ok req =>
      match httpClient c req with
      | Err err =>
          Err (ErrWrap ("guacamole: " +:+ method +:+ " " +:+ path +:+ ": ") err)
      | Ok resp =>
          if (StatusCode resp <? 200) || (StatusCode resp >=? 300)
          then Err (parseError resp)
          else Ok resp
      end
  end.

End Pipeline.

(** *** client.go: Authenticate, AuthToken, DataSource, dataPath *)

Definition with_session (c : Client) (token source : string) : Client :=
  {| baseURL := baseURL c; httpClient := httpClient c;
     authToken := token; dataSource := source |}.

(** The client after the call and the error returned. *)
Definition Authenticate (c : Client) (username password : string)
  : Client * option error :=
  let form :=
    url.Values_Set (url.Values_Set ∅ "username" username) "password" password in
  match http_NewRequest "POST" (baseURL c +:+ "/api/tokens")
          (Some (url.Values_Encode form)) with
  | Err err => (c, Some (ErrWrap "guacamole: build auth request: " err))
  | Ok req =>
      let req :=
        Header_Set req "Content-Type" "application/x-www-form-urlencoded" in
      match httpClient c req with
      | Err err => (c, Some (ErrWrap "guacamole: auth request: " err))
      | Ok resp =>
          if negb (StatusCode resp =? 200) then (c, Some (parseError resp))
          else
            let '(auth, bad) :=
              json_Decode_AuthResponse (RespBody resp)
                {| AuthToken := ""; Username := ""; DataSource := "";
                   AvailableDataSources := [] |} in
            if bad then
              (c, Some (ErrWrap "guacamole: decode auth response: "
                          (ErrOpaque "json: cannot decode")))
            else (with_session c (AuthToken auth) (DataSource auth), None)
      end
  end.

(** The request [Authenticate] hands to the transport. *)
Definition auth_request (c : Client) (username password : string) : Request :=
  {| Method := "POST"; URL := baseURL c +:+ "/api/tokens";
     Header := <["Content-Type" := ["application/x-www-form-urlencoded"]]> ∅;
     ReqBody :=
       Some (url.Values_Encode
               (url.Values_Set (url.Values_Set ∅ "username" username)
                  "password" password)) |}.

Definition Client_DataSource (c : Client) : string := dataSource c.
Definition Client_AuthToken (c : Client) : string := authToken c.

Definition dataPath (c : Client) (segments : list string) : string :=
  let parts := [url.PathEscape (dataSource c)] in
  let parts := fold_left (λ parts s, parts ++ [url.PathEscape s]) segments parts in
  "/api/session/data/" +:+ path.Join parts.

(** *** types.go: NullableStringMap.UnmarshalJSON *)

(** The [*string] a JSON value decodes to: [null] is the nil pointer, a
    string a pointer to it; for any other value, which does not fit, a
    pointer to the empty string is left behind. *)
Definition pointer (v : json) : option string :=
  match v with
  | JNull => None
  | JString s => Some s
  | _ => Some ""
  end.

(** One member of an object stored into [raw], of type
    [map[string]*string]. *)
Definition decode_raw_member (st : gmap string (option string) * bool)
    (kv : string * json) : gmap string (option string) * bool :=
  (<[kv.1 := pointer kv.2]> st.1, st.2 || negb (fits_string kv.2)).

(** [json.Unmarshal(data, &raw)] for [var raw map[string]*string]. *)
Definition json_Unmarshal_raw (data : string)
  : option (gmap string (option string)) * bool :=
  match json_value data with
  | None => (None, true)
  | Some JNull => (None, false)
  | Some (JObject members) =>
      let '(raw, bad) := fold_left decode_raw_member members (∅, false) in
      (Some raw, bad)
  | Some _ => (None, true)
  end.

(** The map [m] points to after the call, and the error returned. *)
Definition UnmarshalJSON (m : NullableStringMap) (data : string)
  : NullableStringMap * option error :=
  let '(raw, bad) := json_Unmarshal_raw data in
  if bad then (m, Some (ErrOpaque "json: cannot unmarshal"))
  else
    let made : gmap string string := ∅ in
    (Some (map_fold (λ k v (acc : gmap string string),
                       match v with
                       | Some s => <[k := s]> acc
                       | None => acc
                       end) made (default ∅ raw)),
     None).

(** *** types.go: NullableStringMap.MarshalJSON *)

(** [json.Marshal] of a [map[string]string]: [null] for the nil map, else
    the entries in key order. *)
Definition json_Marshal_map (m : option (gmap string string)) : string :=
  match m with
  | None => "null"
  | Some entries =>
      "{" +:+ strings_Join
                (map (λ kv, json_string kv.1 +:+ ":" +:+ json_string kv.2)
                     (merge_sort by_key_le (map_to_list entries))) ","
          +:+ "}"
  end.

Definition MarshalJSON (m : NullableStringMap) : result string :=
  match m with
  | None => Ok "{}"
  | Some _ => Ok (json_Marshal_map m)
  end.

(** *** encoding/json: encoding the resource structs *)

(** The members [json.Marshal] writes for a struct: a field is left out
    when its tag says [omitempty] and its value is empty. *)
Definition written (fields : list member) : list member :=
  filter (λ f, ¬ (omitempty f && mempty f)) fields.

(** A member as written: the quoted name, a colon, the value. *)
Definition member_text (name v : string) : string :=
  dq +:+ name +:+ dq +:+ ":" +:+ v.

Fixpoint member_texts (fields : list member) : result (list string) :=
  match fields with
  | [] => Ok []
  | f :: rest =>
      match mvalue f with
      | Err err => Err err
      | Ok v =>
          match member_texts rest with
          | Err err => Err err
          | Ok texts => Ok (member_text (mname f) v :: texts)
          end
      end
  end.

Definition encode_struct (fields : list member) : result string :=
  match member_texts (written fields) with
  | Err err => Err err
  | Ok texts => Ok ("{" +:+ strings_Join texts "," +:+ "}")
  end.

Fixpoint results {A} (l : list (result A)) : result (list A) :=
  match l with
  | [] => Ok []
  | Err err :: _ => Err err
  | Ok a :: rest =>
      match results rest with
      | Err err => Err err
      | Ok l' => Ok (a :: l')
      end
  end.

(** A Go slice of structs: [null] for the nil slice is not reached, the
    slices below are written under [omitempty] only when non-empty. *)
Definition encode_array (elems : list (result string)) : result string :=
  match results elems with
  | Err err => Err err
  | Ok texts => Ok ("[" +:+ strings_Join texts "," +:+ "]")
  end.

Definition json_int (n : Z) : string :=
  DecimalString.NilZero.string_of_int (Z.to_int n).

Definition json_bool (b : bool) : string := if b then "true" else "false".

Definition field_string (name : string) (omit : bool) (v : string) : member :=
  mkMember name omit (str_eqb v "") (Ok (json_string v)).
Definition field_bool (name : string) (omit : bool) (v : bool) : member :=
  mkMember name omit (negb v) (Ok (json_bool v)).
Definition field_int (name : string) (omit : bool) (v : Z) : member :=
  mkMember name omit (v =? 0) (Ok (json_int v)).
(** A [NullableStringMap] field is written by its [MarshalJSON]. *)
Definition field_attributes (name : string) (omit : bool)
    (v : NullableStringMap) : member :=
  mkMember name omit (len v =? 0)%nat (MarshalJSON v).


Definition User_fields (u : User.t) : list member :=
  [ field_string "username" false (User.Username u);
    field_string "password" true (User.Password u);
    field_bool "disabled" true (User.Disabled u);
    field_attributes "attributes" false (User.Attributes u);
    field_int "lastActive" true (User.LastActive u) ].



Definition json_Marshal_User (u : User.t) : result string :=
  encode_struct (User_fields u).




End Package.

(** ** A reference instance of the library

    A scanner for the JSON grammar (RFC 8259), a string encoder, ASCII case
    folding and a status text table.  The instance lets the embedding run
    on request and response bytes; no theorem depends on how it is
    written. *)
Module Reference.

Definition chr (n : nat) : byte := Ascii.ascii_of_nat n.

Definition is_space (c : byte) : bool :=
  Ascii.eqb c " " || Ascii.eqb c (chr 9) || Ascii.eqb c (chr 10)
  || Ascii.eqb c (chr 13).

Fixpoint skip_space (s : string) : string :=
  match s with
  | String c s' => if is_space c then skip_space s' else s
  | EmptyString => EmptyString
  end.

Fixpoint expect (word s : string) : option string :=
  match word, s with
  | EmptyString, _ => Some s
  | String w word', String c s' =>
      if Ascii.eqb w c then expect word' s' else None
  | String _ _, EmptyString => None
  end.

Definition is_digit (c : byte) : bool := between "0" "9" c.

Definition hex_val (c : byte) : option N :=
  if between "0" "9" c then Some (code c - 48)%N
  else if between "a" "f" c then Some (code c - 87)%N
  else if between "A" "F" c then Some (code c - 55)%N
  else None.

Definition hex4 (s : string) : option (N * string) :=
  match s with
  | String a (String b (String c (String d rest))) =>
      match hex_val a, hex_val b, hex_val c, hex_val d with
      | Some x, Some y, Some z, Some w =>
          Some (((x * 16 + y) * 16 + z) * 16 + w, rest)%N
      | _, _, _, _ => None
      end
  | _ => None
  end.

Definition byte_of (n : N) : byte := Ascii.ascii_of_N n.

Definition cont (n : N) : byte := byte_of (128 + N.land n 63).

Definition utf8 (n : N) : string :=
  (if n <? 128 then String (byte_of n) EmptyString
   else if n <? 2048 then
     String (byte_of (192 + N.shiftr n 6)) (String (cont n) EmptyString)
   else if n <? 65536 then
     String (byte_of (224 + N.shiftr n 12))
       (String (cont (N.shiftr n 6)) (String (cont n) EmptyString))
   else
     String (byte_of (240 + N.shiftr n 18))
       (String (cont (N.shiftr n 12))
          (String (cont (N.shiftr n 6)) (String (cont n) EmptyString))))%N.

Definition is_high (n : N) : bool := ((55296 <=? n) && (n <? 56320))%N.
Definition is_low (n : N) : bool := ((56320 <=? n) && (n <? 57344))%N.

(** A [\u] escape, after the [u]: a surrogate pair is one code point, a
    lone surrogate is U+FFFD. *)
Definition scan_unicode (s : string) : option (string * string) :=
  match hex4 s with
  | None => None
  | Some (n, rest) =>
      if is_high n then
        match expect "\u" rest with
        | Some rest' =>
            match hex4 rest' with
            | Some (m, rest'') =>
                if is_low m
                then Some (utf8 (65536 + (n - 55296) * 1024 + (m - 56320))%N,
                           rest'')
                else Some (utf8 65533, rest)
            | None => Some (utf8 65533, rest)
            end
        | None => Some (utf8 65533, rest)
        end
      else if is_low n then Some (utf8 65533, rest)
      else Some (utf8 n, rest)
  end.

Definition simple_escape (c : byte) : option byte :=
  if Ascii.eqb c (chr 34) then Some (chr 34)
  else if Ascii.eqb c "\" then Some "\"%char
  else if Ascii.eqb c "/" then Some "/"%char
  else if Ascii.eqb c "b" then Some (chr 8)
  else if Ascii.eqb c "f" then Some (chr 12)
  else if Ascii.eqb c "n" then Some (chr 10)
  else if Ascii.eqb c "r" then Some (chr 13)
  else if Ascii.eqb c "t" then Some (chr 9)
  else None.

(** The rest of a string literal, after its opening quote. *)
Fixpoint scan_string (fuel : nat) (s : string) : option (string * string) :=
  match fuel with
  | O => None
  | S fuel =>
      match s with
      | EmptyString => None
      | String c rest =>
          if Ascii.eqb c (chr 34) then Some (EmptyString, rest)
          else if (code c <? 32)%N then None
          else if Ascii.eqb c "\" then
            match rest with
            | EmptyString => None
            | String e rest' =>
                if Ascii.eqb e "u" then
                  match scan_unicode rest' with
                  | Some (bytes, rest'') =>
                      match scan_string fuel rest'' with
                      | Some (str, r) => Some (bytes +:+ str, r)
                      | None => None
                      end
                  | None => None
                  end
                else
                  match simple_escape e with
                  | Some b =>
                      match scan_string fuel rest' with
                      | Some (str, r) => Some (String b str, r)
                      | None => None
                      end
                  | None => None
                  end
            end
          else
            match scan_string fuel rest with
            | Some (str, r) => Some (String c str, r)
            | None => None
            end
      end
  end.

Fixpoint take_digits (s : string) : string * string :=
  match s with
  | String c s' =>
      if is_digit c then let '(ds, r) := take_digits s' in (String c ds, r)
      else (EmptyString, s)
  | EmptyString => (EmptyString, EmptyString)
  end.

(** A number literal: sign, integer part without a leading zero, fraction,
    exponent. *)
Definition scan_number (s : string) : option (string * string) :=
  let '(sign, s1) :=
    match s with
    | String c s' => if Ascii.eqb c "-" then ("-", s') else ("", s)
    | EmptyString => ("", s)
    end in
  let '(int, s2) := take_digits s1 in
  if str_eqb int "" then None
  else if (1 <? String.length int)%nat && bool_decide (String.get 0 int = Some "0"%char)
  then None
  else
    let frac :=
      match s2 with
      | String c s' =>
          if Ascii.eqb c "." then
            let '(ds, r) := take_digits s' in
            if str_eqb ds "" then None else Some ("." +:+ ds, r)
          else Some ("", s2)
      | EmptyString => Some ("", s2)
      end in
    match frac with
    | None => None
    | Some (f, s3) =>
        match s3 with
        | String c s' =>
            if Ascii.eqb c "e" || Ascii.eqb c "E" then
              let '(esign, s4) :=
                match s' with
                | String d s'' =>
                    if Ascii.eqb d "+" || Ascii.eqb d "-"
                    then (String d EmptyString, s'') else ("", s')
                | EmptyString => ("", s')
                end in
              let '(ds, r) := take_digits s4 in
              if str_eqb ds "" then None
              else Some (sign +:+ int +:+ f +:+ String c esign +:+ ds, r)
            else Some (sign +:+ int +:+ f, s3)
        | EmptyString => Some (sign +:+ int +:+ f, s3)
        end
    end.

Fixpoint scan_value (fuel : nat) (s : string) : option (json * string) :=
  match fuel with
  | O => None
  | S fuel =>
      match skip_space s with
      | EmptyString => None
      | String c rest =>
          if Ascii.eqb c "n" then (λ r, (JNull, r)) <$> expect "ull" rest
          else if Ascii.eqb c "t" then (λ r, (JBool true, r)) <$> expect "rue" rest
          else if Ascii.eqb c "f" then (λ r, (JBool false, r)) <$> expect "alse" rest
          else if Ascii.eqb c (chr 34) then
            (λ sr, (JString sr.1, sr.2)) <$> scan_string (S (String.length rest)) rest
          else if Ascii.eqb c "[" then
            match skip_space rest with
            | String d rest' =>
                if Ascii.eqb d "]" then Some (JArray [], rest')
                else (λ er, (JArray er.1, er.2)) <$> scan_elems fuel rest
            | EmptyString => None
            end
          else if Ascii.eqb c "{" then
            match skip_space rest with
            | String d rest' =>
                if Ascii.eqb d "}" then Some (JObject [], rest')
                else (λ mr, (JObject mr.1, mr.2)) <$> scan_members fuel rest
            | EmptyString => None
            end
          else (λ nr, (JNumber nr.1, nr.2)) <$> scan_number (String c rest)
      end
  end
with scan_elems (fuel : nat) (s : string) : option (list json * string) :=
  match fuel with
  | O => None
  | S fuel =>
      match scan_value fuel s with
      | None => None
      | Some (v, rest) =>
          match skip_space rest with
          | String c rest' =>
              if Ascii.eqb c "," then
                (λ er, (v :: er.1, er.2)) <$> scan_elems fuel rest'
              else if Ascii.eqb c "]" then Some ([v], rest')
              else None
          | EmptyString => None
          end
      end
  end
with scan_members (fuel : nat) (s : string)
  : option (list (string * json) * string) :=
  match fuel with
  | O => None
  | S fuel =>
      match skip_space s with
      | String q rest =>
          if Ascii.eqb q (chr 34) then
            match scan_string (S (String.length rest)) rest with
            | None => None
            | Some (key, rest1) =>
                match skip_space rest1 with
                | String colon rest2 =>
                    if Ascii.eqb colon ":" then
                      match scan_value fuel rest2 with
                      | None => None
                      | Some (v, rest3) =>
                          match skip_space rest3 with
                          | String c rest4 =>
                              if Ascii.eqb c "," then
                                (λ mr, ((key, v) :: mr.1, mr.2))
                                  <$> scan_members fuel rest4
                              else if Ascii.eqb c "}" then
                                Some ([(key, v)], rest4)
                              else None
                          | EmptyString => None
                          end
                      end
                    else None
                | EmptyString => None
                end
            end
          else None
      | EmptyString => None
      end
  end.

Definition scan (s : string) : option (json * string) :=
  scan_value (2 * String.length s + 2) s.

Definition value (s : string) : option json :=
  match scan s with
  | Some (v, rest) => if str_eqb (skip_space rest) "" then Some v else None
  | None => None
  end.

Definition stream_value (b : Body) : option json :=
  fst <$> scan (data b).

Definition hex_digit (n : N) : byte :=
  match String.get (N.to_nat n) "0123456789abcdef" with
  | Some c => c
  | None => "0"%char
  end.

Definition quote_byte (c : byte) : string :=
  if Ascii.eqb c (chr 34) then String "\" dq
  else if Ascii.eqb c "\" then "\\"
  else if Ascii.eqb c (chr 10) then "\n"
  else if Ascii.eqb c (chr 13) then "\r"
  else if Ascii.eqb c (chr 9) then "\t"
  else if (code c <? 32)%N || one_of c "<>&" then
    "\u00" +:+ String (hex_digit (N.shiftr (code c) 4))
                 (String (hex_digit (N.land (code c) 15)) EmptyString)
  else String c EmptyString.

Fixpoint quote_bytes (s : string) : string :=
  match s with
  | EmptyString => EmptyString
  | String c s' => quote_byte c +:+ quote_bytes s'
  end.

Definition quote (s : string) : string := dq +:+ quote_bytes s +:+ dq.

Definition upper (c : byte) : byte :=
  if between "a" "z" c then byte_of (code c - 32) else c.

Fixpoint fold (s : string) : string :=
  match s with
  | EmptyString => EmptyString
  | String c s' => String (upper c) (fold s')
  end.

(** The table of [http.StatusText]; the empty string for a code it does
    not hold. *)
Definition status_texts : list (Z * string) :=
  [
    (100, "Continue");
    (101, "Switching Protocols");
    (102, "Processing");
    (103, "Early Hints");
    (200, "OK");
    (201, "Created");
    (202, "Accepted");
    (203, "Non-Authoritative Information");
    (204, "No Content");
    (205, "Reset Content");
    (206, "Partial Content");
    (207, "Multi-Status");
    (208, "Already Reported");
    (226, "IM Used");
    (300, "Multiple Choices");
    (301, "Moved Permanently");
    (302, "Found");
    (303, "See Other");
    (304, "Not Modified");
    (305, "Use Proxy");
    (307, "Temporary Redirect");
    (308, "Permanent Redirect");
    (400, "Bad Request");
    (401, "Unauthorized");
    (402, "Payment Required");
    (403, "Forbidden");
    (404, "Not Found");
    (405, "Method Not Allowed");
    (406, "Not Acceptable");
    (407, "Proxy Authentication Required");
    (408, "Request Timeout");
    (409, "Conflict");
    (410, "Gone");
    (411, "Length Required");
    (412, "Precondition Failed");
    (413, "Request Entity Too Large");
    (414, "Request URI Too Long");
    (415, "Unsupported Media Type");
    (416, "Requested Range Not Satisfiable");
    (417, "Expectation Failed");
    (418, "I'm a teapot");
    (421, "Misdirected Request");
    (422, "Unprocessable Entity");
    (423, "Locked");
    (424, "Failed Dependency");
    (425, "Too Early");
    (426, "Upgrade Required");
    (428, "Precondition Required");
    (429, "Too Many Requests");
    (431, "Request Header Fields Too Large");
    (451, "Unavailable For Legal Reasons");
    (500, "Internal Server Error");
    (501, "Not Implemented");
    (502, "Bad Gateway");
    (503, "Service Unavailable");
    (504, "Gateway Timeout");
    (505, "HTTP Version Not Supported");
    (506, "Variant Also Negotiates");
    (507, "Insufficient Storage");
    (508, "Loop Detected");
    (510, "Not Extended");
    (511, "Network Authentication Required")
  ].

Definition status_text (status : Z) : string :=
  match find (λ row, row.1 =? status) status_texts with
  | Some row => row.2
  | None => ""
  end.

Definition acceptable (method url : string) : bool :=
  all_bytes (between "A" "Z") method
  && all_bytes (λ c, (32 <? code c)%N && negb (Ascii.eqb c (chr 127))) url.

Definition lib : GoLib :=
  {| json_value := value;
     json_stream_value := stream_value;
     json_string := quote;
     foldName := fold;
     StatusText := status_text;
     request_ok := acceptable |}.

End Reference.

(** ** The edit kinds of the patch builders, as the specification
    tabulates them *)

Inductive edit_kind :=
  | ConnectionPermission
  | ConnectionGroupPermission
  | SharingProfilePermission
  | UserPermission
  | UserGroupPermission
  | SystemPermission
  | GroupMembership.

(** The path template of an edit kind for the target [id]. *)
Definition path_template (kind : edit_kind) (id : string) : string :=
  match kind with
  | ConnectionPermission => "/connectionPermissions/" +:+ id
  | ConnectionGroupPermission => "/connectionGroupPermissions/" +:+ id
  | SharingProfilePermission => "/sharingProfilePermissions/" +:+ id
  | UserPermission => "/userPermissions/" +:+ id
  | UserGroupPermission => "/userGroupPermissions/" +:+ id
  | SystemPermission => "/systemPermissions"
  | GroupMembership => "/"
  end.

(** What the descriptor carries as its value: the member identifier for a
    membership edit, the permission name otherwise. *)
Definition value_carried (kind : edit_kind) (id permission : string) : string :=
  match kind with
  | GroupMembership => id
  | _ => permission
  end.

(** The builder of the package for an edit kind; [add] selects the [Add]
    or the [Remove] builder. *)
Definition builder (add : bool) (kind : edit_kind) (id permission : string)
  : PatchOperation :=
  match kind, add with
  | ConnectionPermission, true => AddConnectionPermission id permission
  | ConnectionPermission, false => RemoveConnectionPermission id permission
  | ConnectionGroupPermission, true => AddConnectionGroupPermission id permission
  | ConnectionGroupPermission, false => RemoveConnectionGroupPermission id permission
  | SharingProfilePermission, true => AddSharingProfilePermission id permission
  | SharingProfilePermission, false => RemoveSharingProfilePermission id permission
  | UserPermission, true => AddUserPermission id permission
  | UserPermission, false => RemoveUserPermission id permission
  | UserGroupPermission, true => AddUserGroupPermission id permission
  | UserGroupPermission, false => RemoveUserGroupPermission id permission
  | SystemPermission, true => AddSystemPermission permission
  | SystemPermission, false => RemoveSystemPermission permission
  | GroupMembership, true => AddGroupMembership id
  | GroupMembership, false => RemoveGroupMembership id
  end.

(** ** The decoding of the attribute map, as the specification words it *)

(** The value of the last member of an object with the key [k]; this is
    the member encoding/json leaves in a map. *)
Fixpoint last_value (k : string) (members : list (string * json))
  : option json :=
  match members with
  | [] => None
  | kv :: rest =>
      match last_value k rest with
      | Some v => Some v
      | None => if str_eqb kv.1 k then Some kv.2 else None
      end
  end.

Definition strings_and_nulls (members : list (string * json)) : bool :=
  forallb (λ kv, fits_string kv.2) members.

(** The decoding as the specification states it: for an object of strings
    and nulls the call succeeds, a key with [null] reads as the empty
    string, a key with a string reads as that string, and the keys of the
    result are the keys of the object. *)
Definition decodes_with_keys_preserved `{GoLib} (m : NullableStringMap)
    (data : string) : Prop :=
  ∀ members,
    json_value data = Some (JObject members) →
    strings_and_nulls members = true →
    ∃ m', UnmarshalJSON m data = (m', None)
          ∧ (∀ k, (k, JNull) ∈ members → index m' k = "")
          ∧ (∀ k s, (k, JString s) ∈ members → index m' k = s)
          ∧ keys m' = list_to_set members.*1.

(** ** client.go: NewClient, NewClientWithHTTPClient *)

(** [strings.TrimRight(s, cutset)] for a cutset of ASCII bytes: the
    trailing bytes of [s] that are in [cutset] are removed. *)
Fixpoint strings_TrimRight (s cutset : string) : string :=
  match s with
  | EmptyString => EmptyString
  | String c s' =>
      match strings_TrimRight s' cutset with
      | EmptyString =>
          if one_of c cutset then EmptyString else String c EmptyString
      | rest => String c rest
      end
  end.

Definition NewClientWithHTTPClient (baseURL : string)
    (httpClient : Request → result Response) : Client :=
  {| baseURL := strings_TrimRight baseURL "/"; httpClient := httpClient;
     authToken := ""; dataSource := "" |}.

(** [timeout_client] is the [http.Client] with the timeout of 30 seconds
    that [NewClient] builds. *)
Definition NewClient (timeout_client : Request → result Response)
    (baseURL : string) : Client :=
  {| baseURL := strings_TrimRight baseURL "/"; httpClient := timeout_client;
     authToken := ""; dataSource := "" |}.

(** [n] slashes. *)
Fixpoint slashes (n : nat) : string :=
  match n with
  | O => EmptyString
  | S n' => String "/" (slashes n')
  end.

Definition ends_with_slash (s : string) : Prop := ∃ t, s = t +:+ "/".

(** The bytes [url.PathEscape] and [path.Join] can leave in a path:
    unreserved bytes, the percent sign of an escape, the sub-delimiters a
    segment keeps, and the slash between segments. *)
Definition path_byte (c : byte) : bool :=
  between "a" "z" c || between "A" "Z" c || between "0" "9" c
  || one_of c "-_.~$&+:=@%/".

(** The bytes [url.QueryEscape] can write. *)
Definition query_byte (c : byte) : bool :=
  between "a" "z" c || between "A" "Z" c || between "0" "9" c
  || one_of c "-_.~%+".

(** ** types.go: the JSON text of patch operations *)

Section Operations.
Context `{GoLib}.

Definition json_Marshal_PatchOperation (op : PatchOperation) : result string :=
  encode_struct
    [ field_string "op" false (Op op);
      field_string "path" false (Path op);
      field_string "value" false (Value op) ].

(** [json.Marshal] of a [[]PatchOperation]; [None] is the nil slice. *)
Definition json_Marshal_ops (ops : option (list PatchOperation))
  : result string :=
  match ops with
  | None => Ok "null"
  | Some l => encode_array (map json_Marshal_PatchOperation l)
  end.

End Operations.

(** ** client.go: the HTTP helpers *)
Module client.
Section Helpers.
Context `{GoLib}.

(** [do] with the nil body of [get] and [delete]. *)
Definition do_nil (c : Client) (method path : string) : result Response :=
  do (B := Empty_set) (λ b, match b with end) c method path None.

Section Decoding.
Context {T : Type} (decode : json → T → T * bool).

(** [json.NewDecoder(body).Decode(out)], where [decode] is the decoding
    of a JSON value into the Go type of [out]; its boolean reports a value
    that does not fit.  What [out] points to afterwards, and the error. *)
Definition json_Decode (body : Body) (out : T) : T * option error :=
  match json_stream_value body with
  | None => (out, Some (ErrOpaque "json: no value to decode"))
  | Some v =>
      let '(out', bad) := decode v out in
      (out', if bad then Some (ErrOpaque "json: cannot unmarshal") else None)
  end.

Definition get (c : Client) (path : string) (out : T) : T * option error :=
  match do_nil c "GET" path with
  | Err err => (out, Some err)
  | Ok resp => json_Decode (RespBody resp) out
  end.

(** [out] is [None] for the nil [out]. *)
Definition post {B : Type} (json_Marshal : B → result string)
    (c : Client) (path : string) (body : option B) (out : option T)
  : option T * option error :=
  match do json_Marshal c "POST" path body with
  | Err err => (out, Some err)
  | Ok resp =>
      match out with
      | None => (None, None)
      | Some o =>
          let '(o', err) := json_Decode (RespBody resp) o in (Some o', err)
      end
  end.

End Decoding.

Definition put {B : Type} (json_Marshal : B → result string)
    (c : Client) (path : string) (body : option B) : option error :=
  match do json_Marshal c "PUT" path body with
  | Err err => Some err
  | Ok _ => None
  end.

Definition delete (c : Client) (path : string) : option error :=
  match do_nil c "DELETE" path with
  | Err err => Some err
  | Ok _ => None
  end.

(** The slice [ops], nil or not, is a body that is not nil. *)
Definition patch (c : Client) (path : string)
    (ops : option (list PatchOperation)) : option error :=
  match do json_Marshal_ops c "PATCH" path (Some ops) with
  | Err err => Some err
  | Ok _ => None
  end.

End Helpers.
End client.

(** ** client.go: Logout *)

Definition Logout `{GoLib} (c : Client) : option error :=
  client.delete c "/api/session".

(** ** encoding/json: decoding the resource structs *)

(** The outcome of storing a member into a field: stored; stored as far
    as possible with a type error, after which decoding goes on; or the
    error of an [UnmarshalJSON] method, which ends the decoding at once. *)
Inductive stored (S : Type) :=
  | Stored (s : S)
  | Mistyped (s : S)
  | Failed (err : error).
Arguments Stored {S} s.
Arguments Mistyped {S} s.
Arguments Failed {S} err.

Record ufield (S : Type) := mkUField {
  uname : string;
  ustore : json → S → stored S
}.
Arguments uname {S} u.
Arguments ustore {S} u v s.

(** A field of a plain Go type. *)
Definition plain {S} (name : string) (fits : json → bool)
    (store : json → S → S) : ufield S :=
  mkUField _ name (λ v s, if fits v then Stored (store v s)
                          else Mistyped (store v s)).

(** A JSON value into a Go [bool]. *)
Definition decode_bool (v : json) (old : bool) : bool :=
  match v with
  | JBool b => b
  | _ => old
  end.

Definition fits_bool (v : json) : bool :=
  match v with
  | JBool _ | JNull => true
  | _ => false
  end.

Fixpoint parse_digits (s : string) (acc : Z) : option Z :=
  match s with
  | EmptyString => Some acc
  | String c s' =>
      if between "0" "9" c
      then parse_digits s' (10 * acc + (Z.of_N (code c) - 48))
      else None
  end.

(** [strconv.ParseInt(literal, 10, 64)] on a JSON number literal: the
    literal must be an integer literal in the range of [int64]. *)
Definition parse_int64 (raw : string) : option Z :=
  let signed :=
    match raw with
    | String c rest =>
        if Ascii.eqb c "-"
        then (if str_eqb rest "" then None else Z.opp <$> parse_digits rest 0)
        else parse_digits raw 0
    | EmptyString => None
    end in
  match signed with
  | Some n =>
      if (- 2 ^ 63 <=? n) && (n <? 2 ^ 63) then Some n else None
  | None => None
  end.

(** A JSON value into a Go [int64]. *)
Definition decode_int64 (v : json) (old : Z) : Z :=
  match v with
  | JNumber raw => default old (parse_int64 raw)
  | _ => old
  end.

Definition fits_int64 (v : json) : bool :=
  match v with
  | JNumber raw => bool_decide (is_Some (parse_int64 raw))
  | JNull => true
  | _ => false
  end.

Module HistoryEntry.
Record t := mk {
  Identifier : string;
  UUID : string;
  Username : string;
  RemoteHost : string;
  StartDate : Z;
  EndDate : Z;
  Active : bool
}.
Definition zero : t := mk "" "" "" "" 0 0 false.
End HistoryEntry.

Definition User_zero : User.t := User.mk "" "" false None 0.

Module Self.
Record t := mk {
  Username : string;
  Disabled : bool;
  LastActive : Z;
  Attributes : NullableStringMap
}.
End Self.

Section Resources.
Context `{GoLib}.

Definition find_ufield {S} (fields : list (ufield S)) (key : string)
  : option (ufield S) :=
  match find (λ f, str_eqb (uname f) key) fields with
  | Some f => Some f
  | None => find (λ f, str_eqb (foldName (uname f)) (foldName key)) fields
  end.

(** The members of an object stored in order into a struct; [bad] is set
    once a value did not fit. *)
Fixpoint decode_ufields {S} (fields : list (ufield S))
    (members : list (string * json)) (s : S) (bad : bool) : S * option error :=
  match members with
  | [] => (s, if bad then Some (ErrOpaque "json: cannot unmarshal") else None)
  | kv :: rest =>
      match find_ufield fields kv.1 with
      | None => decode_ufields fields rest s bad
      | Some f =>
          match ustore f kv.2 s with
          | Stored s' => decode_ufields fields rest s' bad
          | Mistyped s' => decode_ufields fields rest s' true
          | Failed err => (s, Some err)
          end
      end
  end.

Definition decode_ustruct {S} (fields : list (ufield S)) (v : json) (s : S)
  : S * option error :=
  match v with
  | JNull => (s, None)
  | JObject members => decode_ufields fields members s false
  | _ => (s, Some (ErrOpaque "json: cannot unmarshal"))
  end.

(** [json.Unmarshal(data, &raw)] of [UnmarshalJSON], on the value of
    [data]. *)
Definition decode_raw (v : json)
  : option (gmap string (option string)) * bool :=
  match v with
  | JNull => (None, false)
  | JObject members =>
      let '(raw, bad) := fold_left decode_raw_member members (∅, false) in
      (Some raw, bad)
  | _ => (None, true)
  end.

(** [UnmarshalJSON] as the decoder of a struct calls it: on the text of
    the member, given here by its value. *)
Definition UnmarshalJSON_member (m : NullableStringMap) (v : json)
  : NullableStringMap * option error :=
  let '(raw, bad) := decode_raw v in
  if bad then (m, Some (ErrOpaque "json: cannot unmarshal"))
  else
    let made : gmap string string := ∅ in
    (Some (map_fold (λ k v (acc : gmap string string),
                       match v with
                       | Some s => <[k := s]> acc
                       | None => acc
                       end) made (default ∅ raw)),
     None).

Definition User_ufields : list (ufield User.t) :=
  [ plain "username" fits_string (λ v u,
      User.mk (decode_string v (User.Username u)) (User.Password u)
        (User.Disabled u) (User.Attributes u) (User.LastActive u));
    plain "password" fits_string (λ v u,
      User.mk (User.Username u) (decode_string v (User.Password u))
        (User.Disabled u) (User.Attributes u) (User.LastActive u));
    plain "disabled" fits_bool (λ v u,
      User.mk (User.Username u) (User.Password u)
        (decode_bool v (User.Disabled u)) (User.Attributes u)
        (User.LastActive u));
    mkUField _ "attributes" (λ v u,
      match UnmarshalJSON_member (User.Attributes u) v with
      | (m, None) =>
          Stored (User.mk (User.Username u) (User.Password u)
                    (User.Disabled u) m (User.LastActive u))
      | (_, Some err) => Failed err
      end);
    plain "lastActive" fits_int64 (λ v u,
      User.mk (User.Username u) (User.Password u) (User.Disabled u)
        (User.Attributes u) (decode_int64 v (User.LastActive u))) ].

(** The decoding of a JSON value into a [User], for [get] and [post]. *)
Definition decode_User (v : json) (u : User.t) : User.t * bool :=
  let '(u', err) := decode_ustruct User_ufields v u in
  (u', bool_decide (is_Some err)).

Definition HistoryEntry_fields : list (field HistoryEntry.t) :=
  [ mkField _ "identifier" fits_string (λ v e,
      HistoryEntry.mk (decode_string v (HistoryEntry.Identifier e))
        (HistoryEntry.UUID e) (HistoryEntry.Username e)
        (HistoryEntry.RemoteHost e) (HistoryEntry.StartDate e)
        (HistoryEntry.EndDate e) (HistoryEntry.Active e));
    mkField _ "uuid" fits_string (λ v e,
      HistoryEntry.mk (HistoryEntry.Identifier e)
        (decode_string v (HistoryEntry.UUID e)) (HistoryEntry.Username e)
        (HistoryEntry.RemoteHost e) (HistoryEntry.StartDate e)
        (HistoryEntry.EndDate e) (HistoryEntry.Active e));
    mkField _ "username" fits_string (λ v e,
      HistoryEntry.mk (HistoryEntry.Identifier e) (HistoryEntry.UUID e)
        (decode_string v (HistoryEntry.Username e))
        (HistoryEntry.RemoteHost e) (HistoryEntry.StartDate e)
        (HistoryEntry.EndDate e) (HistoryEntry.Active e));
    mkField _ "remoteHost" fits_string (λ v e,
      HistoryEntry.mk (HistoryEntry.Identifier e) (HistoryEntry.UUID e)
        (HistoryEntry.Username e)
        (decode_string v (HistoryEntry.RemoteHost e))
        (HistoryEntry.StartDate e) (HistoryEntry.EndDate e)
        (HistoryEntry.Active e));
    mkField _ "startDate" fits_int64 (λ v e,
      HistoryEntry.mk (HistoryEntry.Identifier e) (HistoryEntry.UUID e)
        (HistoryEntry.Username e) (HistoryEntry.RemoteHost e)
        (decode_int64 v (HistoryEntry.StartDate e)) (HistoryEntry.EndDate e)
        (HistoryEntry.Active e));
    mkField _ "endDate" fits_int64 (λ v e,
      HistoryEntry.mk (HistoryEntry.Identifier e) (HistoryEntry.UUID e)
        (HistoryEntry.Username e) (HistoryEntry.RemoteHost e)
        (HistoryEntry.StartDate e) (decode_int64 v (HistoryEntry.EndDate e))
        (HistoryEntry.Active e));
    mkField _ "active" fits_bool (λ v e,
      HistoryEntry.mk (HistoryEntry.Identifier e) (HistoryEntry.UUID e)
        (HistoryEntry.Username e) (HistoryEntry.RemoteHost e)
        (HistoryEntry.StartDate e) (HistoryEntry.EndDate e)
        (decode_bool v (HistoryEntry.Active e))) ].

(** A JSON value into a fresh [[]HistoryEntry] (the nil slice and the
    empty slice are both the empty list): every element of an array is
    decoded into a zero entry. *)
Definition decode_history (v : json) (old : list HistoryEntry.t)
  : list HistoryEntry.t * bool :=
  match v with
  | JArray elems =>
      (map (λ e, (decode_struct HistoryEntry_fields e HistoryEntry.zero).1)
           elems,
       existsb (λ e, (decode_struct HistoryEntry_fields e HistoryEntry.zero).2)
         elems)
  | JNull => ([], false)
  | _ => (old, true)
  end.

(** A JSON value into a [[]string]. *)
Definition decode_string_slice (v : json) (old : list string)
  : list string * bool :=
  (decode_strings v old, negb (fits_strings v)).

(** *** users.go *)

Definition CreateUser (c : Client) (user : User.t) : result User.t :=
  match client.post decode_User json_Marshal_User c (dataPath c ["users"])
          (Some user) (Some User_zero) with
  | (_, Some err) => Err (ErrWrap "guacamole: create user: " err)
  | (Some result, None) => Ok result
  | (None, None) => Ok User_zero
  end.

Definition GetUser (c : Client) (username : string) : result User.t :=
  match client.get decode_User c (dataPath c ["users"; username]) User_zero with
  | (_, Some err) =>
      Err (ErrWrap ("guacamole: get user " +:+ username +:+ ": ") err)
  | (result, None) => Ok result
  end.

Definition UpdateUser (c : Client) (username : string) (user : User.t)
  : option error :=
  match client.put json_Marshal_User c (dataPath c ["users"; username])
          (Some user) with
  | Some err =>
      Some (ErrWrap ("guacamole: update user " +:+ username +:+ ": ") err)
  | None => None
  end.

Definition DeleteUser (c : Client) (username : string) : option error :=
  match client.delete c (dataPath c ["users"; username]) with
  | Some err =>
      Some (ErrWrap ("guacamole: delete user " +:+ username +:+ ": ") err)
  | None => None
  end.

Definition UpdateUserPermissions (c : Client) (username : string)
    (ops : option (list PatchOperation)) : option error :=
  match client.patch c (dataPath c ["users"; username; "permissions"]) ops with
  | Some err =>
      Some (ErrWrap ("guacamole: update user permissions " +:+ username
                     +:+ ": ") err)
  | None => None
  end.

Definition GetUserGroups (c : Client) (username : string)
  : result (list string) :=
  match client.get decode_string_slice c
          (dataPath c ["users"; username; "userGroups"]) [] with
  | (_, Some err) =>
      Err (ErrWrap ("guacamole: get user groups for " +:+ username +:+ ": ")
             err)
  | (result, None) => Ok result
  end.

Definition UpdateUserGroups (c : Client) (username : string)
    (ops : option (list PatchOperation)) : option error :=
  match client.patch c (dataPath c ["users"; username; "userGroups"]) ops with
  | Some err =>
      Some (ErrWrap ("guacamole: update user groups for " +:+ username
                     +:+ ": ") err)
  | None => None
  end.

(** *** active_connections.go *)

Definition KillActiveConnection (c : Client) (id : string) : option error :=
  match client.delete c (dataPath c ["activeConnections"; id]) with
  | Some err =>
      Some (ErrWrap ("guacamole: kill active connection " +:+ id +:+ ": ") err)
  | None => None
  end.

(** *** history.go *)

(** The path [ListConnectionHistory] requests. *)
Definition history_path (c : Client) (order : string) : string :=
  let path := dataPath c ["history"; "connections"] in
  if negb (str_eqb order "") then path +:+ "?order=" +:+ order else path.

Definition ListConnectionHistory (c : Client) (order : string)
  : result (list HistoryEntry.t) :=
  match client.get decode_history c (history_path c order) [] with
  | (_, Some err) =>
      Err (ErrWrap "guacamole: list connection history: " err)
  | (result, None) => Ok result
  end.

Definition GetUserHistory (c : Client) (username : string)
  : result (list HistoryEntry.t) :=
  match client.get decode_history c
          (dataPath c ["users"; username; "history"]) [] with
  | (_, Some err) =>
      Err (ErrWrap ("guacamole: get user history " +:+ username +:+ ": ") err)
  | (result, None) => Ok result
  end.

(** *** self.go: the struct Self, whose attributes carry [omitempty] *)

Definition Self_fields (s : Self.t) : list member :=
  [ field_string "username" false (Self.Username s);
    field_bool "disabled" false (Self.Disabled s);
    field_int "lastActive" false (Self.LastActive s);
    field_attributes "attributes" true (Self.Attributes s) ].

Definition json_Marshal_Self (s : Self.t) : result string :=
  encode_struct (Self_fields s).

End Resources.

(** [path.Clean] on a relative path given by its elements. *)
Definition cleaned (parts : list string) : string :=
  let '(out, _) := fold_left (path.clean_step false) parts ([], 0%nat) in
  let body := strings_Join (rev out) "/" in
  if str_eqb body "" then "." else body.

(** The byte the two digits [x] and [y] of an escape stand for. *)
Definition unhex (x y : byte) : byte :=
  match Reference.hex_val x, Reference.hex_val y with
  | Some h, Some l => Ascii.ascii_of_N (h * 16 + l)
  | _, _ => "000"%char
  end.

(** ** Bodies of the token exchange *)

Section Bodies.
Context `{GoLib}.

(** Some member of the object addresses the field [name]. *)
Definition mentions {S} (fields : list (field S))
    (members : list (string * json)) (name : string) : bool :=
  existsb (λ kv, bool_decide (addressed fields kv.1 = Some name)) members.

(** A body that decodes into an [AuthResponse] without error and leaves
    the token and the data source as they were: [null], or an object
    whose members fit and address neither field. *)
Definition lacks_session (v : json) : bool :=
  match v with
  | JNull => true
  | JObject members =>
      fits AuthResponse_fields members
      && negb (mentions AuthResponse_fields members "authToken")
      && negb (mentions AuthResponse_fields members "dataSource")
  | _ => false
  end.

(** A body that does not decode into an [AuthResponse]: no JSON value, a
    value that is neither an object nor [null], or an object with a
    member that does not fit the field it addresses. *)
Definition undecodable (v : option json) : bool :=
  match v with
  | None => true
  | Some JNull => false
  | Some (JObject members) => negb (fits AuthResponse_fields members)
  | Some _ => true
  end.

End Bodies.

(** ** The requests the helpers hand to the transport *)

(** The request of [do] for the nil body. *)
Definition nil_request (c : Client) (method path : string) : Request :=
  {| Method := method; URL := baseURL c +:+ path;
     Header := if str_eqb (authToken c) "" then ∅
               else <["Guacamole-Token" := [authToken c]]> ∅;
     ReqBody := None |}.

(** The request of [do] for a body whose JSON text is [text]. *)
Definition body_request (c : Client) (method path text : string) : Request :=
  {| Method := method; URL := baseURL c +:+ path;
     Header := if str_eqb (authToken c) ""
               then <["Content-Type" := ["application/json"]]> ∅
               else <["Guacamole-Token" := [authToken c]]>
                      (<["Content-Type" := ["application/json"]]> ∅);
     ReqBody := Some text |}.

Definition is_2xx (status : Z) : bool := (200 <=? status) && (status <? 300).

Section Outcomes.
Context `{GoLib}.

(** Bytes that [UnmarshalJSON] rejects: no JSON text, a value that is
    neither an object nor [null], or an object with a value that is
    neither a string nor [null]. *)
Definition not_attributes (v : option json) : bool :=
  match v with
  | None => true
  | Some JNull => false
  | Some (JObject members) => negb (strings_and_nulls members)
  | Some _ => true
  end.

Definition uaddressed {S} (fields : list (ufield S)) (key : string)
  : option string :=
  uname <$> find_ufield fields key.

Definition umentions {S} (fields : list (ufield S))
    (members : list (string * json)) (name : string) : bool :=
  existsb (λ kv, bool_decide (uaddressed fields kv.1 = Some name)) members.

Definition is_stored {S} (o : stored S) : bool :=
  match o with
  | Stored _ => true
  | _ => false
  end.

(** Every member that addresses a field of a user is stored without
    error. *)
Definition user_members_fit (members : list (string * json)) : bool :=
  forallb (λ kv, match find_ufield User_ufields kv.1 with
                 | Some f => is_stored (ustore f kv.2 User_zero)
                 | None => true
                 end) members.

(** The entry [decode_history] makes of an element. *)
Definition history_entry (e : json) : HistoryEntry.t :=
  (decode_struct HistoryEntry_fields e HistoryEntry.zero).1.

Definition history_elements_fit (elems : list json) : bool :=
  forallb (λ e, negb (decode_struct HistoryEntry_fields e HistoryEntry.zero).2)
    elems.

(** The members of an object that [json.Marshal] writes for a map. *)
Definition members_of (entries : gmap string string)
  : list (string * json) :=
  map (λ kv, (kv.1, JString kv.2)) (merge_sort by_key_le (map_to_list entries)).

(** The text of a patch operation: the three members, none left out. *)
Definition operation_text (op : PatchOperation) : string :=
  "{" +:+ strings_Join
            [ member_text "op" (json_string (Op op));
              member_text "path" (json_string (Path op));
              member_text "value" (json_string (Value op)) ] ","
      +:+ "}".

End Outcomes.

(** ** Requests and responses of the package's tests *)
Module Examples.

Definition q (s : string) : string := dq +:+ s +:+ dq.

(** [{"a":null,"b":"hello","c":null}] *)
Definition attributes_text : string :=
  "{" +:+ q "a" +:+ ":null," +:+ q "b" +:+ ":" +:+ q "hello" +:+ ","
      +:+ q "c" +:+ ":null}".

(** [{"a":null}] *)
Definition null_attribute_text : string := "{" +:+ q "a" +:+ ":null}".

(** [{"message":"Not found","type":"NOT_FOUND"}] *)
Definition not_found_text : string :=
  "{" +:+ q "message" +:+ ":" +:+ q "Not found" +:+ ","
      +:+ q "type" +:+ ":" +:+ q "NOT_FOUND" +:+ "}".

(** [{"message":"Invalid credentials.","type":"PERMISSION_DENIED"}] *)
Definition denied_text : string :=
  "{" +:+ q "message" +:+ ":" +:+ q "Invalid credentials." +:+ ","
      +:+ q "type" +:+ ":" +:+ q "PERMISSION_DENIED" +:+ "}".

(** [{"authToken":"T","username":"admin","dataSource":"postgresql",
     "availableDataSources":["postgresql"]}] *)
Definition auth_text : string :=
  "{" +:+ q "authToken" +:+ ":" +:+ q "T" +:+ ","
      +:+ q "username" +:+ ":" +:+ q "admin" +:+ ","
      +:+ q "dataSource" +:+ ":" +:+ q "postgresql" +:+ ","
      +:+ q "availableDataSources" +:+ ":[" +:+ q "postgresql" +:+ "]}".

Definition auth_members : list (string * json) :=
  [("authToken", JString "T"); ("username", JString "admin");
   ("dataSource", JString "postgresql");
   ("availableDataSources", JArray [JString "postgresql"])].

Definition not_found_members : list (string * json) :=
  [("message", JString "Not found"); ("type", JString "NOT_FOUND")].

Definition denied_members : list (string * json) :=
  [("message", JString "Invalid credentials.");
   ("type", JString "PERMISSION_DENIED")].

Definition respond (status : Z) (text : string) : Response :=
  {| StatusCode := status; RespBody := {| data := text; readErr := false |} |}.

(** A client as [newTestClient] makes it, in front of a server that gives
    every request the same answer. *)
Definition test_client (answer : Response) : Client :=
  {| baseURL := "http://127.0.0.1:8080"; httpClient := λ _, Ok answer;
     authToken := "test-token"; dataSource := "postgresql" |}.

(** The same client before any token exchange. *)
Definition fresh_client (answer : Response) : Client :=
  {| baseURL := "http://127.0.0.1:8080"; httpClient := λ _, Ok answer;
     authToken := ""; dataSource := "" |}.

(** A server that answers the request [expected] with [answer] and
    refuses every other request. *)
Definition expecting (expected : Request) (answer : Response)
  : Request → result Response :=
  λ req,
    if str_eqb (Method req) (Method expected)
       && str_eqb (URL req) (URL expected)
       && bool_decide (Header req = Header expected)
       && bool_decide (ReqBody req = ReqBody expected)
    then Ok answer
    else Err (ErrOpaque "unexpected request").

(** The token exchange of the user [admin] with the password [p&ss=w rd],
    from a client that holds a token already. *)
Definition exchange_request : Request :=
  {| Method := "POST"; URL := "http://127.0.0.1:8080/api/tokens";
     Header := <["Content-Type" := ["application/x-www-form-urlencoded"]]> ∅;
     ReqBody := Some "password=p%26ss%3Dw+rd&username=admin" |}.

Definition exchange_client : Client :=
  {| baseURL := "http://127.0.0.1:8080";
     httpClient := expecting exchange_request (respond 403 denied_text);
     authToken := "test-token"; dataSource := "postgresql" |}.

(** [json.Marshal] on an already encoded body. *)
Definition marshal_text (text : string) : result string := Ok text.

(** [{"username":"alice","attributes":null}] *)
Definition alice_text : string :=
  "{" +:+ q "username" +:+ ":" +:+ q "alice" +:+ ","
      +:+ q "attributes" +:+ ":null}".

Definition alice_members : list (string * json) :=
  [("username", JString "alice"); ("attributes", JNull)].

(** [{"username":"alice","attributes":{}}] *)
Definition alice_body : string :=
  "{" +:+ q "username" +:+ ":" +:+ q "alice" +:+ ","
      +:+ q "attributes" +:+ ":{}}".

(** [[{"identifier":"7","startDate":1700000000000,"active":true}]] *)
Definition history_text : string :=
  "[{" +:+ q "identifier" +:+ ":" +:+ q "7" +:+ ","
       +:+ q "startDate" +:+ ":1700000000000,"
       +:+ q "active" +:+ ":true}]".

Definition history_elems : list json :=
  [JObject [("identifier", JString "7");
            ("startDate", JNumber "1700000000000");
            ("active", JBool true)]].



End Examples.

(** * Theorems *)

(** ** Patch builders *)

(** C3: for every identifier and permission, the builder of each edit kind
    returns a descriptor whose path is the fixed template of the kind
    (the system permission path has no id segment and the membership path
    is [/]), whose operation is [add] for an [Add] builder and [remove] for
    a [Remove] builder, and whose value is the permission name, or the
    member identifier for a membership edit. *)
Theorem patch_builder_template (add : bool) (kind : edit_kind)
    (id permission : string) :
  Path (builder add kind id permission) = path_template kind id
  ∧ Op (builder add kind id permission) = (if add then "add" else "remove")
  ∧ Value (builder add kind id permission) = value_carried kind id permission.
Proof. destruct kind, add; repeat split. Qed.

(** The connection permission builders, as the specification names them. *)
Lemma AddConnectionPermission_path (id permission : string) :
  AddConnectionPermission id permission
  = {| Op := "add"; Path := "/connectionPermissions/" +:+ id;
       Value := permission |}.
Proof. reflexivity. Qed.

(** ** Error predicates *)

Lemma str_eqb_eq (a b : string) : str_eqb a b = true ↔ a = b.
Proof. unfold str_eqb. apply bool_decide_eq_true. Qed.

Lemma str_eqb_neq (a b : string) : str_eqb a b = false ↔ a ≠ b.
Proof. unfold str_eqb. apply bool_decide_eq_false. Qed.

Lemma chain_head (err : error) : err ∈ chain err.
Proof. destruct err; simpl; left. Qed.

(** On an error of the package [errors.As] finds a [*APIError] exactly
    when the chain holds it. *)
Lemma errors_as_chain_elem (err : error) (apiErr : APIError) :
  single_chain err = true →
  errors_as err = Some (Some apiErr) ↔ ErrAPIError apiErr ∈ chain err.
Proof.
  induction err as [e | | msg | context inner IH | errs | target];
    simpl; try discriminate; intros Hsingle.
  - rewrite list_elem_of_singleton. split; intros Heq; congruence.
  - rewrite list_elem_of_singleton. split; intros Heq; congruence.
  - rewrite (IH Hsingle), elem_of_cons. split; [auto |].
    intros [Heq | Hin]; [discriminate | exact Hin].
Qed.

(** The predicates are the type test on the pointer [errors.As] leaves. *)
Lemma IsNotFound_first (err : option error) :
  IsNotFound err = Returns true
  ↔ ∃ apiErr, errors_As err = Some (Some apiErr)
              ∧ Type_ apiErr = "NOT_FOUND".
Proof.
  unfold IsNotFound. destruct (errors_As err) as [[apiErr |] |]; split.
  - intros [= Hty]. exists apiErr. split; [reflexivity | by apply str_eqb_eq].
  - intros (e & [= <-] & Hty). f_equal. by apply str_eqb_eq.
  - discriminate.
  - intros (e & Heq & _). discriminate.
  - discriminate.
  - intros (e & Heq & _). discriminate.
Qed.

Lemma IsPermissionDenied_first (err : option error) :
  IsPermissionDenied err = Returns true
  ↔ ∃ apiErr, errors_As err = Some (Some apiErr)
              ∧ Type_ apiErr = "PERMISSION_DENIED".
Proof.
  unfold IsPermissionDenied. destruct (errors_As err) as [[apiErr |] |]; split.
  - intros [= Hty]. exists apiErr. split; [reflexivity | by apply str_eqb_eq].
  - intros (e & [= <-] & Hty). f_equal. by apply str_eqb_eq.
  - discriminate.
  - intros (e & Heq & _). discriminate.
  - discriminate.
  - intros (e & Heq & _). discriminate.
Qed.

(** On the errors this package returns, which wrap one error at most and
    hold no nil pointer, each predicate is true exactly when the chain
    holds a [*APIError] of its type. *)
Lemma predicates_on_chains (e : error) :
  single_chain e = true →
  (IsNotFound (Some e) = Returns true
   ↔ ∃ apiErr, ErrAPIError apiErr ∈ chain e ∧ Type_ apiErr = "NOT_FOUND")
  ∧ (IsPermissionDenied (Some e) = Returns true
     ↔ ∃ apiErr, ErrAPIError apiErr ∈ chain e
                 ∧ Type_ apiErr = "PERMISSION_DENIED").
Proof.
  intros Hsingle. rewrite IsNotFound_first, IsPermissionDenied_first. simpl.
  split; split; intros (apiErr & Hfound & Hty); exists apiErr;
    (split; [by apply errors_as_chain_elem | exact Hty]).
Qed.

(** Both predicates are false for the nil error, and a layer of context
    ([fmt.Errorf] with one [%w]) changes neither answer, on every
    error. *)
Lemma predicates_nil_and_wrapped :
  IsNotFound None = Returns false
  ∧ IsPermissionDenied None = Returns false
  ∧ (∀ (context : string) (err : error),
       IsNotFound (Some (ErrWrap context err)) = IsNotFound (Some err)
       ∧ IsPermissionDenied (Some (ErrWrap context err))
         = IsPermissionDenied (Some err)).
Proof. repeat split. Qed.

(** The nil [*APIError] in an error interface makes both predicates
    panic. *)
Lemma predicates_nil_pointer_panic :
  IsNotFound (Some ErrNilAPIError) = Panics
  ∧ IsPermissionDenied (Some ErrNilAPIError) = Panics
  ∧ IsNotFound (Some (ErrWrap "context: " ErrNilAPIError)) = Panics.
Proof. repeat split. Qed.


(** ** Decoding objects into structs *)

Lemma is_string_eq (v : json) (value : string) :
  is_string v value = true ↔ v = JString value.
Proof.
  destruct v; simpl; try (split; [discriminate | congruence]).
  rewrite str_eqb_eq. split; congruence.
Qed.

Section Decode_theorems.
Context `{GoLib} {S : Type} (fields : list (field S)).

Lemma find_field_elem (key : string) (f : field S) :
  find_field fields key = Some f → f ∈ fields.
Proof.
  unfold find_field. intros Hfind. apply list_elem_of_In.
  destruct (find _ fields) as [f' |] eqn:Hexact.
  - injection Hfind as <-. by apply find_some in Hexact as [Hin _].
  - by apply find_some in Hfind as [Hin _].
Qed.

(** A key that is the name of a field addresses a field of that name. *)
Lemma addressed_exact (name : string) :
  (∃ f, f ∈ fields ∧ fname f = name) → addressed fields name = Some name.
Proof.
  intros (f & Hin & Hname). unfold addressed, find_field.
  destruct (find _ fields) as [f' |] eqn:Hexact; simpl.
  - apply find_some in Hexact as [_ Heq]. apply str_eqb_eq in Heq.
    by rewrite Heq.
  - apply list_elem_of_In in Hin.
    pose proof (find_none _ _ Hexact f Hin) as Hno. simpl in Hno.
    apply str_eqb_neq in Hno. done.
Qed.

(** Members that fit their fields raise no type error. *)
Lemma decode_fold_fits (members : list (string * json)) (st : S * bool) :
  fits fields members = true →
  (fold_left (decode_member fields) members st).2 = st.2.
Proof.
  revert st. induction members as [| kv members IH]; intros st Hfits;
    [reflexivity |].
  simpl in Hfits. apply andb_true_iff in Hfits as [Hkv Hrest].
  simpl. rewrite IH by done. unfold decode_member.
  destruct (find_field fields kv.1) as [f |]; [| reflexivity].
  simpl. rewrite Hkv. by destruct st.2.
Qed.

Section Getter.
Context (g : S → string) (name value : string).
Hypothesis others_keep :
  ∀ f v s, f ∈ fields → fname f ≠ name → g (fstore f v s) = g s.
Hypothesis named_stores :
  ∀ f s, f ∈ fields → fname f = name → g (fstore f (JString value) s) = value.

Lemma decode_fold_last (members : list (string * json)) (st : S * bool) :
  forallb (λ kv, if bool_decide (addressed fields kv.1 = Some name)
                 then is_string kv.2 value else true) members = true →
  g (fold_left (decode_member fields) members st).1 = value
  ∨ (g (fold_left (decode_member fields) members st).1 = g st.1
     ∧ ∀ kv, kv ∈ members → addressed fields kv.1 ≠ Some name).
Proof.
  revert st. induction members as [| kv members IH]; intros st Hall.
  - right. split; [reflexivity |]. intros kv Hin. by apply elem_of_nil in Hin.
  - simpl in Hall. apply andb_true_iff in Hall as [Hkv Hrest]. simpl.
    destruct (IH (decode_member fields st kv) Hrest) as [Hval | [Hkeep Hnone]];
      [by left |].
    rewrite Hkeep. unfold decode_member, addressed in *.
    destruct (find_field fields kv.1) as [f |] eqn:Hfind; simpl in *.
    + pose proof (find_field_elem _ _ Hfind) as Hin.
      destruct (decide (fname f = name)) as [Heq | Hne].
      * left. rewrite bool_decide_eq_true_2 in Hkv by congruence.
        apply is_string_eq in Hkv. rewrite Hkv. by apply named_stores.
      * right. split; [by apply others_keep |].
        intros kv' [-> | Hin']%elem_of_cons; [| by apply Hnone].
        rewrite Hfind. simpl. congruence.
    + right. split; [reflexivity |].
      intros kv' [-> | Hin']%elem_of_cons; [| by apply Hnone].
      by rewrite Hfind.
Qed.

(** The field named [name] ends up holding the string the object carries
    for it. *)
Lemma decode_fold_carries (members : list (string * json)) (st : S * bool) :
  (∃ f, f ∈ fields ∧ fname f = name) →
  carries fields members name value = true →
  g (fold_left (decode_member fields) members st).1 = value.
Proof.
  intros Hfield [Hex Hall]%andb_true_iff.
  destruct (decode_fold_last members st Hall) as [Hval | [_ Hnone]]; [done |].
  apply existsb_exists in Hex as (kv & Hin & [Hk _]%andb_true_iff).
  apply str_eqb_eq in Hk. apply list_elem_of_In in Hin.
  exfalso. apply (Hnone kv Hin). rewrite Hk. by apply addressed_exact.
Qed.

End Getter.
End Decode_theorems.

Section Pipeline_theorems.
Context `{GoLib}.

(** ** parseError *)

Lemma parseError_status (members : list (string * json))
    (st : APIError * bool) :
  HTTPStatus (fold_left (decode_member APIError_fields) members st).1
  = HTTPStatus st.1.
Proof.
  revert st. induction members as [| kv members IH]; intros st;
    [reflexivity |].
  simpl. rewrite IH. unfold decode_member.
  destruct (find_field APIError_fields kv.1) as [f |] eqn:Hfind;
    [| reflexivity].
  apply find_field_elem in Hfind.
  by apply elem_of_cons in Hfind as [-> | ->%list_elem_of_singleton].
Qed.

(** [parseError] always returns an [*APIError] carrying the status code. *)
Lemma parseError_APIError (resp : Response) :
  ∃ apiErr, parseError resp = ErrAPIError apiErr
            ∧ HTTPStatus apiErr = StatusCode resp.
Proof.
  unfold parseError, io_ReadAll, json_Unmarshal_APIError.
  destruct (readErr (RespBody resp) || (String.length (data (RespBody resp)) =? 0)%nat);
    [eauto |].
  destruct (json_value (data (RespBody resp))) as [v |]; [| eauto].
  set (e0 := {| Message := ""; Type_ := ""; HTTPStatus := StatusCode resp |}).
  destruct v; simpl; eauto.
  destruct (fold_left _ _ _) as [e bad] eqn:Hfold.
  pose proof (parseError_status members (e0, false)) as Hs.
  rewrite Hfold in Hs.
  destruct bad; eauto.
Qed.

(** An error body that is a JSON object carrying [message] and [type]. *)
Lemma parseError_object (resp : Response) (members : list (string * json))
    (message type : string) :
  readErr (RespBody resp) = false →
  data (RespBody resp) ≠ "" →
  json_value (data (RespBody resp)) = Some (JObject members) →
  carries APIError_fields members "message" message = true →
  carries APIError_fields members "type" type = true →
  parseError resp
  = ErrAPIError {| Message := message; Type_ := type;
                   HTTPStatus := StatusCode resp |}.
Proof.
  intros Hread Hdata Hvalue Hmsg Hty.
  unfold parseError, io_ReadAll, json_Unmarshal_APIError.
  rewrite Hread, Hvalue. simpl.
  destruct (data (RespBody resp)) as [| c body] eqn:Hbody; [done |]. simpl.
  set (st := ({| Message := ""; Type_ := ""; HTTPStatus := StatusCode resp |},
              false)).
  assert (Hfits : fits APIError_fields members = true).
  { apply andb_true_iff in Hmsg as [_ Hm]. apply andb_true_iff in Hty as [_ Ht].
    unfold fits. apply forallb_forall. intros kv Hin.
    rewrite forallb_forall in Hm, Ht.
    specialize (Hm kv Hin). specialize (Ht kv Hin). unfold addressed in *.
    destruct (find_field APIError_fields kv.1) as [f |] eqn:Hfind; [| done].
    apply find_field_elem in Hfind.
    simpl in Hm, Ht.
    apply elem_of_cons in Hfind as [-> | Hfind].
    - simpl in *. try rewrite bool_decide_eq_true_2 in Hm by done.
      apply is_string_eq in Hm. by rewrite Hm.
    - apply list_elem_of_singleton in Hfind as ->. simpl in *.
      try rewrite bool_decide_eq_true_2 in Ht by done.
      apply is_string_eq in Ht. by rewrite Ht. }
  pose proof (decode_fold_fits APIError_fields members st Hfits) as Hbad.
  pose proof (parseError_status members st) as Hstatus.
  assert (Hm : Message (fold_left (decode_member APIError_fields) members st).1
               = message).
  { apply (decode_fold_carries APIError_fields Message "message" message);
      [| | | done].
    - intros f v s [-> | ->%list_elem_of_singleton]%elem_of_cons Hne; done.
    - intros f s [-> | ->%list_elem_of_singleton]%elem_of_cons Heq; done.
    - eexists. split; [left |]. reflexivity. }
  assert (Ht : Type_ (fold_left (decode_member APIError_fields) members st).1
               = type).
  { apply (decode_fold_carries APIError_fields Type_ "type" type);
      [| | | done].
    - intros f v s [-> | ->%list_elem_of_singleton]%elem_of_cons Hne; done.
    - intros f s [-> | ->%list_elem_of_singleton]%elem_of_cons Heq; done.
    - eexists. split; [right; left |]. reflexivity. }
  destruct (fold_left _ members st) as [[m t h] bad]. simpl in *.
  by subst.
Qed.

(** An error body that is no JSON text. *)
Lemma parseError_raw (resp : Response) :
  readErr (RespBody resp) = false →
  data (RespBody resp) ≠ "" →
  json_value (data (RespBody resp)) = None →
  parseError resp
  = ErrAPIError {| Message := data (RespBody resp); Type_ := "";
                   HTTPStatus := StatusCode resp |}.
Proof.
  intros Hread Hdata Hvalue.
  unfold parseError, io_ReadAll, json_Unmarshal_APIError.
  rewrite Hread, Hvalue. simpl.
  by destruct (data (RespBody resp)).
Qed.

(** An error body that is empty or cannot be read. *)
Lemma parseError_no_body (resp : Response) :
  readErr (RespBody resp) = true ∨ data (RespBody resp) = "" →
  parseError resp
  = ErrAPIError {| Message := StatusText (StatusCode resp); Type_ := "";
                   HTTPStatus := StatusCode resp |}.
Proof.
  intros Hbody. unfold parseError, io_ReadAll.
  destruct Hbody as [-> | ->]; [reflexivity |].
  by rewrite orb_true_r.
Qed.

(** What [parseError] takes from the response: the status code, and the
    message and the type from the body. *)
Lemma parseError_fields (resp : Response) :
  ∃ apiErr,
    parseError resp = ErrAPIError apiErr
    ∧ HTTPStatus apiErr = StatusCode resp
    ∧ (readErr (RespBody resp) = true ∨ data (RespBody resp) = "" →
       Message apiErr = StatusText (StatusCode resp) ∧ Type_ apiErr = "")
    ∧ (readErr (RespBody resp) = false → data (RespBody resp) ≠ "" →
       (∀ members message type,
          json_value (data (RespBody resp)) = Some (JObject members) →
          carries APIError_fields members "message" message = true →
          carries APIError_fields members "type" type = true →
          Message apiErr = message ∧ Type_ apiErr = type)
       ∧ (json_value (data (RespBody resp)) = None →
          Message apiErr = data (RespBody resp) ∧ Type_ apiErr = "")).
Proof.
  destruct (parseError_APIError resp) as (apiErr & Herr & Hs).
  exists apiErr. split; [exact Herr |]. split; [exact Hs |]. split.
  - intros Hbody. rewrite (parseError_no_body resp Hbody) in Herr.
    by injection Herr as <-.
  - intros Hread Hdata. split.
    + intros members message type Hvalue Hm Ht.
      rewrite (parseError_object resp members message type) in Herr by done.
      by injection Herr as <-.
    + intros Hvalue. rewrite (parseError_raw resp) in Herr by done.
      by injection Herr as <-.
Qed.

(** ** The request pipeline *)

Section Do.
Context {B : Type} (json_Marshal : B → result string).

(** C9: on every request the pipeline builds, the [Content-Type] header is
    present exactly when a body is supplied, and is then
    [application/json]; the [Guacamole-Token] header is present exactly
    when the stored token is not empty, and then carries the stored
    token. *)
Theorem do_request_headers (c : Client) (method path : string)
    (body : option B) (req : Request) :
  do_request json_Marshal c method path body = Ok req →
  (is_Some (Header req !! "Content-Type") ↔ is_Some body)
  ∧ (is_Some body → Header req !! "Content-Type" = Some ["application/json"])
  ∧ (is_Some (Header req !! "Guacamole-Token") ↔ authToken c ≠ "")
  ∧ (authToken c ≠ "" → Header req !! "Guacamole-Token" = Some [authToken c]).
Proof.
  unfold do_request, http_NewRequest. intros Hreq.
  destruct body as [b |].
  - destruct (json_Marshal b) as [text | err]; [| discriminate].
    destruct (request_ok _ _); [| discriminate].
    destruct (str_eqb (authToken c) "") eqn:Htok; simpl in Hreq;
      injection Hreq as <-; simpl.
    + apply str_eqb_eq in Htok.
      rewrite lookup_insert_eq, lookup_insert_ne, lookup_empty by done.
      repeat split; eauto; try (intros []; done); done.
    + apply str_eqb_neq in Htok.
      rewrite lookup_insert_eq, lookup_insert_ne, lookup_insert_eq by done.
      repeat split; eauto.
  - destruct (request_ok _ _); [| discriminate].
    destruct (str_eqb (authToken c) "") eqn:Htok; simpl in Hreq;
      injection Hreq as <-; simpl.
    + apply str_eqb_eq in Htok. rewrite !lookup_empty.
      repeat split; try (intros []; done); done.
    + apply str_eqb_neq in Htok.
      rewrite lookup_insert_eq, lookup_insert_ne, lookup_empty by done.
      repeat split; eauto; try (intros []; done).
Qed.

(** The pipeline hands the transport the request of [do_request] and
    nothing else. *)
Lemma do_transport (c : Client) (method path : string) (body : option B)
    (req : Request) (resp : Response) :
  do_request json_Marshal c method path body = Ok req →
  httpClient c req = Ok resp →
  do json_Marshal c method path body
  = if (StatusCode resp <? 200) || (StatusCode resp >=? 300)
    then Err (parseError resp) else Ok resp.
Proof. unfold do. intros -> ->. reflexivity. Qed.

(** C5: when the transport answers a request of the pipeline with a
    status outside [200,300), [do] returns an [*APIError] whose
    [HTTPStatus] is the status code; if the body is a JSON object carrying
    [message] and [type], the error has that message and that type; if the
    body is not empty and is no JSON text, the message is the body as it is
    and the type is empty. *)
Theorem do_non_2xx_APIError (c : Client) (method path : string)
    (body : option B) (req : Request) (resp : Response) :
  do_request json_Marshal c method path body = Ok req →
  httpClient c req = Ok resp →
  ¬ (200 ≤ StatusCode resp < 300) →
  ∃ apiErr,
    do json_Marshal c method path body = Err (ErrAPIError apiErr)
    ∧ HTTPStatus apiErr = StatusCode resp
    ∧ (readErr (RespBody resp) = false → data (RespBody resp) ≠ "" →
       (∀ members message type,
          json_value (data (RespBody resp)) = Some (JObject members) →
          carries APIError_fields members "message" message = true →
          carries APIError_fields members "type" type = true →
          Message apiErr = message ∧ Type_ apiErr = type)
       ∧ (json_value (data (RespBody resp)) = None →
          Message apiErr = data (RespBody resp) ∧ Type_ apiErr = "")).
Proof.
  intros Hreq Hdo Hstatus.
  rewrite (do_transport c method path body req resp Hreq Hdo).
  replace ((StatusCode resp <? 200) || (StatusCode resp >=? 300)) with true
    by (symmetry; apply orb_true_iff; lia).
  destruct (parseError_APIError resp) as (apiErr & Herr & Hs).
  exists apiErr. rewrite Herr. split; [reflexivity |]. split; [exact Hs |].
  intros Hread Hdata. split.
  - intros members message type Hvalue Hm Ht.
    rewrite (parseError_object resp members message type) in Herr by done.
    by injection Herr as <-.
  - intros Hvalue. rewrite (parseError_raw resp) in Herr by done.
    by injection Herr as <-.
Qed.

End Do.

(** ** Authenticate *)

Lemma Authenticate_not_200 (c : Client) (username password : string)
    (resp : Response) :
  request_ok "POST" (baseURL c +:+ "/api/tokens") = true →
  httpClient c (auth_request c username password) = Ok resp →
  StatusCode resp ≠ 200 →
  Authenticate c username password = (c, Some (parseError resp)).
Proof.
  intros Hok Hdo Hstatus. unfold Authenticate, http_NewRequest.
  rewrite Hok. unfold Header_Set. simpl.
  fold (auth_request c username password). rewrite Hdo.
  apply Z.eqb_neq in Hstatus. rewrite Hstatus. reflexivity.
Qed.

Lemma Authenticate_200 (c : Client) (username password : string)
    (resp : Response) :
  request_ok "POST" (baseURL c +:+ "/api/tokens") = true →
  httpClient c (auth_request c username password) = Ok resp →
  StatusCode resp = 200 →
  Authenticate c username password
  = let '(auth, bad) :=
      json_Decode_AuthResponse (RespBody resp)
        {| AuthToken := ""; Username := ""; DataSource := "";
           AvailableDataSources := [] |} in
    if bad then
      (c, Some (ErrWrap "guacamole: decode auth response: "
                  (ErrOpaque "json: cannot decode")))
    else (with_session c (AuthToken auth) (DataSource auth), None).
Proof.
  intros Hok Hdo Hstatus. unfold Authenticate, http_NewRequest.
  rewrite Hok. unfold Header_Set. simpl.
  fold (auth_request c username password). rewrite Hdo, Hstatus.
  reflexivity.
Qed.

(** The predicates on an [*APIError] that is not nil. *)
Lemma predicates_APIError (apiErr : APIError) :
  IsNotFound (Some (ErrAPIError apiErr))
  = Returns (str_eqb (Type_ apiErr) "NOT_FOUND")
  ∧ IsPermissionDenied (Some (ErrAPIError apiErr))
    = Returns (str_eqb (Type_ apiErr) "PERMISSION_DENIED").
Proof. split; reflexivity. Qed.

(** C8: when the token exchange is answered with a status outside
    [200,300), [Authenticate] returns the [*APIError] that [parseError]
    builds from the response, and the client keeps the token and the data
    source it had before the call.  The error carries the status code; its
    message and its type are those of the body when the body is a JSON
    object carrying them, so that the predicates classify the error by
    the type of the body; for a body that is no JSON text the message is
    the body as it is, and for an empty or unreadable body it is the text
    of the status; the type is empty in both cases. *)
Theorem Authenticate_non_2xx (c : Client) (username password : string)
    (resp : Response) :
  request_ok "POST" (baseURL c +:+ "/api/tokens") = true →
  httpClient c (auth_request c username password) = Ok resp →
  ¬ (200 ≤ StatusCode resp < 300) →
  ∃ apiErr,
    (Authenticate c username password).2 = Some (ErrAPIError apiErr)
    ∧ ErrAPIError apiErr = parseError resp
    ∧ HTTPStatus apiErr = StatusCode resp
    ∧ authToken (Authenticate c username password).1 = authToken c
    ∧ dataSource (Authenticate c username password).1 = dataSource c
    ∧ IsNotFound (Authenticate c username password).2
      = Returns (str_eqb (Type_ apiErr) "NOT_FOUND")
    ∧ IsPermissionDenied (Authenticate c username password).2
      = Returns (str_eqb (Type_ apiErr) "PERMISSION_DENIED")
    ∧ (readErr (RespBody resp) = true ∨ data (RespBody resp) = "" →
       Message apiErr = StatusText (StatusCode resp) ∧ Type_ apiErr = "")
    ∧ (readErr (RespBody resp) = false → data (RespBody resp) ≠ "" →
       (∀ members message type,
          json_value (data (RespBody resp)) = Some (JObject members) →
          carries APIError_fields members "message" message = true →
          carries APIError_fields members "type" type = true →
          Message apiErr = message ∧ Type_ apiErr = type)
       ∧ (json_value (data (RespBody resp)) = None →
          Message apiErr = data (RespBody resp) ∧ Type_ apiErr = "")).
Proof.
  intros Hok Hdo Hstatus.
  rewrite (Authenticate_not_200 c username password resp) by (done || lia).
  destruct (parseError_fields resp) as (apiErr & -> & Hs & Hempty & Hbody).
  exists apiErr. simpl.
  destruct (predicates_APIError apiErr) as [Hn Hp].
  by repeat (split; [done |]).
Qed.

(** C10: [Authenticate] takes status 200 alone for success: on every other
    status, the other 2xx codes included, it returns the [*APIError] that
    [parseError] builds from the response and the client is as it was
    before the call, token and data source included.  The error carries
    the status code; its message and its type are those of the body when
    the body is a JSON object carrying them; for a body that is no JSON
    text the message is the body as it is, and for an empty or unreadable
    body it is the text of the status; the type is empty in both
    cases. *)
Theorem Authenticate_only_200 (c : Client) (username password : string)
    (resp : Response) :
  request_ok "POST" (baseURL c +:+ "/api/tokens") = true →
  httpClient c (auth_request c username password) = Ok resp →
  StatusCode resp ≠ 200 →
  ∃ apiErr,
    Authenticate c username password = (c, Some (ErrAPIError apiErr))
    ∧ ErrAPIError apiErr = parseError resp
    ∧ HTTPStatus apiErr = StatusCode resp
    ∧ authToken (Authenticate c username password).1 = authToken c
    ∧ dataSource (Authenticate c username password).1 = dataSource c
    ∧ (readErr (RespBody resp) = true ∨ data (RespBody resp) = "" →
       Message apiErr = StatusText (StatusCode resp) ∧ Type_ apiErr = "")
    ∧ (readErr (RespBody resp) = false → data (RespBody resp) ≠ "" →
       (∀ members message type,
          json_value (data (RespBody resp)) = Some (JObject members) →
          carries APIError_fields members "message" message = true →
          carries APIError_fields members "type" type = true →
          Message apiErr = message ∧ Type_ apiErr = type)
       ∧ (json_value (data (RespBody resp)) = None →
          Message apiErr = data (RespBody resp) ∧ Type_ apiErr = "")).
Proof.
  intros Hok Hdo Hstatus.
  rewrite (Authenticate_not_200 c username password resp) by done.
  destruct (parseError_fields resp) as (apiErr & -> & Hs & Hempty & Hbody).
  exists apiErr. by repeat (split; [done |]).
Qed.

(** C7: when the token exchange is answered with status 200 and a JSON
    object that carries [authToken] and [dataSource] (as in the scenario,
    ["T"] and ["postgresql"]) and whose members fit the fields of
    [AuthResponse], [Authenticate] returns no error, and afterwards the
    stored token and data source are the two strings of the body, as
    [AuthToken()] and [DataSource()] return them. *)
Theorem Authenticate_success (c : Client) (username password : string)
    (resp : Response) (members : list (string * json))
    (token source : string) :
  request_ok "POST" (baseURL c +:+ "/api/tokens") = true →
  httpClient c (auth_request c username password) = Ok resp →
  StatusCode resp = 200 →
  json_stream_value (RespBody resp) = Some (JObject members) →
  carries AuthResponse_fields members "authToken" token = true →
  carries AuthResponse_fields members "dataSource" source = true →
  fits AuthResponse_fields members = true →
  (Authenticate c username password).2 = None
  ∧ Client_AuthToken (Authenticate c username password).1 = token
  ∧ Client_DataSource (Authenticate c username password).1 = source.
Proof.
  intros Hok Hdo Hstatus Hvalue Htoken Hsource Hfits.
  rewrite (Authenticate_200 c username password resp) by done.
  unfold json_Decode_AuthResponse. rewrite Hvalue. simpl.
  set (st := ({| AuthToken := ""; Username := ""; DataSource := "";
                 AvailableDataSources := [] |}, false)).
  pose proof (decode_fold_fits AuthResponse_fields members st Hfits) as Hbad.
  assert (Ht : AuthToken (fold_left (decode_member AuthResponse_fields)
                            members st).1 = token).
  { apply (decode_fold_carries AuthResponse_fields AuthToken "authToken" token);
      [| | | done].
    - intros f v s Hin Hne. revert Hne.
      repeat (apply elem_of_cons in Hin as [-> | Hin]; [done |]).
      by apply elem_of_nil in Hin.
    - intros f s Hin Heq. revert Heq.
      repeat (apply elem_of_cons in Hin as [-> | Hin]; [done |]).
      by apply elem_of_nil in Hin.
    - eexists. split; [left |]. reflexivity. }
  assert (Hs : DataSource (fold_left (decode_member AuthResponse_fields)
                             members st).1 = source).
  { apply (decode_fold_carries AuthResponse_fields DataSource "dataSource"
             source); [| | | done].
    - intros f v s Hin Hne. revert Hne.
      repeat (apply elem_of_cons in Hin as [-> | Hin]; [done |]).
      by apply elem_of_nil in Hin.
    - intros f s Hin Heq. revert Heq.
      repeat (apply elem_of_cons in Hin as [-> | Hin]; [done |]).
      by apply elem_of_nil in Hin.
    - eexists. split; [right; right; left |]. reflexivity. }
  destruct (fold_left _ members st) as [auth bad]. simpl in *. subst bad.
  simpl. done.
Qed.

End Pipeline_theorems.

(** ** The path builder *)

Lemma append_cons (x : byte) (a b : string) :
  String x a +:+ b = String x (a +:+ b).
Proof. reflexivity. Qed.

Lemma append_nil_l (a : string) : "" +:+ a = a.
Proof. reflexivity. Qed.

Ltac strings := repeat (rewrite ?append_cons, ?append_nil_l; simpl).

Lemma append_assoc (a b c : string) : (a +:+ b) +:+ c = a +:+ b +:+ c.
Proof. induction a as [| x a IH]; strings; [reflexivity | by f_equal]. Qed.

Lemma append_nil_r (a : string) : a +:+ "" = a.
Proof. induction a as [| x a IH]; strings; [reflexivity | by f_equal]. Qed.

Lemma all_bytes_app (p : byte → bool) (a b : string) :
  all_bytes p (a +:+ b) = all_bytes p a && all_bytes p b.
Proof.
  induction a as [| x a IH]; strings; [reflexivity |].
  by rewrite IH, andb_assoc.
Qed.

Lemma escape_app (a b : string) (mode : url.encoding) :
  url.escape (a +:+ b) mode = url.escape a mode +:+ url.escape b mode.
Proof.
  induction a as [| x a IH]; strings; [reflexivity |].
  by rewrite IH, append_assoc.
Qed.

(** A byte of a path segment is kept when it need not be escaped and is
    written as [%] and two digits otherwise. *)
Lemma escape_byte_segment (c : byte) :
  (url.shouldEscape c url.encodePathSegment = false
   ∧ url.escape_byte c url.encodePathSegment = String c "")
  ∨ (url.shouldEscape c url.encodePathSegment = true
     ∧ ∃ x y, url.escape_byte c url.encodePathSegment
              = String "%" (String x (String y ""))
              ∧ x ≠ "/"%char ∧ y ≠ "/"%char).
Proof.
  unfold url.escape_byte. rewrite andb_false_r.
  destruct (url.shouldEscape c url.encodePathSegment) eqn:Hesc; [right | left];
    (split; [reflexivity |]); [| reflexivity].
  eexists _, _. split; [reflexivity |].
  clear Hesc. split; destruct c as [[] [] [] [] [] [] [] []]; by vm_compute.
Qed.

(** The slash and the space are escaped in a path segment, the at sign is
    not. *)
Lemma shouldEscape_segment_bytes :
  url.shouldEscape "/" url.encodePathSegment = true
  ∧ url.shouldEscape " " url.encodePathSegment = true
  ∧ url.shouldEscape "@" url.encodePathSegment = false.
Proof. by vm_compute. Qed.

(** No escaped segment holds a slash. *)
Lemma PathEscape_no_slash (s : string) : path.no_slash (url.PathEscape s) = true.
Proof.
  unfold path.no_slash, url.PathEscape.
  induction s as [| c s IH]; [reflexivity |].
  simpl. rewrite all_bytes_app, IH, andb_true_r.
  destruct (escape_byte_segment c) as [[Hesc ->] | [_ (x & y & -> & Hx & Hy)]].
  - simpl. rewrite andb_true_r. apply negb_true_iff.
    destruct (Ascii.eqb_spec c "/") as [-> |]; [| reflexivity].
    by vm_compute in Hesc.
  - simpl. rewrite andb_true_r.
    destruct (Ascii.eqb_spec x "/"), (Ascii.eqb_spec y "/"); done.
Qed.

Lemma PathEscape_nil (s : string) : url.PathEscape s = "" ↔ s = "".
Proof.
  split; [| by intros ->].
  destruct s as [| c s]; [done |]. unfold url.PathEscape. simpl.
  destruct (escape_byte_segment c) as [[_ ->] | [_ (x & y & -> & _)]]; done.
Qed.

(** Escaping maps the elements [Clean] treats specially, and only them,
    to themselves. *)
Lemma PathEscape_dot (s : string) : url.PathEscape s = "." ↔ s = ".".
Proof.
  split; [| by intros ->].
  destruct s as [| c s]; [done |]. unfold url.PathEscape. simpl.
  destruct (escape_byte_segment c) as [[_ ->] | [_ (x & y & -> & _)]];
    strings; [| intros Heq; discriminate].
  intros [= -> Hs]. apply (proj1 (PathEscape_nil s)) in Hs. by subst.
Qed.

Lemma PathEscape_dotdot (s : string) : url.PathEscape s = ".." ↔ s = "..".
Proof.
  split; [| by intros ->].
  destruct s as [| c s]; [done |]. unfold url.PathEscape. simpl.
  destruct (escape_byte_segment c) as [[_ ->] | [_ (x & y & -> & _)]];
    strings; [| intros Heq; discriminate].
  intros [= -> Hs]. apply (proj1 (PathEscape_dot s)) in Hs. by subst.
Qed.

Lemma PathEscape_ordinary (s : string) :
  path.ordinary (url.PathEscape s) = path.ordinary s.
Proof.
  unfold path.ordinary, str_eqb.
  by rewrite (bool_decide_ext _ _ (PathEscape_nil s)),
    (bool_decide_ext _ _ (PathEscape_dot s)),
    (bool_decide_ext _ _ (PathEscape_dotdot s)).
Qed.

(** Joining elements that hold no slash and splitting again gives the
    elements back. *)
Lemma elements_single (e : string) :
  path.no_slash e = true → path.elements e = [e].
Proof.
  unfold path.no_slash. induction e as [| c e IH]; [reflexivity |].
  simpl. intros [Hc He]%andb_true_iff. apply negb_true_iff in Hc.
  by rewrite Hc, IH.
Qed.

Lemma elements_app (e r : string) :
  path.no_slash e = true →
  path.elements (e +:+ String "/" r) = e :: path.elements r.
Proof.
  unfold path.no_slash. induction e as [| c e IH]; [reflexivity |].
  simpl. intros [Hc He]%andb_true_iff. apply negb_true_iff in Hc.
  strings. by rewrite Hc, IH.
Qed.

Lemma elements_join (parts : list string) :
  parts ≠ [] → Forall (λ e, path.no_slash e = true) parts →
  path.elements (strings_Join parts "/") = parts.
Proof.
  induction parts as [| x [| y rest] IH]; [done | |]; intros _ Hall.
  - apply elements_single. by inversion Hall.
  - inversion Hall as [| ? ? Hx Hrest]; subst.
    change (strings_Join (x :: y :: rest) "/")
      with (x +:+ String "/" (strings_Join (y :: rest) "/")).
    rewrite elements_app by done. f_equal. by apply IH.
Qed.

Lemma clean_fold_ordinary (r : bool) (parts out : list string) (dotdot : nat) :
  Forall (λ e, path.ordinary e = true) parts →
  fold_left (path.clean_step r) parts (out, dotdot)
  = (rev parts ++ out, dotdot).
Proof.
  revert out. induction parts as [| e parts IH]; intros out Hall;
    [reflexivity |].
  inversion Hall as [| ? ? He Hrest]; subst.
  unfold path.ordinary in He.
  apply andb_true_iff in He as [[H1 H2]%andb_true_iff H3].
  apply negb_true_iff in H1, H2, H3.
  assert (Hstep : path.clean_step r (out, dotdot) e = (e :: out, dotdot)).
  { unfold path.clean_step. by rewrite H1, H2, H3. }
  change (fold_left (path.clean_step r) (e :: parts) (out, dotdot))
    with (fold_left (path.clean_step r) parts
            (path.clean_step r (out, dotdot) e)).
  rewrite Hstep, IH by done. simpl. by rewrite <- app_assoc.
Qed.

Lemma Join_head (x : string) (rest : list string) :
  x ≠ "" → ∃ c tail, strings_Join (x :: rest) "/" = String c tail
                      ∧ ∃ x', x = String c x'.
Proof.
  intros Hx. destruct x as [| c x]; [done |].
  destruct rest; simpl; strings; eauto.
Qed.

(** [path.Join] of ordinary elements that hold no slash is the elements
    with slashes between them. *)
Lemma Join_ordinary (parts : list string) :
  Forall (λ e, path.ordinary e = true) parts →
  Forall (λ e, path.no_slash e = true) parts →
  path.Join parts = strings_Join parts "/".
Proof.
  destruct parts as [| x rest]; [reflexivity |]. intros Hord Hns.
  assert (Hx : x ≠ "").
  { inversion Hord as [| ? ? He _]; subst. by intros ->. }
  unfold path.Join. rewrite (proj2 (str_eqb_neq x "")) by done.
  unfold path.Clean.
  destruct (Join_head x rest Hx) as (c & tail & Hjoin & x' & ->).
  rewrite (proj2 (str_eqb_neq _ "")) by (rewrite Hjoin; done).
  assert (Hroot : path.rooted (strings_Join (String c x' :: rest) "/") = false).
  { rewrite Hjoin. simpl. inversion Hns as [| ? ? Hc _]; subst.
    unfold path.no_slash in Hc. simpl in Hc.
    apply andb_true_iff in Hc as [Hc _]. by apply negb_true_iff in Hc. }
  rewrite Hroot, elements_join, clean_fold_ordinary by done.
  rewrite app_nil_r, rev_involutive.
  by rewrite (proj2 (str_eqb_neq _ "")) by (rewrite Hjoin; done).
Qed.

Lemma fold_append {A} (f : A → string) (l : list A) (parts : list string) :
  fold_left (λ parts s, parts ++ [f s]) l parts = parts ++ map f l.
Proof.
  revert parts. induction l as [| x l IH]; intros parts; simpl.
  - by rewrite app_nil_r.
  - by rewrite IH, <- app_assoc.
Qed.

Lemma dataPath_parts (c : Client) (segments : list string) :
  dataPath c segments
  = "/api/session/data/"
    +:+ path.Join (map url.PathEscape (dataSource c :: segments)).
Proof. unfold dataPath. by rewrite fold_append. Qed.

(** For a data source and segments that are not empty and are not [.] or
    [..], the path is the prefix followed by the escaped data source and
    the escaped segments, each escaped on its own, with one slash between
    them; no slash comes from inside a segment. *)
Lemma dataPath_ordinary (c : Client) (segments : list string) :
  Forall (λ e, path.ordinary e = true) (dataSource c :: segments) →
  dataPath c segments
  = "/api/session/data/"
    +:+ strings_Join (map url.PathEscape (dataSource c :: segments)) "/"
  ∧ Forall (λ e, path.no_slash e = true)
      (map url.PathEscape (dataSource c :: segments)).
Proof.
  intros Hord.
  assert (Hns : Forall (λ e, path.no_slash e = true)
                  (map url.PathEscape (dataSource c :: segments))).
  { apply Forall_map, Forall_forall. intros s _. apply PathEscape_no_slash. }
  split; [| exact Hns].
  rewrite dataPath_parts. f_equal. apply Join_ordinary; [| exact Hns].
  apply Forall_map. eapply Forall_impl; [exact Hord |].
  intros s Hs. simpl. by rewrite PathEscape_ordinary.
Qed.

(** The at sign of a segment is written as it is. *)
Lemma PathEscape_at_sign (a b : string) :
  url.PathEscape (a +:+ String "@" b)
  = url.PathEscape a +:+ String "@" (url.PathEscape b).
Proof. unfold url.PathEscape. by rewrite escape_app. Qed.

(** The space of a segment is written [%20] and the slash [%2F]. *)
Lemma PathEscape_space_slash (a b : string) :
  url.PathEscape (a +:+ String " " b)
  = url.PathEscape a +:+ "%20" +:+ url.PathEscape b
  ∧ url.PathEscape (a +:+ String "/" b)
    = url.PathEscape a +:+ "%2F" +:+ url.PathEscape b.
Proof. unfold url.PathEscape. by rewrite !escape_app. Qed.

Lemma at_sign_ordinary (a b : string) :
  path.ordinary (a +:+ String "@" b) = true.
Proof.
  destruct a as [| x [| y a]]; strings; unfold path.ordinary, str_eqb;
    rewrite ?bool_decide_eq_false_2 by done; [done | done |].
  rewrite bool_decide_eq_false_2; [done |].
  intros [= _ _ Ha]. by destruct a.
Qed.

(** Every identifier that holds an at sign is written into the path with
    the at sign as it is. *)
Lemma dataPath_segment_at_sign (c : Client) (collection a b : string) :
  path.ordinary (dataSource c) = true →
  path.ordinary collection = true →
  dataPath c [collection; a +:+ String "@" b]
  = "/api/session/data/" +:+ url.PathEscape (dataSource c) +:+ "/"
    +:+ url.PathEscape collection +:+ "/"
    +:+ url.PathEscape a +:+ String "@" (url.PathEscape b).
Proof.
  intros Hsource Hcollection.
  destruct (dataPath_ordinary c [collection; a +:+ String "@" b]) as [-> _].
  { repeat constructor; auto using at_sign_ordinary. }
  simpl. by rewrite PathEscape_at_sign.
Qed.

(** C6, at the identifier of the example in the documentation of
    [dataPath]: the at sign of [bob@example.com] is left as it is, where
    the documentation of [dataPath] has [%40]; the space and the slash of
    an identifier are written [%20] and [%2F]. *)
Theorem dataPath_at_sign_kept (base token : string)
    (transport : Request → result Response) :
  dataPath (mkClient base transport token "postgresql")
    ["users"; "bob@example.com"]
  = "/api/session/data/postgresql/users/bob@example.com"
  ∧ dataPath (mkClient base transport token "postgresql")
      ["users"; "bob@example.com"]
    ≠ "/api/session/data/postgresql/users/bob%40example.com"
  ∧ dataPath (mkClient base transport token "postgresql")
      ["users"; "bob smith@example.com"]
    = "/api/session/data/postgresql/users/bob%20smith@example.com"
  ∧ dataPath (mkClient base transport token "postgresql")
      ["users"; "group/name"]
    = "/api/session/data/postgresql/users/group%2Fname".
Proof. by vm_compute. Qed.

(** ** The attribute map codec: encoding *)

Section Codec_theorems.
Context `{GoLib}.

Lemma MarshalJSON_ok (m : NullableStringMap) :
  ∃ members,
    MarshalJSON m = Ok ("{" +:+ strings_Join members "," +:+ "}")
    ∧ length members = len m.
Proof.
  destruct m as [entries |]; simpl.
  - eexists. split; [reflexivity |].
    rewrite length_map, (Permutation_length (merge_sort_Permutation _ _)).
    apply length_map_to_list.
  - by exists [].
Qed.


Lemma member_texts_ok (fields : list member) :
  Forall (λ f, ∃ v, mvalue f = Ok v) fields →
  ∃ texts, member_texts fields = Ok texts
           ∧ ∀ f v, f ∈ fields → mvalue f = Ok v →
                    member_text (mname f) v ∈ texts.
Proof.
  induction fields as [| f fields IH]; intros Hall.
  - exists []. split; [reflexivity |]. intros f v Hin. by apply elem_of_nil in Hin.
  - inversion Hall as [| ? ? [v Hv] Hrest]; subst.
    destruct (IH Hrest) as (texts & Htexts & Hin). simpl.
    rewrite Hv, Htexts. eexists. split; [reflexivity |].
    intros f' v' [-> | Hf']%elem_of_cons Hv'.
    + rewrite Hv in Hv'. injection Hv' as <-. left.
    + right. by apply Hin.
Qed.

Lemma written_ok (fields : list member) :
  Forall (λ f, ∃ v, mvalue f = Ok v) fields →
  Forall (λ f, ∃ v, mvalue f = Ok v) (written fields).
Proof.
  intros Hall. apply Forall_forall. intros f Hin.
  apply list_elem_of_filter in Hin as [_ Hin].
  by eapply Forall_forall in Hall.
Qed.


Lemma field_attributes_ok (name : string) (omit : bool)
    (attrs : NullableStringMap) :
  ∃ v, mvalue (field_attributes name omit attrs) = Ok v.
Proof. destruct (MarshalJSON_ok attrs) as (members & Hm & _). eauto. Qed.





Lemma encode_struct_ok (fields : list member) :
  Forall (λ f, ∃ v, mvalue f = Ok v) fields →
  ∃ text, encode_struct fields = Ok text.
Proof.
  intros Hall. unfold encode_struct.
  destruct (member_texts_ok (written fields) (written_ok fields Hall))
    as (texts & -> & _).
  eauto.
Qed.







(** ** The attribute map codec: decoding *)

(** What encoding/json leaves in [raw] under a key is the pointer of the
    last member with that key. *)
Lemma decode_raw_fold (members : list (string * json))
    (st : gmap string (option string) * bool) (k : string) :
  (fold_left decode_raw_member members st).1 !! k
  = match last_value k members with
    | Some v => Some (pointer v)
    | None => st.1 !! k
    end.
Proof.
  revert st. induction members as [| kv members IH]; intros st; [reflexivity |].
  simpl. rewrite IH. destruct (last_value k members) as [v |]; [reflexivity |].
  simpl. unfold str_eqb. case_bool_decide as Hk.
  - by rewrite Hk, lookup_insert_eq.
  - by rewrite lookup_insert_ne.
Qed.

Lemma decode_raw_fold_fits (members : list (string * json))
    (st : gmap string (option string) * bool) :
  strings_and_nulls members = true →
  (fold_left decode_raw_member members st).2 = st.2.
Proof.
  unfold strings_and_nulls.
  revert st. induction members as [| kv members IH]; intros st Hall;
    [reflexivity |].
  simpl in Hall. apply andb_true_iff in Hall as [Hkv Hrest].
  simpl. rewrite IH by done. simpl. rewrite Hkv. by destruct st.2.
Qed.

(** The loop over [raw] keeps the entries whose pointer is not nil. *)
Lemma range_raw (raw : gmap string (option string)) :
  map_fold (λ k v (acc : gmap string string),
              match v with
              | Some s => <[k := s]> acc
              | None => acc
              end) ∅ raw
  = omap id raw.
Proof.
  apply (map_fold_weak_ind (λ acc raw, acc = omap id raw)).
  - by rewrite omap_empty.
  - intros k v raw' acc Hk ->. destruct v as [s |].
    + by rewrite omap_insert_Some with (y := s).
    + rewrite omap_insert_None by done.
      rewrite delete_id; [done |]. by rewrite lookup_omap, Hk.
Qed.

Lemma last_value_elem (k : string) (v : json)
    (members : list (string * json)) :
  last_value k members = Some v → (k, v) ∈ members.
Proof.
  induction members as [| [k' v'] members IH]; [discriminate |].
  simpl. destruct (last_value k members) as [w |].
  - intros [= ->]. right. by apply IH.
  - unfold str_eqb. case_bool_decide as Hk; [| discriminate].
    intros [= ->]. subst. left.
Qed.

Lemma last_value_fits (k : string) (v : json)
    (members : list (string * json)) :
  strings_and_nulls members = true →
  last_value k members = Some v → fits_string v = true.
Proof.
  intros Hall Hk%last_value_elem. unfold strings_and_nulls in Hall.
  rewrite forallb_forall in Hall. apply list_elem_of_In in Hk.
  exact (Hall _ Hk).
Qed.

Lemma UnmarshalJSON_object (m : NullableStringMap) (data : string)
    (members : list (string * json)) :
  json_value data = Some (JObject members) →
  strings_and_nulls members = true →
  ∃ entries,
    UnmarshalJSON m data = (Some entries, None)
    ∧ ∀ k, entries !! k = last_value k members ≫= pointer.
Proof.
  intros Hvalue Hall. unfold UnmarshalJSON, json_Unmarshal_raw.
  rewrite Hvalue.
  pose proof (decode_raw_fold_fits members (∅, false) Hall) as Hbad.
  pose proof (decode_raw_fold members (∅, false)) as Hraw.
  destruct (fold_left decode_raw_member members (∅, false)) as [raw bad].
  simpl in *. subst bad. eexists. split; [reflexivity |].
  intros k. rewrite range_raw, lookup_omap, Hraw, lookup_empty.
  by destruct (last_value k members).
Qed.

(** What [UnmarshalJSON] does for a JSON object whose values are strings
    or nulls: it succeeds and leaves a map that is not nil; a key whose
    value is a string is mapped to that string; a key whose value is
    [null] is not stored, and reading it gives the empty string, as
    reading any key the map does not hold; so the keys of the map are the
    keys of the object whose value is a string.  Of a key that occurs more
    than once the last member counts. *)
Theorem UnmarshalJSON_strings_and_nulls (m : NullableStringMap)
    (data : string) (members : list (string * json)) :
  json_value data = Some (JObject members) →
  strings_and_nulls members = true →
  ∃ entries,
    UnmarshalJSON m data = (Some entries, None)
    ∧ (∀ k, last_value k members = Some JNull →
            index (Some entries) k = "" ∧ k ∉ keys (Some entries))
    ∧ (∀ k s, last_value k members = Some (JString s) →
              index (Some entries) k = s ∧ entries !! k = Some s)
    ∧ (∀ k, k ∈ keys (Some entries)
            ↔ ∃ s, last_value k members = Some (JString s)).
Proof.
  intros Hvalue Hall.
  destruct (UnmarshalJSON_object m data members Hvalue Hall)
    as (entries & Hcall & Hlookup).
  exists entries. split; [exact Hcall |]. simpl.
  split; [| split].
  - intros k Hk. rewrite elem_of_dom, Hlookup, Hk. simpl.
    split; [reflexivity |]. by intros [x Hx].
  - intros k s Hk. by rewrite Hlookup, Hk.
  - intros k. rewrite elem_of_dom, Hlookup.
    destruct (last_value k members) as [v |] eqn:Hk; simpl.
    + apply last_value_fits in Hk; [| exact Hall].
      destruct v; try discriminate Hk; simpl;
        split; intros [x Hx]; try discriminate; eauto.
    + split; intros [x Hx]; discriminate.
Qed.

End Codec_theorems.

(** ** The theorems at the requests and responses of the tests *)

Import Examples.

Lemma UnmarshalJSON_strings_and_nulls_witness :
  @json_value Reference.lib attributes_text
  = Some (JObject [("a", JNull); ("b", JString "hello"); ("c", JNull)])
  ∧ strings_and_nulls [("a", JNull); ("b", JString "hello"); ("c", JNull)]
    = true
  ∧ ∃ entries,
      @UnmarshalJSON Reference.lib None attributes_text = (Some entries, None)
      ∧ index (Some entries) "a" = ""
      ∧ index (Some entries) "b" = "hello"
      ∧ index (Some entries) "c" = ""
      ∧ keys (Some entries) = {["b"]}.
Proof.
  assert (Hvalue : @json_value Reference.lib attributes_text
            = Some (JObject [("a", JNull); ("b", JString "hello");
                             ("c", JNull)])) by reflexivity.
  assert (Hall : strings_and_nulls
                   [("a", JNull); ("b", JString "hello"); ("c", JNull)]
                 = true) by reflexivity.
  split; [exact Hvalue |]. split; [exact Hall |].
  destruct (@UnmarshalJSON_strings_and_nulls Reference.lib None
              attributes_text _ Hvalue Hall)
    as (entries & Hcall & Hnull & Hstring & Hkeys).
  exists entries. split; [exact Hcall |].
  split; [exact (proj1 (Hnull "a" eq_refl)) |].
  split; [exact (proj1 (Hstring "b" "hello" eq_refl)) |].
  split; [exact (proj1 (Hnull "c" eq_refl)) |].
  apply set_eq. intros k. rewrite Hkeys, elem_of_singleton. split.
  - intros [s Hs]. simpl in Hs. unfold str_eqb in Hs.
    repeat case_bool_decide; simplify_eq; done.
  - intros ->. by exists "hello".
Defined.

(** C2, where the code departs from it: the object [{"a":null}] decodes
    to the empty map.  The key [a], whose value is [null], is not mapped
    to the empty string: it is gone, so the keys of the object are not
    the keys of the map, which the decoding as the specification states
    it excludes. *)
Lemma UnmarshalJSON_null_key_dropped :
  @json_value Reference.lib null_attribute_text = Some (JObject [("a", JNull)])
  ∧ @UnmarshalJSON Reference.lib None null_attribute_text = (Some ∅, None)
  ∧ keys (Some ∅) ≠ list_to_set [("a", JNull)].*1
  ∧ ¬ @decodes_with_keys_preserved Reference.lib None null_attribute_text.
Proof.
  assert (Hkeys : keys (Some ∅) ≠ list_to_set [("a", JNull)].*1).
  { simpl. intros Heq. assert (Hin : "a" ∈ (∅ : gset string)); [| set_solver].
    rewrite dom_empty_L in Heq. rewrite Heq. set_solver. }
  split; [reflexivity |]. split; [reflexivity |]. split; [exact Hkeys |].
  intros Hclaim.
  destruct (Hclaim [("a", JNull)] eq_refl eq_refl) as (m' & Hcall & _ & _ & Hk).
  assert (Hm : m' = Some ∅).
  { change (@UnmarshalJSON Reference.lib None null_attribute_text)
      with (Some (∅ : gmap string string), @None error) in Hcall.
    congruence. }
  subst m'. exact (Hkeys Hk).
Qed.

Lemma do_non_2xx_APIError_witness :
  let c := test_client (respond 404 not_found_text) in
  let req :=
    {| Method := "GET"; URL := "http://127.0.0.1:8080/api/session/data/postgresql/connections/99";
       Header := <["Guacamole-Token" := ["test-token"]]> ∅;
       ReqBody := None |} in
  @do_request Reference.lib string marshal_text c "GET"
    "/api/session/data/postgresql/connections/99" None = Ok req
  ∧ httpClient c req = Ok (respond 404 not_found_text)
  ∧ ¬ (200 ≤ 404 < 300)
  ∧ @carries Reference.lib _ APIError_fields not_found_members "message"
      "Not found" = true
  ∧ @carries Reference.lib _ APIError_fields not_found_members "type"
      "NOT_FOUND" = true
  ∧ @do Reference.lib string marshal_text c "GET"
      "/api/session/data/postgresql/connections/99" None
    = Err (ErrAPIError {| Message := "Not found"; Type_ := "NOT_FOUND";
                          HTTPStatus := 404 |}).
Proof.
  intros c req.
  assert (Hreq : @do_request Reference.lib string marshal_text c "GET"
                   "/api/session/data/postgresql/connections/99" None = Ok req)
    by reflexivity.
  assert (Hdo : httpClient c req = Ok (respond 404 not_found_text))
    by reflexivity.
  assert (Hstatus : ¬ (200 ≤ 404 < 300)) by lia.
  assert (Hm : @carries Reference.lib _ APIError_fields not_found_members
                 "message" "Not found" = true) by reflexivity.
  assert (Ht : @carries Reference.lib _ APIError_fields not_found_members
                 "type" "NOT_FOUND" = true) by reflexivity.
  repeat (split; [assumption |]).
  destruct (@do_non_2xx_APIError Reference.lib string marshal_text c "GET"
              "/api/session/data/postgresql/connections/99" None req
              (respond 404 not_found_text) Hreq Hdo Hstatus)
    as (apiErr & Hcall & Hs & Hbody).
  destruct (proj1 (Hbody eq_refl ltac:(discriminate)) not_found_members
              "Not found" "NOT_FOUND" eq_refl Hm Ht) as [Hmsg Hty].
  rewrite Hcall. destruct apiErr as [message type status].
  simpl in Hs, Hmsg, Hty. by subst.
Defined.

Lemma Authenticate_success_witness :
  let c := fresh_client (respond 200 auth_text) in
  @request_ok Reference.lib "POST" (baseURL c +:+ "/api/tokens") = true
  ∧ httpClient c (auth_request c "admin" "secret") = Ok (respond 200 auth_text)
  ∧ @json_stream_value Reference.lib (RespBody (respond 200 auth_text))
    = Some (JObject auth_members)
  ∧ @carries Reference.lib _ AuthResponse_fields auth_members "authToken" "T"
    = true
  ∧ @carries Reference.lib _ AuthResponse_fields auth_members "dataSource"
      "postgresql" = true
  ∧ @fits Reference.lib _ AuthResponse_fields auth_members = true
  ∧ (@Authenticate Reference.lib c "admin" "secret").2 = None
  ∧ Client_AuthToken (@Authenticate Reference.lib c "admin" "secret").1 = "T"
  ∧ Client_DataSource (@Authenticate Reference.lib c "admin" "secret").1
    = "postgresql".
Proof.
  intros c.
  assert (Hok : @request_ok Reference.lib "POST" (baseURL c +:+ "/api/tokens")
                = true) by reflexivity.
  assert (Hdo : httpClient c (auth_request c "admin" "secret")
                = Ok (respond 200 auth_text)) by reflexivity.
  assert (Hvalue : @json_stream_value Reference.lib
                     (RespBody (respond 200 auth_text))
                   = Some (JObject auth_members)) by reflexivity.
  assert (Ht : @carries Reference.lib _ AuthResponse_fields auth_members
                 "authToken" "T" = true) by reflexivity.
  assert (Hs : @carries Reference.lib _ AuthResponse_fields auth_members
                 "dataSource" "postgresql" = true) by reflexivity.
  assert (Hfits : @fits Reference.lib _ AuthResponse_fields auth_members
                  = true) by reflexivity.
  repeat (split; [assumption |]).
  exact (@Authenticate_success Reference.lib c "admin" "secret"
           (respond 200 auth_text) auth_members "T" "postgresql"
           Hok Hdo eq_refl Hvalue Ht Hs Hfits).
Defined.

Lemma Authenticate_non_2xx_witness :
  let c := test_client (respond 403 denied_text) in
  @request_ok Reference.lib "POST" (baseURL c +:+ "/api/tokens") = true
  ∧ httpClient c (auth_request c "bad" "creds") = Ok (respond 403 denied_text)
  ∧ ¬ (200 ≤ 403 < 300)
  ∧ readErr (RespBody (respond 403 denied_text)) = false
  ∧ data (RespBody (respond 403 denied_text)) ≠ ""
  ∧ @json_value Reference.lib (data (RespBody (respond 403 denied_text)))
    = Some (JObject denied_members)
  ∧ @carries Reference.lib _ APIError_fields denied_members "message"
      "Invalid credentials." = true
  ∧ @carries Reference.lib _ APIError_fields denied_members "type"
      "PERMISSION_DENIED" = true
  ∧ ∃ apiErr,
      (@Authenticate Reference.lib c "bad" "creds").2
      = Some (ErrAPIError apiErr)
      ∧ ErrAPIError apiErr = @parseError Reference.lib (respond 403 denied_text)
      ∧ HTTPStatus apiErr = 403
      ∧ Message apiErr = "Invalid credentials."
      ∧ Type_ apiErr = "PERMISSION_DENIED"
      ∧ IsPermissionDenied (@Authenticate Reference.lib c "bad" "creds").2
        = Returns true
      ∧ IsNotFound (@Authenticate Reference.lib c "bad" "creds").2
        = Returns false
      ∧ authToken (@Authenticate Reference.lib c "bad" "creds").1 = "test-token"
      ∧ dataSource (@Authenticate Reference.lib c "bad" "creds").1
        = "postgresql".
Proof.
  intros c.
  assert (Hok : @request_ok Reference.lib "POST" (baseURL c +:+ "/api/tokens")
                = true) by reflexivity.
  assert (Hdo : httpClient c (auth_request c "bad" "creds")
                = Ok (respond 403 denied_text)) by reflexivity.
  assert (Hstatus : ¬ (200 ≤ 403 < 300)) by lia.
  assert (Hread : readErr (RespBody (respond 403 denied_text)) = false)
    by reflexivity.
  assert (Hdata : data (RespBody (respond 403 denied_text)) ≠ "")
    by (vm_compute; discriminate).
  assert (Hvalue : @json_value Reference.lib
                     (data (RespBody (respond 403 denied_text)))
                   = Some (JObject denied_members)) by reflexivity.
  assert (Hm : @carries Reference.lib _ APIError_fields denied_members
                 "message" "Invalid credentials." = true) by reflexivity.
  assert (Ht : @carries Reference.lib _ APIError_fields denied_members
                 "type" "PERMISSION_DENIED" = true) by reflexivity.
  repeat (split; [assumption |]).
  destruct (@Authenticate_non_2xx Reference.lib c "bad" "creds"
              (respond 403 denied_text) Hok Hdo Hstatus)
    as (apiErr & Herr & Hparse & Hs & Htok & Hsrc & Hn & Hp & _ & Hbody).
  destruct (Hbody Hread Hdata) as [Hobject _].
  destruct (Hobject denied_members "Invalid credentials." "PERMISSION_DENIED"
              Hvalue Hm Ht) as [Hmessage Htype].
  rewrite Htype in Hn, Hp.
  exists apiErr. repeat (split; [assumption |]). assumption.
Defined.

Lemma Authenticate_only_200_witness :
  let c := test_client (respond 201 denied_text) in
  @request_ok Reference.lib "POST" (baseURL c +:+ "/api/tokens") = true
  ∧ httpClient c (auth_request c "admin" "secret")
    = Ok (respond 201 denied_text)
  ∧ 201 ≠ 200
  ∧ readErr (RespBody (respond 201 denied_text)) = false
  ∧ data (RespBody (respond 201 denied_text)) ≠ ""
  ∧ @json_value Reference.lib (data (RespBody (respond 201 denied_text)))
    = Some (JObject denied_members)
  ∧ @carries Reference.lib _ APIError_fields denied_members "message"
      "Invalid credentials." = true
  ∧ @carries Reference.lib _ APIError_fields denied_members "type"
      "PERMISSION_DENIED" = true
  ∧ ∃ apiErr,
      @Authenticate Reference.lib c "admin" "secret"
      = (c, Some (ErrAPIError apiErr))
      ∧ ErrAPIError apiErr = @parseError Reference.lib (respond 201 denied_text)
      ∧ HTTPStatus apiErr = 201
      ∧ Message apiErr = "Invalid credentials."
      ∧ Type_ apiErr = "PERMISSION_DENIED"
      ∧ authToken (@Authenticate Reference.lib c "admin" "secret").1
        = "test-token"
      ∧ dataSource (@Authenticate Reference.lib c "admin" "secret").1
        = "postgresql".
Proof.
  intros c.
  assert (Hok : @request_ok Reference.lib "POST" (baseURL c +:+ "/api/tokens")
                = true) by reflexivity.
  assert (Hdo : httpClient c (auth_request c "admin" "secret")
                = Ok (respond 201 denied_text)) by reflexivity.
  assert (Hstatus : 201 ≠ 200) by lia.
  assert (Hread : readErr (RespBody (respond 201 denied_text)) = false)
    by reflexivity.
  assert (Hdata : data (RespBody (respond 201 denied_text)) ≠ "")
    by (vm_compute; discriminate).
  assert (Hvalue : @json_value Reference.lib
                     (data (RespBody (respond 201 denied_text)))
                   = Some (JObject denied_members)) by reflexivity.
  assert (Hm : @carries Reference.lib _ APIError_fields denied_members
                 "message" "Invalid credentials." = true) by reflexivity.
  assert (Ht : @carries Reference.lib _ APIError_fields denied_members
                 "type" "PERMISSION_DENIED" = true) by reflexivity.
  repeat (split; [assumption |]).
  destruct (@Authenticate_only_200 Reference.lib c "admin" "secret"
              (respond 201 denied_text) Hok Hdo Hstatus)
    as (apiErr & Herr & Hparse & Hs & Htok & Hsrc & _ & Hbody).
  destruct (Hbody Hread Hdata) as [Hobject _].
  destruct (Hobject denied_members "Invalid credentials." "PERMISSION_DENIED"
              Hvalue Hm Ht) as [Hmessage Htype].
  exists apiErr. repeat (split; [assumption |]). assumption.
Defined.

Lemma do_request_headers_witness :
  let c := test_client (respond 200 "{}") in
  let req :=
    {| Method := "POST"; URL := "http://127.0.0.1:8080/api/session/data/postgresql/users";
       Header := <["Guacamole-Token" := ["test-token"]]>
                   (<["Content-Type" := ["application/json"]]> ∅);
       ReqBody := Some "{}" |} in
  @do_request Reference.lib string marshal_text c "POST"
    "/api/session/data/postgresql/users" (Some "{}") = Ok req
  ∧ (is_Some (Header req !! "Content-Type") ↔ is_Some (Some "{}"))
  ∧ (is_Some (Some "{}") →
     Header req !! "Content-Type" = Some ["application/json"])
  ∧ (is_Some (Header req !! "Guacamole-Token") ↔ authToken c ≠ "")
  ∧ (authToken c ≠ "" →
     Header req !! "Guacamole-Token" = Some [authToken c]).
Proof.
  intros c req.
  assert (Hreq : @do_request Reference.lib string marshal_text c "POST"
                   "/api/session/data/postgresql/users" (Some "{}") = Ok req)
    by reflexivity.
  split; [assumption |].
  exact (@do_request_headers Reference.lib string marshal_text c "POST"
           "/api/session/data/postgresql/users" (Some "{}") req Hreq).
Defined.

(** ** The package's tests, run on the embedding *)

(** TestNullableStringMap_MarshalJSON: the nil map, the empty map, a
    populated map, and a user whose attributes are nil. *)
Example MarshalJSON_tests :
  @MarshalJSON Reference.lib None = Ok "{}"
  ∧ @MarshalJSON Reference.lib (Some ∅) = Ok "{}"
  ∧ @MarshalJSON Reference.lib
      (Some {[ "hostname" := "10.0.0.1"; "port" := "22" ]})
    = Ok ("{" +:+ q "hostname" +:+ ":" +:+ q "10.0.0.1" +:+ ","
              +:+ q "port" +:+ ":" +:+ q "22" +:+ "}")
  ∧ @json_Marshal_User Reference.lib (User.mk "bob" "secret" false None 0)
    = Ok ("{" +:+ q "username" +:+ ":" +:+ q "bob" +:+ ","
              +:+ q "password" +:+ ":" +:+ q "secret" +:+ ","
              +:+ q "attributes" +:+ ":{}}").
Proof. by vm_compute. Qed.

(** TestNullableStringMap_UnmarshalJSON: the empty object and an object of
    strings. *)
Example UnmarshalJSON_tests :
  @UnmarshalJSON Reference.lib None "{}" = (Some ∅, None)
  ∧ @UnmarshalJSON Reference.lib None
      ("{" +:+ q "key" +:+ ":" +:+ q "value" +:+ "}")
    = (Some {[ "key" := "value" ]}, None)
  ∧ (@UnmarshalJSON Reference.lib (Some {[ "old" := "kept" ]}) "{").2 ≠ None.
Proof. by vm_compute. Qed.

(** TestParseError_non_json_body. *)
Example parseError_non_json_body :
  @parseError Reference.lib (respond 503 "Service Unavailable")
  = ErrAPIError {| Message := "Service Unavailable"; Type_ := "";
                   HTTPStatus := 503 |}.
Proof. reflexivity. Qed.

(** TestIsNotFound_through_wrapped_error: the error of [GetConnection]. *)
Example IsNotFound_through_wrapped_error :
  let err :=
    Some (ErrWrap "guacamole: get connection 99: "
            (@parseError Reference.lib (respond 404 not_found_text))) in
  IsNotFound err = Returns true ∧ IsPermissionDenied err = Returns false.
Proof. by vm_compute. Qed.

(** TestDataPath_url_encodes_special_chars, with the paths written out,
    and what [path.Join] makes of segments that are empty or dots. *)
Example dataPath_tests :
  let c := test_client (respond 200 "{}") in
  dataPath c ["users"; "normal"] = "/api/session/data/postgresql/users/normal"
  ∧ dataPath c ["users"; "with space"]
    = "/api/session/data/postgresql/users/with%20space"
  ∧ dataPath c ["users"; "group/name"]
    = "/api/session/data/postgresql/users/group%2Fname"
  ∧ dataPath c ["users"; "user@domain.com"]
    = "/api/session/data/postgresql/users/user@domain.com"
  ∧ dataPath c ["users"; ""] = "/api/session/data/postgresql/users"
  ∧ dataPath c ["users"; ".."] = "/api/session/data/postgresql".
Proof. by vm_compute. Qed.

(** TestAuthenticate_success, on the bytes of the response. *)
Example Authenticate_test :
  let c := fresh_client (respond 200 auth_text) in
  @Authenticate Reference.lib c "admin" "secret"
  = (with_session c "T" "postgresql", None)
  ∧ ReqBody (auth_request c "admin" "p w&d")
    = Some "password=p+w%26d&username=admin".
Proof. by vm_compute. Qed.

(** * Further properties of the package *)

(** ** The constructors *)

Lemma TrimRight_slashes (s : string) :
  ∃ n, s = strings_TrimRight s "/" +:+ slashes n.
Proof.
  induction s as [| c s [n IH]]; [by exists 0%nat |].
  simpl. destruct (strings_TrimRight s "/") as [| d rest] eqn:Htrim.
  - rewrite append_nil_l in IH.
    destruct (Ascii.eqb_spec c "/") as [-> | Hc]; simpl.
    + exists (S n). strings. by f_equal.
    + exists n. strings. by f_equal.
  - exists n. strings. by f_equal.
Qed.

Lemma TrimRight_no_slash (s : string) :
  ¬ ends_with_slash (strings_TrimRight s "/").
Proof.
  induction s as [| c s IH]; intros [t Ht].
  - by destruct t.
  - simpl in Ht. destruct (strings_TrimRight s "/") as [| d rest] eqn:Htrim.
    + destruct (Ascii.eqb_spec c "/") as [-> | Hc]; simpl in Ht.
      * by destruct t.
      * destruct t as [| x t]; rewrite ?append_cons, ?append_nil_l in Ht.
        -- by injection Ht as ->.
        -- injection Ht as -> Ht. by destruct t.
    + destruct t as [| x t]; rewrite ?append_cons, ?append_nil_l in Ht;
        [discriminate |].
      injection Ht as -> Ht. apply IH. by exists t.
Qed.

(** X1: both constructors cut the trailing slashes off the base URL, and
    nothing else: the stored base URL does not end with a slash and the
    argument is the stored base URL followed by slashes only.  The new
    client holds no token and no data source. *)
Theorem NewClient_trims_slashes (transport : Request → result Response)
    (url : string) :
  let c := NewClient transport url in
  (∃ n, url = baseURL c +:+ slashes n)
  ∧ ¬ ends_with_slash (baseURL c)
  ∧ authToken c = "" ∧ dataSource c = ""
  ∧ NewClientWithHTTPClient url transport = c
  ∧ NewClient transport (baseURL c) = c.
Proof.
  simpl. split; [apply TrimRight_slashes |].
  split; [apply TrimRight_no_slash |].
  repeat split. unfold NewClient. simpl. f_equal.
  generalize (TrimRight_no_slash url).
  generalize (strings_TrimRight url "/"). intros t Ht.
  induction t as [| c t IH]; [reflexivity |].
  simpl. rewrite IH.
  - destruct t as [| d t]; [| reflexivity].
    simpl. destruct (Ascii.eqb_spec c "/") as [-> | Hc]; [| reflexivity].
    exfalso. apply Ht. by exists "".
  - intros [u Hu]. apply Ht. exists (String c u). strings. by f_equal.
Qed.

(** ** The path builder: elements that vanish, and paths that collide *)

Lemma clean_step_empty (r : bool) (st : list string * nat) :
  path.clean_step r st "" = st.
Proof. by destruct st. Qed.

(** [path.Join] on elements that hold no slash. *)
Lemma Join_no_slash (parts : list string) :
  Forall (λ e, path.no_slash e = true) parts →
  path.Join parts
  = if forallb (λ e, str_eqb e "") parts then "" else cleaned parts.
Proof.
  induction parts as [| e rest IH]; intros Hns; [reflexivity |].
  inversion Hns as [| ? ? He Hrest]; subst.
  unfold path.Join. fold path.Join. simpl forallb.
  destruct (str_eqb e "") eqn:Hempty.
  - apply str_eqb_eq in Hempty as ->. rewrite IH by done. reflexivity.
  - apply str_eqb_neq in Hempty. rewrite andb_false_l. cbv iota.
    unfold path.Clean.
    destruct (Join_head e rest Hempty) as (c & tail & Hjoin & x' & ->).
    rewrite (proj2 (str_eqb_neq _ "")) by (rewrite Hjoin; done).
    assert (Hroot : path.rooted (strings_Join (String c x' :: rest) "/")
                    = false).
    { rewrite Hjoin. simpl. unfold path.no_slash in He. simpl in He.
      apply andb_true_iff in He as [Hc _]. by apply negb_true_iff in Hc. }
    rewrite Hroot, elements_join by done. reflexivity.
Qed.

Lemma PathEscape_all_no_slash (l : list string) :
  Forall (λ e, path.no_slash e = true) (map url.PathEscape l).
Proof. apply Forall_map, Forall_forall. intros s _. apply PathEscape_no_slash. Qed.

Lemma forallb_empty_insert (l1 l2 : list string) :
  forallb (λ e, str_eqb e "") (l1 ++ "" :: l2)
  = forallb (λ e, str_eqb e "") (l1 ++ l2).
Proof. by rewrite !forallb_app. Qed.

Lemma cleaned_empty_insert (l1 l2 : list string) :
  cleaned (l1 ++ "" :: l2) = cleaned (l1 ++ l2).
Proof.
  unfold cleaned. rewrite !fold_left_app. simpl.
  by rewrite clean_step_empty.
Qed.

(** X2: an empty element leaves no trace in the path: a segment that is
    the empty string is dropped, so the path of an empty identifier is the
    path of the collection, and the client that has not authenticated,
    whose data source is empty, builds paths without a data source
    segment. *)
Theorem dataPath_empty_element (c : Client) (segments1 segments2 : list string)
    (transport : Request → result Response) (url : string) :
  dataPath c (segments1 ++ "" :: segments2) = dataPath c (segments1 ++ segments2)
  ∧ dataPath (NewClient transport url) segments1
    = "/api/session/data/" +:+ path.Join (map url.PathEscape segments1).
Proof.
  split; [| by rewrite dataPath_parts].
  rewrite !dataPath_parts. f_equal.
  rewrite !Join_no_slash by apply PathEscape_all_no_slash.
  rewrite !map_cons, !map_app, !app_comm_cons. simpl map.
  change (url.PathEscape "") with "".
  by rewrite forallb_empty_insert, cleaned_empty_insert.
Qed.

Lemma clean_fold_dotdot_le (r : bool) (parts : list string)
    (st : list string * nat) :
  (st.2 ≤ length st.1)%nat →
  ((fold_left (path.clean_step r) parts st).2
   ≤ length (fold_left (path.clean_step r) parts st).1)%nat.
Proof.
  revert st. induction parts as [| e parts IH]; intros [out d] Hle; [done |].
  simpl in Hle. simpl fold_left. apply IH. unfold path.clean_step.
  repeat case_match; simpl; try lia.
  match goal with Hd : bool_decide _ = true |- _ =>
    apply bool_decide_eq_true in Hd end.
  destruct out; simpl in *; lia.
Qed.

Lemma cleaned_dotdot (l : list string) (e : string) :
  path.ordinary e = true → cleaned (l ++ [e; ".."]) = cleaned l.
Proof.
  intros He. unfold cleaned. rewrite fold_left_app.
  pose proof (clean_fold_dotdot_le false l ([], 0%nat)) as Hle.
  destruct (fold_left (path.clean_step false) l ([], 0%nat)) as [out d].
  simpl in Hle. specialize (Hle (Nat.le_0_l _)).
  unfold path.ordinary in He.
  apply andb_true_iff in He as [[H1 H2]%andb_true_iff H3].
  apply negb_true_iff in H1, H2, H3.
  change (fold_left (path.clean_step false) [e; ".."] (out, d))
    with (path.clean_step false (path.clean_step false (out, d) e) "..").
  assert (Hpush : path.clean_step false (out, d) e = (e :: out, d)).
  { unfold path.clean_step. by rewrite H1, H2, H3. }
  assert (Hpop : path.clean_step false (e :: out, d) ".." = (out, d)).
  { unfold path.clean_step. simpl.
    by rewrite bool_decide_eq_true_2 by lia. }
  by rewrite Hpush, Hpop.
Qed.

(** X3: a segment that is [..] undoes the segment before it: for a client
    that holds a data source, the path of an identifier [..] under a
    collection is the path without the collection. *)
Theorem dataPath_dotdot (c : Client) (segments : list string) (s : string) :
  dataSource c ≠ "" →
  path.ordinary s = true →
  dataPath c (segments ++ [s; ".."]) = dataPath c segments.
Proof.
  intros Hsource Hs. rewrite !dataPath_parts. f_equal.
  rewrite !Join_no_slash by apply PathEscape_all_no_slash.
  assert (Hne : str_eqb (url.PathEscape (dataSource c)) "" = false).
  { apply str_eqb_neq. by rewrite PathEscape_nil. }
  simpl forallb. rewrite Hne. simpl.
  rewrite map_app. simpl map. change (url.PathEscape "..") with "..".
  rewrite app_comm_cons. apply cleaned_dotdot.
  by rewrite PathEscape_ordinary.
Qed.

(** The two digits of an escape give the byte back. *)
Lemma unhex_upperhex (c : byte) :
  unhex (url.upperhex (N.shiftr (code c) 4)) (url.upperhex (N.land (code c) 15))
  = c.
Proof. destruct c as [[] [] [] [] [] [] [] []]; reflexivity. Qed.

Lemma escape_byte_escaped (c : byte) :
  url.shouldEscape c url.encodePathSegment = true →
  url.escape_byte c url.encodePathSegment
  = String "%" (String (url.upperhex (N.shiftr (code c) 4))
                  (String (url.upperhex (N.land (code c) 15)) "")).
Proof. unfold url.escape_byte. rewrite andb_false_r. by intros ->. Qed.

Lemma escape_byte_kept (c : byte) :
  url.shouldEscape c url.encodePathSegment = false →
  url.escape_byte c url.encodePathSegment = String c "".
Proof. unfold url.escape_byte. rewrite andb_false_r. by intros ->. Qed.

(** [url.PathEscape] is injective. *)
Lemma PathEscape_inj (s1 s2 : string) :
  url.PathEscape s1 = url.PathEscape s2 → s1 = s2.
Proof.
  unfold url.PathEscape. revert s2.
  induction s1 as [| c1 s1 IH]; intros [| c2 s2] Heq.
  - reflexivity.
  - symmetry in Heq. by apply (proj1 (PathEscape_nil _)) in Heq.
  - by apply (proj1 (PathEscape_nil _)) in Heq.
  - simpl in Heq.
    destruct (url.shouldEscape c1 url.encodePathSegment) eqn:H1,
             (url.shouldEscape c2 url.encodePathSegment) eqn:H2.
    + rewrite !escape_byte_escaped in Heq by done.
      rewrite !append_cons, !append_nil_l in Heq.
      injection Heq as Hx Hy Hrest.
      assert (c1 = c2) as ->.
      { rewrite <- (unhex_upperhex c1), <- (unhex_upperhex c2).
        by rewrite Hx, Hy. }
      f_equal. by apply IH.
    + rewrite escape_byte_escaped, escape_byte_kept in Heq by done.
      rewrite !append_cons, !append_nil_l in Heq.
      injection Heq as <- _. by vm_compute in H2.
    + rewrite escape_byte_kept, escape_byte_escaped in Heq by done.
      rewrite !append_cons, !append_nil_l in Heq.
      injection Heq as -> _. by vm_compute in H1.
    + rewrite !escape_byte_kept in Heq by done.
      rewrite !append_cons, !append_nil_l in Heq.
      injection Heq as -> Hrest. f_equal. by apply IH.
Qed.

(** X4: identifiers do not collide: for a data source and segments that
    are not empty and are not [.] or [..], two lists of segments with the
    same path are the same list. *)
Theorem dataPath_injective (c : Client) (segments1 segments2 : list string) :
  path.ordinary (dataSource c) = true →
  Forall (λ e, path.ordinary e = true) segments1 →
  Forall (λ e, path.ordinary e = true) segments2 →
  dataPath c segments1 = dataPath c segments2 →
  segments1 = segments2.
Proof.
  intros Hsource H1 H2 Heq.
  destruct (dataPath_ordinary c segments1) as [E1 N1]; [by constructor |].
  destruct (dataPath_ordinary c segments2) as [E2 N2]; [by constructor |].
  rewrite E1, E2 in Heq. apply (inj (String.app _)) in Heq.
  assert (Hparts : map url.PathEscape (dataSource c :: segments1)
                   = map url.PathEscape (dataSource c :: segments2)).
  { assert (Hne : ∀ l, map url.PathEscape (dataSource c :: l) ≠ [])
      by (intros l; simpl; discriminate).
    rewrite <- (elements_join _ (Hne segments1) N1).
    rewrite <- (elements_join _ (Hne segments2) N2).
    by rewrite Heq. }
  simpl in Hparts. injection Hparts as Hparts.
  revert Hparts. clear. revert segments2.
  induction segments1 as [| s segments1 IH]; intros [| t segments2] Hmap;
    simplify_eq/=; [reflexivity |].
  f_equal; [by apply PathEscape_inj | by apply IH].
Qed.

Lemma all_bytes_Join (p : byte → bool) (l : list string) (sep : string) :
  all_bytes p sep = true →
  Forall (λ e, all_bytes p e = true) l →
  all_bytes p (strings_Join l sep) = true.
Proof.
  intros Hsep. induction l as [| x [| y l] IH]; intros Hall; [done | |].
  - by inversion Hall.
  - inversion Hall as [| ? ? Hx Hrest]; subst.
    change (strings_Join (x :: y :: l) sep)
      with (x +:+ sep +:+ strings_Join (y :: l) sep).
    rewrite !all_bytes_app, Hx, Hsep. simpl. by apply IH.
Qed.

Lemma PathEscape_path_bytes (s : string) :
  all_bytes path_byte (url.PathEscape s) = true.
Proof.
  unfold url.PathEscape. induction s as [| c s IH]; [reflexivity |].
  simpl. rewrite all_bytes_app, IH, andb_true_r.
  unfold url.escape_byte. rewrite andb_false_r.
  destruct c as [[] [] [] [] [] [] [] []]; reflexivity.
Qed.

Lemma clean_fold_bytes (p : byte → bool) (r : bool) (parts : list string)
    (st : list string * nat) :
  all_bytes p ".." = true →
  Forall (λ e, all_bytes p e = true) parts →
  Forall (λ e, all_bytes p e = true) st.1 →
  Forall (λ e, all_bytes p e = true)
    (fold_left (path.clean_step r) parts st).1.
Proof.
  intros Hdots. revert st.
  induction parts as [| e parts IH]; intros [out d] Hparts Hout; [done |].
  inversion Hparts as [| ? ? He Hrest]; subst.
  simpl fold_left. apply IH; [done |]. unfold path.clean_step.
  repeat case_match; simpl in *; try done.
  - destruct out; [done | by inversion Hout].
  - by constructor.
  - by constructor.
Qed.

(** X5: every byte of a path that [dataPath] returns is a letter, a digit,
    one of [-_.~$&+:=@], the percent sign of an escape or a slash;
    whatever the data source and the segments hold, the path has no [?],
    no [#], no space and no byte outside ASCII. *)
Theorem dataPath_bytes (c : Client) (segments : list string) :
  all_bytes path_byte (dataPath c segments) = true.
Proof.
  rewrite dataPath_parts, all_bytes_app. apply andb_true_iff.
  split; [reflexivity |].
  rewrite Join_no_slash by apply PathEscape_all_no_slash.
  destruct (forallb _ _); [reflexivity |]. unfold cleaned.
  assert (Hparts : Forall (λ e, all_bytes path_byte e = true)
                     (map url.PathEscape (dataSource c :: segments))).
  { apply Forall_map, Forall_forall. intros s _.
    apply PathEscape_path_bytes. }
  pose proof (clean_fold_bytes path_byte false _ ([], 0%nat)
                eq_refl Hparts (Forall_nil_2 _)) as Hout.
  destruct (fold_left _ _ _) as [out d].
  destruct (str_eqb _ _); [reflexivity |].
  apply all_bytes_Join; [reflexivity |]. by apply Forall_rev.
Qed.

(** ** The token exchange *)

Lemma QueryEscape_query_bytes (s : string) :
  all_bytes query_byte (url.QueryEscape s) = true.
Proof.
  unfold url.QueryEscape. induction s as [| c s IH]; [reflexivity |].
  simpl. rewrite all_bytes_app, IH, andb_true_r.
  destruct c as [[] [] [] [] [] [] [] []]; reflexivity.
Qed.

(** X6: [Authenticate] hands the transport one request and its result is
    what the transport answers to it: a POST to [<base>/api/tokens] whose
    body is the form [password=P&username=U], where [P] and [U] are the
    query-escaped password and user name, which hold letters, digits and
    [-_.~%+] only, so that no credential can add a field to the form.  The
    request carries the form content type as its only header, and so
    never the token of the client.  An error of the transport comes back
    under the context [guacamole: auth request: ], a status other than
    200 as the error of the response, and status 200 as what the body
    decodes to. *)
Theorem auth_request_form `{GoLib} (c : Client) (username password : string) :
  request_ok "POST" (baseURL c +:+ "/api/tokens") = true →
  Authenticate c username password
  = match httpClient c
            {| Method := "POST"; URL := baseURL c +:+ "/api/tokens";
               Header := <["Content-Type" :=
                             ["application/x-www-form-urlencoded"]]> ∅;
               ReqBody := Some ("password=" +:+ url.QueryEscape password
                                +:+ "&username="
                                +:+ url.QueryEscape username) |} with
    | Err err => (c, Some (ErrWrap "guacamole: auth request: " err))
    | Ok resp =>
        if StatusCode resp =? 200 then
          let '(auth, bad) :=
            json_Decode_AuthResponse (RespBody resp)
              {| AuthToken := ""; Username := ""; DataSource := "";
                 AvailableDataSources := [] |} in
          if bad then
            (c, Some (ErrWrap "guacamole: decode auth response: "
                        (ErrOpaque "json: cannot decode")))
          else (with_session c (AuthToken auth) (DataSource auth), None)
        else (c, Some (parseError resp))
    end
  ∧ all_bytes query_byte (url.QueryEscape password) = true
  ∧ all_bytes query_byte (url.QueryEscape username) = true
  ∧ query_byte "&" = false ∧ query_byte "=" = false.
Proof.
  intros Hok. split; [| repeat split; apply QueryEscape_query_bytes].
  unfold Authenticate, http_NewRequest. rewrite Hok.
  unfold Header_Set. simpl.
  destruct (httpClient c _) as [resp | err]; [| reflexivity].
  by destruct (StatusCode resp =? 200).
Qed.

Section Session_theorems.
Context `{GoLib}.

(** X7: [Authenticate] changes the client only when it returns no error:
    whatever the transport answers, the base URL and the transport stay,
    and when an error is returned the token and the data source stay
    too. *)
Theorem Authenticate_error_keeps_session (c : Client)
    (username password : string) :
  baseURL (Authenticate c username password).1 = baseURL c
  ∧ httpClient (Authenticate c username password).1 = httpClient c
  ∧ ((Authenticate c username password).2 ≠ None →
     (Authenticate c username password).1 = c).
Proof.
  unfold Authenticate.
  destruct (http_NewRequest _ _ _) as [req | err]; [| done].
  destruct (httpClient c _) as [resp | err]; [| done].
  destruct (negb _); [done |].
  destruct (json_Decode_AuthResponse _ _) as [auth [|]]; done.
Qed.

(** Members that do not address a field leave it as it was. *)
Lemma decode_fold_untouched {S} (fields : list (field S)) (g : S → string)
    (name : string) (members : list (string * json)) (st : S * bool) :
  (∀ f v s, f ∈ fields → fname f ≠ name → g (fstore f v s) = g s) →
  mentions fields members name = false →
  g (fold_left (decode_member fields) members st).1 = g st.1.
Proof.
  intros Hkeep. revert st.
  induction members as [| kv members IH]; intros st Hno; [reflexivity |].
  simpl in Hno. apply orb_false_iff in Hno as [Hkv Hrest].
  simpl. rewrite IH by done. unfold decode_member.
  apply bool_decide_eq_false in Hkv. unfold addressed in Hkv.
  destruct (find_field fields kv.1) as [f |] eqn:Hfind; [| reflexivity].
  simpl. apply Hkeep; [by eapply find_field_elem |].
  intros Heq. apply Hkv. simpl. by rewrite Heq.
Qed.

(** The type error of a decoding is the misfit of a member. *)
Lemma decode_fold_bad {S} (fields : list (field S))
    (members : list (string * json)) (st : S * bool) :
  (fold_left (decode_member fields) members st).2
  = st.2 || negb (fits fields members).
Proof.
  revert st. induction members as [| kv members IH]; intros st.
  - simpl. by rewrite orb_false_r.
  - simpl. rewrite IH. unfold decode_member.
    destruct (find_field fields kv.1) as [f |]; simpl.
    + destruct st.2, (ffits f kv.2), (fits fields members); reflexivity.
    + reflexivity.
Qed.

(** X8: [Authenticate] does not check that the answer holds a token: on
    status 200 with a body that is [null], or an object that has no
    [authToken] and no [dataSource] member, it returns no error and the
    client is left with the empty token and the empty data source,
    whatever it held before. *)
Theorem Authenticate_without_token (c : Client) (username password : string)
    (resp : Response) (v : json) :
  request_ok "POST" (baseURL c +:+ "/api/tokens") = true →
  httpClient c (auth_request c username password) = Ok resp →
  StatusCode resp = 200 →
  json_stream_value (RespBody resp) = Some v →
  lacks_session v = true →
  Authenticate c username password = (with_session c "" "", None).
Proof.
  intros Hok Hdo Hstatus Hvalue Hlacks.
  rewrite (Authenticate_200 c username password resp) by done.
  unfold json_Decode_AuthResponse. rewrite Hvalue.
  destruct v as [| | | | | members]; try discriminate; [reflexivity |].
  simpl in Hlacks.
  apply andb_true_iff in Hlacks as [[Hfits Ht]%andb_true_iff Hs].
  apply negb_true_iff in Ht, Hs. simpl.
  set (st := ({| AuthToken := ""; Username := ""; DataSource := "";
                 AvailableDataSources := [] |}, false)).
  pose proof (decode_fold_bad AuthResponse_fields members st) as Hbad.
  rewrite Hfits in Hbad.
  pose proof (decode_fold_untouched AuthResponse_fields AuthToken "authToken"
                members st) as Htoken.
  pose proof (decode_fold_untouched AuthResponse_fields DataSource
                "dataSource" members st) as Hsource.
  destruct (fold_left _ members st) as [auth bad]. simpl in *. subst bad.
  rewrite Htoken, Hsource; try done.
  - intros f v s Hin Hne. revert Hne.
    repeat (apply elem_of_cons in Hin as [-> | Hin]; [done |]).
    by apply elem_of_nil in Hin.
  - intros f v s Hin Hne. revert Hne.
    repeat (apply elem_of_cons in Hin as [-> | Hin]; [done |]).
    by apply elem_of_nil in Hin.
Qed.

(** X9: on status 200 with a body that does not decode (no JSON value, a
    value that is neither an object nor [null], or an object with a
    member of the wrong type), [Authenticate] returns an error that holds
    no [*APIError], so neither predicate recognises it, and keeps the
    client as it was. *)
Theorem Authenticate_undecodable (c : Client) (username password : string)
    (resp : Response) :
  request_ok "POST" (baseURL c +:+ "/api/tokens") = true →
  httpClient c (auth_request c username password) = Ok resp →
  StatusCode resp = 200 →
  undecodable (json_stream_value (RespBody resp)) = true →
  (Authenticate c username password).1 = c
  ∧ (Authenticate c username password).2 ≠ None
  ∧ errors_As (Authenticate c username password).2 = None
  ∧ IsNotFound (Authenticate c username password).2 = Returns false
  ∧ IsPermissionDenied (Authenticate c username password).2 = Returns false.
Proof.
  intros Hok Hdo Hstatus Hun.
  rewrite (Authenticate_200 c username password resp) by done.
  unfold json_Decode_AuthResponse.
  destruct (json_stream_value (RespBody resp)) as [v |]; [| done].
  destruct v as [| | | | | members]; try discriminate; try done.
  simpl in Hun. apply negb_true_iff in Hun. simpl.
  pose proof (decode_fold_bad AuthResponse_fields members
                ({| AuthToken := ""; Username := ""; DataSource := "";
                    AvailableDataSources := [] |}, false)) as Hbad.
  rewrite Hun in Hbad.
  destruct (fold_left _ members _) as [auth bad]. simpl in Hbad.
  by subst bad.
Qed.

(** ** Error responses *)

(** X10: for a response whose body is empty or cannot be read,
    [parseError] takes the message from the status code
    ([http.StatusText]) and leaves the type empty. *)
Theorem parseError_empty_body (resp : Response) :
  readErr (RespBody resp) = true ∨ data (RespBody resp) = "" →
  parseError resp
  = ErrAPIError {| Message := StatusText (StatusCode resp); Type_ := "";
                   HTTPStatus := StatusCode resp |}.
Proof.
  intros Hbody. unfold parseError, io_ReadAll.
  destruct Hbody as [-> | ->]; [reflexivity |].
  by rewrite orb_true_r.
Qed.

(** X11: a body that is JSON but no object: for [null] the error has the
    empty message, not the status text and not the body; for a string, a
    number, a boolean or an array the message is the body as it is.  The
    type is empty in both cases. *)
Theorem parseError_json_not_object (resp : Response) (v : json) :
  readErr (RespBody resp) = false →
  data (RespBody resp) ≠ "" →
  json_value (data (RespBody resp)) = Some v →
  (∀ members, v ≠ JObject members) →
  parseError resp
  = ErrAPIError {| Message := (if v is JNull then ""
                               else data (RespBody resp));
                   Type_ := ""; HTTPStatus := StatusCode resp |}.
Proof.
  intros Hread Hdata Hvalue Hshape.
  unfold parseError, io_ReadAll, json_Unmarshal_APIError.
  rewrite Hread, Hvalue. simpl.
  destruct (data (RespBody resp)) as [| ch body] eqn:Hbody; [done |]. simpl.
  destruct v; try reflexivity. by destruct (Hshape members).
Qed.

(** X12: the predicates read the type of the body and never the status
    code.  A response whose body is empty, unreadable or no JSON is
    neither not-found nor permission-denied, even with status 404 or 403;
    a response whose body carries a message and the type [t] is
    not-found exactly when [t] is ["NOT_FOUND"] and permission-denied
    exactly when [t] is ["PERMISSION_DENIED"], whatever the status. *)
Theorem predicates_read_body_type (resp : Response) :
  (readErr (RespBody resp) = true ∨ data (RespBody resp) = ""
   ∨ json_value (data (RespBody resp)) = None →
   IsNotFound (Some (parseError resp)) = Returns false
   ∧ IsPermissionDenied (Some (parseError resp)) = Returns false)
  ∧ (∀ members message t,
       readErr (RespBody resp) = false →
       data (RespBody resp) ≠ "" →
       json_value (data (RespBody resp)) = Some (JObject members) →
       carries APIError_fields members "message" message = true →
       carries APIError_fields members "type" t = true →
       IsNotFound (Some (parseError resp)) = Returns (str_eqb t "NOT_FOUND")
       ∧ IsPermissionDenied (Some (parseError resp))
         = Returns (str_eqb t "PERMISSION_DENIED")).
Proof.
  split.
  - intros Hbody.
    destruct (decide (readErr (RespBody resp) = true
                      ∨ data (RespBody resp) = "")) as [Hempty | Hfull].
    + unfold parseError, io_ReadAll.
      destruct Hempty as [-> | ->]; [done |]. by rewrite orb_true_r.
    + destruct Hbody as [Hr | [Hd | Hvalue]]; [tauto | tauto |].
      rewrite parseError_raw; [done | | | done].
      * destruct (readErr (RespBody resp)); [tauto | done].
      * tauto.
  - intros members message t Hread Hdata Hvalue Hm Ht.
    by rewrite (parseError_object resp members message t).
Qed.

End Session_theorems.

(** X13: no error is both not-found and permission-denied. *)
Theorem predicates_exclusive (err : option error) :
  ¬ (IsNotFound err = Returns true ∧ IsPermissionDenied err = Returns true).
Proof.
  unfold IsNotFound, IsPermissionDenied.
  destruct (errors_As err) as [[apiErr |] |]; [| by intros [? ?] ..].
  unfold APIError_IsNotFound, APIError_IsPermissionDenied.
  intros [[= Hn%str_eqb_eq] [= Hp%str_eqb_eq]]. rewrite Hn in Hp.
  discriminate.
Qed.

(** ** The HTTP helpers *)

Section Helper_theorems.
Context `{GoLib}.

Lemma out_of_range (status : Z) :
  (status <? 200) || (status >=? 300) = negb (is_2xx status).
Proof.
  unfold is_2xx.
  destruct (status <? 200) eqn:H1, (status >=? 300) eqn:H2,
           (200 <=? status) eqn:H3, (status <? 300) eqn:H4;
    try reflexivity; lia.
Qed.

(** What [do] does with a request it could build, in terms of the
    transport. *)
Lemma do_nil_sends (c : Client) (method path : string) :
  request_ok method (baseURL c +:+ path) = true →
  client.do_nil c method path
  = match httpClient c (nil_request c method path) with
    | Err err =>
        Err (ErrWrap ("guacamole: " +:+ method +:+ " " +:+ path +:+ ": ") err)
    | Ok resp =>
        if is_2xx (StatusCode resp) then Ok resp else Err (parseError resp)
    end.
Proof.
  intros Hok. unfold client.do_nil, do, do_request, http_NewRequest.
  rewrite Hok. unfold nil_request, Header_Set. simpl.
  destruct (str_eqb (authToken c) ""); simpl;
    destruct (httpClient c _) as [resp | err]; try reflexivity;
    rewrite out_of_range; by destruct (is_2xx _).
Qed.

Lemma do_body_sends {B} (json_Marshal : B → result string) (c : Client)
    (method path : string) (b : B) (text : string) :
  json_Marshal b = Ok text →
  request_ok method (baseURL c +:+ path) = true →
  do json_Marshal c method path (Some b)
  = match httpClient c (body_request c method path text) with
    | Err err =>
        Err (ErrWrap ("guacamole: " +:+ method +:+ " " +:+ path +:+ ": ") err)
    | Ok resp =>
        if is_2xx (StatusCode resp) then Ok resp else Err (parseError resp)
    end.
Proof.
  intros Htext Hok. unfold do, do_request, http_NewRequest.
  rewrite Htext, Hok. unfold body_request, Header_Set. simpl.
  destruct (str_eqb (authToken c) ""); simpl;
    destruct (httpClient c _) as [resp | err]; try reflexivity;
    rewrite out_of_range; by destruct (is_2xx _).
Qed.

(** X14: [get] writes to [out] only when the answer has a 2xx status and
    holds a JSON value.  On any other status it returns the [*APIError] of
    the response; on a 2xx answer without a JSON value, such as an empty
    204, it returns an error that holds no [*APIError]; in both cases
    [out] is as it was.  On a 2xx answer with a value it stores what the
    value decodes to and reports an error exactly for a value that does
    not fit. *)
Theorem get_outcomes {T} (decode : json → T → T * bool) (c : Client)
    (path : string) (out : T) (resp : Response) :
  request_ok "GET" (baseURL c +:+ path) = true →
  httpClient c (nil_request c "GET" path) = Ok resp →
  (is_2xx (StatusCode resp) = false →
   client.get decode c path out = (out, Some (parseError resp)))
  ∧ (is_2xx (StatusCode resp) = true →
     json_stream_value (RespBody resp) = None →
     (client.get decode c path out).1 = out
     ∧ (client.get decode c path out).2 ≠ None
     ∧ errors_As (client.get decode c path out).2 = None)
  ∧ (∀ v, is_2xx (StatusCode resp) = true →
          json_stream_value (RespBody resp) = Some v →
          (client.get decode c path out).1 = (decode v out).1
          ∧ ((client.get decode c path out).2 = None
             ↔ (decode v out).2 = false)).
Proof.
  intros Hok Hdo. unfold client.get. rewrite do_nil_sends, Hdo by done.
  split; [by intros -> |]. split.
  - intros -> Hvalue. unfold client.json_Decode. by rewrite Hvalue.
  - intros v -> Hvalue. unfold client.json_Decode. rewrite Hvalue.
    destruct (decode v out) as [out' [|]]; simpl; split; done.
Qed.

(** X15: [put], [delete], [patch] and [post] with a nil [out] never read
    the body of the answer: on every 2xx status they return no error,
    whatever the body holds, and on every other status the [*APIError] of
    the response. *)
Theorem writes_ignore_body (c : Client) (path : string) (resp : Response) :
  (∀ B (json_Marshal : B → result string) (b : B) (text : string),
     json_Marshal b = Ok text →
     request_ok "PUT" (baseURL c +:+ path) = true →
     httpClient c (body_request c "PUT" path text) = Ok resp →
     client.put json_Marshal c path (Some b)
     = if is_2xx (StatusCode resp) then None else Some (parseError resp))
  ∧ (request_ok "DELETE" (baseURL c +:+ path) = true →
     httpClient c (nil_request c "DELETE" path) = Ok resp →
     client.delete c path
     = if is_2xx (StatusCode resp) then None else Some (parseError resp))
  ∧ (∀ ops text,
       json_Marshal_ops ops = Ok text →
       request_ok "PATCH" (baseURL c +:+ path) = true →
       httpClient c (body_request c "PATCH" path text) = Ok resp →
       client.patch c path ops
       = if is_2xx (StatusCode resp) then None else Some (parseError resp))
  ∧ (∀ B T (json_Marshal : B → result string)
       (decode : json → T → T * bool) (b : B) (text : string),
       json_Marshal b = Ok text →
       request_ok "POST" (baseURL c +:+ path) = true →
       httpClient c (body_request c "POST" path text) = Ok resp →
       client.post decode json_Marshal c path (Some b) None
       = (None, if is_2xx (StatusCode resp) then None
                else Some (parseError resp))).
Proof.
  repeat split.
  - intros B json_Marshal b text Htext Hok Hdo. unfold client.put.
    rewrite (do_body_sends _ _ _ _ _ text), Hdo by done.
    by destruct (is_2xx _).
  - intros Hok Hdo. unfold client.delete. rewrite do_nil_sends, Hdo by done.
    by destruct (is_2xx _).
  - intros ops text Htext Hok Hdo. unfold client.patch.
    rewrite (do_body_sends _ _ _ _ _ text), Hdo by done.
    by destruct (is_2xx _).
  - intros B T json_Marshal decode b text Htext Hok Hdo. unfold client.post.
    rewrite (do_body_sends _ _ _ _ _ text), Hdo by done.
    by destruct (is_2xx _).
Qed.

Lemma json_Marshal_PatchOperation_text (op : PatchOperation) :
  json_Marshal_PatchOperation op = Ok (operation_text op).
Proof. reflexivity. Qed.

Lemma results_map_Ok {A} (f : A → string) (l : list A) :
  results (map (λ a, Ok (f a)) l) = Ok (map f l).
Proof. induction l as [| a l IH]; simpl; [done | by rewrite IH]. Qed.

(** X16: the body of a patch is never left out.  The nil slice of
    operations is sent as [null] and the empty slice as [[]]; every
    operation is written with its three members [op], [path] and [value],
    empty strings included; encoding never fails, and the request
    carries the JSON content type in every case. *)
Theorem patch_body (ops : option (list PatchOperation)) :
  json_Marshal_ops ops
  = Ok (match ops with
        | None => "null"
        | Some l => "[" +:+ strings_Join (map operation_text l) "," +:+ "]"
        end)
  ∧ json_Marshal_ops (Some []) = Ok "[]"
  ∧ ∀ c path req,
      do_request json_Marshal_ops c "PATCH" path (Some ops) = Ok req →
      Header req !! "Content-Type" = Some ["application/json"]
      ∧ ReqBody req
        = Some (match ops with
                | None => "null"
                | Some l =>
                    "[" +:+ strings_Join (map operation_text l) "," +:+ "]"
                end).
Proof.
  assert (Htext : json_Marshal_ops ops
                  = Ok (match ops with
                        | None => "null"
                        | Some l =>
                            "[" +:+ strings_Join (map operation_text l) ","
                                +:+ "]"
                        end)).
  { destruct ops as [l |]; [| reflexivity].
    unfold json_Marshal_ops, encode_array.
    replace (map json_Marshal_PatchOperation l)
      with (map (λ op, Ok (operation_text op)) l) by reflexivity.
    by rewrite results_map_Ok. }
  split; [exact Htext |]. split; [reflexivity |].
  intros c path req Hreq.
  unfold do_request, http_NewRequest in Hreq. rewrite Htext in Hreq.
  destruct (request_ok _ _); [| discriminate].
  destruct (negb _); simpl in Hreq; injection Hreq as <-; simpl;
    (split; [| reflexivity]).
  - by rewrite lookup_insert_ne, lookup_insert_eq.
  - by rewrite lookup_insert_eq.
Qed.

End Helper_theorems.

(** ** The resource methods *)

Section Resource_theorems.
Context `{GoLib}.

Lemma json_Marshal_User_text (u : User.t) :
  ∃ text, json_Marshal_User u = Ok text.
Proof.
  apply encode_struct_ok.
  repeat (apply Forall_cons; split;
          [solve [eexists; reflexivity | apply field_attributes_ok] |]).
  apply Forall_nil_2.
Qed.

(** X17: the methods of users.go hand the error of the server on, wrapped
    with their context: when the answer has a status outside [200,300),
    [GetUser], [DeleteUser], [UpdateUser] and [UpdateUserPermissions]
    return the [*APIError] of the response under one layer of context and
    no result, so that [IsNotFound] and [IsPermissionDenied] answer for
    the returned error what they answer for the [*APIError]. *)
Theorem users_errors_wrapped (c : Client) (username : string) (user : User.t)
    (ops : option (list PatchOperation)) (resp : Response) :
  is_2xx (StatusCode resp) = false →
  (request_ok "GET" (baseURL c +:+ dataPath c ["users"; username]) = true →
   httpClient c (nil_request c "GET" (dataPath c ["users"; username]))
   = Ok resp →
   GetUser c username
   = Err (ErrWrap ("guacamole: get user " +:+ username +:+ ": ")
            (parseError resp)))
  ∧ (request_ok "DELETE" (baseURL c +:+ dataPath c ["users"; username]) = true →
     httpClient c (nil_request c "DELETE" (dataPath c ["users"; username]))
     = Ok resp →
     DeleteUser c username
     = Some (ErrWrap ("guacamole: delete user " +:+ username +:+ ": ")
               (parseError resp)))
  ∧ (∀ text,
       json_Marshal_User user = Ok text →
       request_ok "PUT" (baseURL c +:+ dataPath c ["users"; username]) = true →
       httpClient c (body_request c "PUT" (dataPath c ["users"; username]) text)
       = Ok resp →
       UpdateUser c username user
       = Some (ErrWrap ("guacamole: update user " +:+ username +:+ ": ")
                 (parseError resp)))
  ∧ (∀ text,
       json_Marshal_ops ops = Ok text →
       request_ok "PATCH"
         (baseURL c +:+ dataPath c ["users"; username; "permissions"]) = true →
       httpClient c
         (body_request c "PATCH"
            (dataPath c ["users"; username; "permissions"]) text) = Ok resp →
       UpdateUserPermissions c username ops
       = Some (ErrWrap ("guacamole: update user permissions " +:+ username
                        +:+ ": ") (parseError resp)))
  ∧ (∀ context,
       errors_As (Some (ErrWrap context (parseError resp)))
       = errors_As (Some (parseError resp))
       ∧ is_Some (errors_As (Some (ErrWrap context (parseError resp))))
       ∧ IsNotFound (Some (ErrWrap context (parseError resp)))
         = IsNotFound (Some (parseError resp))
       ∧ IsPermissionDenied (Some (ErrWrap context (parseError resp)))
         = IsPermissionDenied (Some (parseError resp)))
  ∧ (∀ context members message t,
       readErr (RespBody resp) = false →
       data (RespBody resp) ≠ "" →
       json_value (data (RespBody resp)) = Some (JObject members) →
       carries APIError_fields members "message" message = true →
       carries APIError_fields members "type" t = true →
       errors_As (Some (ErrWrap context (parseError resp)))
       = Some (Some {| Message := message; Type_ := t;
                       HTTPStatus := StatusCode resp |})
       ∧ IsNotFound (Some (ErrWrap context (parseError resp)))
         = Returns (str_eqb t "NOT_FOUND")
       ∧ IsPermissionDenied (Some (ErrWrap context (parseError resp)))
         = Returns (str_eqb t "PERMISSION_DENIED")).
Proof.
  intros Hstatus.
  assert (Hbody : ∀ context members message t,
            readErr (RespBody resp) = false →
            data (RespBody resp) ≠ "" →
            json_value (data (RespBody resp)) = Some (JObject members) →
            carries APIError_fields members "message" message = true →
            carries APIError_fields members "type" t = true →
            errors_As (Some (ErrWrap context (parseError resp)))
            = Some (Some {| Message := message; Type_ := t;
                            HTTPStatus := StatusCode resp |})
            ∧ IsNotFound (Some (ErrWrap context (parseError resp)))
              = Returns (str_eqb t "NOT_FOUND")
            ∧ IsPermissionDenied (Some (ErrWrap context (parseError resp)))
              = Returns (str_eqb t "PERMISSION_DENIED")).
  { intros context members message t Hread Hdata Hvalue Hm Ht.
    by rewrite (parseError_object resp members message t). }
  split; [| split; [| split; [| split; [| split; [| exact Hbody]]]]].
  - intros Hok Hdo. unfold GetUser, client.get.
    by rewrite do_nil_sends, Hdo, Hstatus.
  - intros Hok Hdo. unfold DeleteUser, client.delete.
    by rewrite do_nil_sends, Hdo, Hstatus.
  - intros text Htext Hok Hdo. unfold UpdateUser, client.put.
    by rewrite (do_body_sends _ _ _ _ _ text), Hdo, Hstatus.
  - intros text Htext Hok Hdo. unfold UpdateUserPermissions, client.patch.
    by rewrite (do_body_sends _ _ _ _ _ text), Hdo, Hstatus.
  - intros context. simpl.
    destruct (parseError_APIError resp) as (apiErr & -> & _).
    repeat split; eauto.
Qed.

(** X18: [ListConnectionHistory] asks for the history path as it is when
    [order] is empty, and otherwise for the path followed by [?order=]
    and [order] as it is, unescaped.  On a 2xx answer that holds an array
    whose elements fit, it returns one entry for each element, in the
    order of the array. *)
Theorem ListConnectionHistory_entries (c : Client) (order : string)
    (resp : Response) (elems : list json) :
  request_ok "GET" (baseURL c +:+ history_path c order) = true →
  httpClient c (nil_request c "GET" (history_path c order)) = Ok resp →
  is_2xx (StatusCode resp) = true →
  json_stream_value (RespBody resp) = Some (JArray elems) →
  history_elements_fit elems = true →
  ListConnectionHistory c order = Ok (map history_entry elems)
  ∧ URL (nil_request c "GET" (history_path c order))
    = baseURL c +:+ dataPath c ["history"; "connections"]
      +:+ (if str_eqb order "" then "" else "?order=" +:+ order).
Proof.
  intros Hok Hdo Hstatus Hvalue Hfit. split.
  - unfold ListConnectionHistory, client.get.
    rewrite do_nil_sends, Hdo, Hstatus by done.
    unfold client.json_Decode. rewrite Hvalue. simpl.
    replace (existsb _ elems) with false; [reflexivity |].
    symmetry. apply not_true_iff_false. intros Hex.
    apply existsb_exists in Hex as (e & Hin & Hbad).
    unfold history_elements_fit in Hfit. rewrite forallb_forall in Hfit.
    specialize (Hfit e Hin). by rewrite Hbad in Hfit.
  - unfold history_path. simpl.
    destruct (str_eqb order ""); simpl; [by rewrite append_nil_r | done].
Qed.

End Resource_theorems.

(** ** The attribute map codec: failures and round trips *)

Section Codec_outcomes.
Context `{GoLib}.

Lemma decode_raw_fold_bad (members : list (string * json))
    (st : gmap string (option string) * bool) :
  (fold_left decode_raw_member members st).2
  = st.2 || negb (strings_and_nulls members).
Proof.
  unfold strings_and_nulls. revert st.
  induction members as [| kv members IH]; intros st.
  - simpl. by rewrite orb_false_r.
  - simpl. rewrite IH. simpl.
    destruct st.2, (fits_string kv.2), (forallb _ members); reflexivity.
Qed.

(** X19: [UnmarshalJSON] either fails and leaves the map it was called on
    as it was, or succeeds and leaves a map that is not nil.  It fails
    exactly for bytes that are no JSON text, for a value that is neither
    an object nor [null], and for an object with a value that is neither
    a string nor [null]; the JSON [null] gives the empty map. *)
Theorem UnmarshalJSON_outcomes (m : NullableStringMap) (data : string) :
  if not_attributes (json_value data)
  then (UnmarshalJSON m data).1 = m ∧ (UnmarshalJSON m data).2 ≠ None
  else ∃ entries,
         UnmarshalJSON m data = (Some entries, None)
         ∧ (json_value data = Some JNull → entries = ∅).
Proof.
  unfold UnmarshalJSON, json_Unmarshal_raw.
  destruct (json_value data) as [v |]; [| done].
  destruct v as [| | | | | members]; simpl; try done.
  - eexists. split; [reflexivity |]. intros _. apply map_fold_empty.
  - pose proof (decode_raw_fold_bad members (∅, false)) as Hbad.
    destruct (fold_left decode_raw_member members (∅, false)) as [raw bad].
    simpl in Hbad. subst bad.
    destruct (strings_and_nulls members); simpl; [| done].
    eexists. split; [reflexivity | discriminate].
Qed.

Lemma last_value_strings (l : list (string * string)) (k : string) :
  NoDup l.*1 →
  (∀ v, (k, v) ∈ l →
        last_value k (map (λ kv, (kv.1, JString kv.2)) l) = Some (JString v))
  ∧ (k ∉ l.*1 → last_value k (map (λ kv, (kv.1, JString kv.2)) l) = None).
Proof.
  induction l as [| [k' v'] l IH]; intros Hnd.
  - split; [intros v Hin; by apply elem_of_nil in Hin | done].
  - apply NoDup_cons in Hnd as [Hk' Hnd]. destruct (IH Hnd) as [IHin IHout].
    simpl. split.
    + intros v [Heq | Hin]%elem_of_cons.
      * injection Heq as -> ->. rewrite IHout by done.
        unfold str_eqb. by rewrite bool_decide_eq_true_2.
      * by rewrite (IHin v Hin).
    + intros Hout. apply not_elem_of_cons in Hout as [Hne Hout].
      rewrite IHout by done. unfold str_eqb.
      by rewrite bool_decide_eq_false_2.
Qed.

Lemma last_value_members_of (entries : gmap string string) (k : string) :
  last_value k (members_of entries) = JString <$> entries !! k.
Proof.
  unfold members_of.
  pose proof (merge_sort_Permutation by_key_le (map_to_list entries)) as Hperm.
  assert (Hnd : NoDup (merge_sort by_key_le (map_to_list entries)).*1).
  { rewrite Hperm. apply NoDup_fst_map_to_list. }
  destruct (last_value_strings _ k Hnd) as [Hin Hout].
  destruct (entries !! k) as [v |] eqn:Hk; simpl.
  - apply Hin. rewrite Hperm. by apply elem_of_map_to_list.
  - apply Hout. rewrite Hperm. intros [[k' v] [-> Hkv]]%list_elem_of_fmap.
    apply elem_of_map_to_list in Hkv. simpl in Hk. congruence.
Qed.

(** X20: decoding gives back what was encoded, with one exception.  For a
    map that is not nil, if the library reads the text of [MarshalJSON]
    as the object of the entries that were written, [UnmarshalJSON]
    returns that map, whatever map it is called on; the nil map is
    encoded as [{}] and comes back as the empty map, not as nil. *)
Theorem MarshalJSON_UnmarshalJSON (m : NullableStringMap)
    (entries : gmap string string) (text : string) :
  MarshalJSON (Some entries) = Ok text →
  json_value text = Some (JObject (members_of entries)) →
  UnmarshalJSON m text = (Some entries, None)
  ∧ MarshalJSON None = Ok "{}"
  ∧ (json_value "{}" = Some (JObject []) →
     UnmarshalJSON m "{}" = (Some ∅, None)).
Proof.
  intros Htext Hvalue. split; [| split; [reflexivity |]].
  - assert (Hall : strings_and_nulls (members_of entries) = true).
    { unfold strings_and_nulls, members_of. apply forallb_forall.
      intros kv [x [<- _]]%in_map_iff. reflexivity. }
    destruct (UnmarshalJSON_object m text _ Hvalue Hall)
      as (entries' & -> & Hlookup).
    do 2 f_equal. apply map_eq. intros k.
    rewrite Hlookup, last_value_members_of. by destruct (entries !! k).
  - intros Hempty.
    destruct (UnmarshalJSON_object m "{}" [] Hempty eq_refl)
      as (entries' & -> & Hlookup).
    do 2 f_equal. apply map_eq. intros k. by rewrite Hlookup, lookup_empty.
Qed.

(** ** What is written for a user and for the current user *)

(** X21: the body [CreateUser] and [UpdateUser] send for a user: the
    user name and the attributes are always written; the password is
    written exactly when it is not empty, [disabled] exactly when it is
    true and [lastActive] exactly when it is not zero. *)
Theorem json_Marshal_User_members (u : User.t) :
  ∃ a,
    MarshalJSON (User.Attributes u) = Ok a
    ∧ json_Marshal_User u
      = Ok ("{" +:+ strings_Join
              ([member_text "username" (json_string (User.Username u))]
               ++ (if str_eqb (User.Password u) "" then []
                   else [member_text "password"
                           (json_string (User.Password u))])
               ++ (if User.Disabled u then [member_text "disabled" "true"]
                   else [])
               ++ [member_text "attributes" a]
               ++ (if User.LastActive u =? 0 then []
                   else [member_text "lastActive"
                           (json_int (User.LastActive u))])) ","
            +:+ "}").
Proof.
  destruct (MarshalJSON_ok (User.Attributes u)) as (members & Hm & _).
  eexists. split; [exact Hm |].
  unfold json_Marshal_User, encode_struct, User_fields, written,
    field_string, field_bool, field_int, field_attributes.
  rewrite Hm.
  destruct (str_eqb (User.Password u) ""), (User.Disabled u),
           (User.LastActive u =? 0); reflexivity.
Qed.

(** X22: the struct of the current user is the one struct whose
    attributes carry [omitempty]: [json.Marshal] writes the member
    [attributes] exactly when the map holds an entry, and leaves it out
    for the nil and for the empty map. *)
Theorem json_Marshal_Self_members (s : Self.t) :
  ∃ a,
    MarshalJSON (Self.Attributes s) = Ok a
    ∧ json_Marshal_Self s
      = Ok ("{" +:+ strings_Join
              ([member_text "username" (json_string (Self.Username s));
                member_text "disabled" (json_bool (Self.Disabled s));
                member_text "lastActive" (json_int (Self.LastActive s))]
               ++ (if (len (Self.Attributes s) =? 0)%nat then []
                   else [member_text "attributes" a])) ","
            +:+ "}").
Proof.
  destruct (MarshalJSON_ok (Self.Attributes s)) as (members & Hm & _).
  eexists. split; [exact Hm |].
  unfold json_Marshal_Self, encode_struct, Self_fields, written,
    field_string, field_bool, field_int, field_attributes.
  rewrite Hm.
  destruct (len (Self.Attributes s) =? 0)%nat; reflexivity.
Qed.

End Codec_outcomes.

(** ** The attributes of a user that is read *)

Section User_attributes.
Context `{GoLib}.

(** A successful [UnmarshalJSON] does not depend on the map it is called
    on. *)
Lemma UnmarshalJSON_member_fresh (m m0 : NullableStringMap) (v : json) :
  UnmarshalJSON_member None v = (m0, None) →
  UnmarshalJSON_member m v = (m0, None).
Proof.
  unfold UnmarshalJSON_member. destruct (decode_raw v) as [raw [|]]; done.
Qed.

Lemma UnmarshalJSON_member_value (m0 : NullableStringMap) (v : json) :
  UnmarshalJSON_member None v = (m0, None) →
  ∃ entries,
    m0 = Some entries
    ∧ (v = JNull → entries = ∅)
    ∧ (∀ ams, v = JObject ams → ∀ k, entries !! k = last_value k ams ≫= pointer).
Proof.
  unfold UnmarshalJSON_member.
  destruct v as [| | | | | ams]; simpl; try discriminate.
  - intros [= <-]. eexists. split; [reflexivity |].
    split; [intros _; apply map_fold_empty | discriminate].
  - pose proof (decode_raw_fold ams (∅, false)) as Hraw.
    destruct (fold_left decode_raw_member ams (∅, false)) as [raw bad].
    destruct bad; [discriminate |]. intros [= <-].
    eexists. split; [reflexivity |]. split; [discriminate |].
    intros ? [= <-] k. simpl in *.
    rewrite range_raw, lookup_omap, Hraw, lookup_empty.
    by destruct (last_value k ams).
Qed.

Lemma find_ufield_elem {S} (fields : list (ufield S)) (key : string)
    (f : ufield S) :
  find_ufield fields key = Some f → In f fields.
Proof.
  unfold find_ufield. destruct (find _ fields) as [g |] eqn:Hexact.
  - intros [= <-]. by apply find_some in Hexact as [? _].
  - intros Hfold. by apply find_some in Hfold as [? _].
Qed.

(** A field of a user that stores a value without error does so whatever
    the user holds; only the field [attributes] touches the attributes,
    and it replaces them. *)
Lemma User_ufields_stored (f : ufield User.t) (v : json) :
  In f User_ufields →
  is_stored (ustore f v User_zero) = true →
  (uname f ≠ "attributes"
   ∧ ∀ u, ∃ u', ustore f v u = Stored u'
                ∧ User.Attributes u' = User.Attributes u)
  ∨ (uname f = "attributes"
     ∧ ∃ m0, UnmarshalJSON_member None v = (m0, None)
             ∧ ∀ u, ∃ u', ustore f v u = Stored u'
                          ∧ User.Attributes u' = m0).
Proof.
  intros Hin Hstored. simpl in Hin.
  destruct Hin as [<- | [<- | [<- | [<- | [<- | []]]]]]; simpl in *;
    try (left; split; [discriminate |]; intros u;
         match goal with
         | Hs : is_stored (if ?b then _ else _) = true |- _ =>
             destruct b; [| discriminate]
         end; eexists; split; reflexivity).
  right. split; [reflexivity |].
  destruct (UnmarshalJSON_member None v) as [m0 [err |]] eqn:Hcall;
    [discriminate |].
  exists m0. split; [reflexivity |]. intros u.
  rewrite (UnmarshalJSON_member_fresh (User.Attributes u) m0 v Hcall).
  eexists. split; reflexivity.
Qed.

Lemma decode_ufields_attributes (members : list (string * json)) (u : User.t) :
  user_members_fit members = true →
  ∃ u',
    decode_ufields User_ufields members u false = (u', None)
    ∧ (umentions User_ufields members "attributes" = false →
       User.Attributes u' = User.Attributes u)
    ∧ (∀ pre k v post,
         members = pre ++ (k, v) :: post →
         uaddressed User_ufields k = Some "attributes" →
         umentions User_ufields post "attributes" = false →
         UnmarshalJSON_member None v = (User.Attributes u', None)).
Proof.
  revert u. induction members as [| kv rest IH]; intros u Hfit.
  - exists u. split; [reflexivity |]. split; [done |].
    intros pre k v post Heq. by destruct pre.
  - simpl in Hfit. apply andb_true_iff in Hfit as [Hkv Hrest].
    assert (Hhere : uaddressed User_ufields kv.1
                    = uname <$> find_ufield User_ufields kv.1) by reflexivity.
    simpl. unfold umentions at 1. simpl. fold (umentions User_ufields rest).
    destruct (find_ufield User_ufields kv.1) as [f |] eqn:Hfind;
      simpl in Hhere.
    + pose proof (find_ufield_elem _ _ _ Hfind) as Hin.
      destruct (User_ufields_stored f kv.2 Hin Hkv)
        as [[Hname Hstore] | [Hname (m0 & Hcall & Hstore)]].
      * destruct (Hstore u) as (u1 & -> & Hattrs).
        destruct (IH u1 Hrest) as (u' & Hdec & Hnone & Hlast).
        exists u'. split; [exact Hdec |]. split.
        -- intros [_ Hno]%orb_false_iff. rewrite Hnone by done. exact Hattrs.
        -- intros pre k v post Heq Haddr Hpost.
           destruct pre as [| p pre]; simpl in Heq.
           ++ injection Heq as -> ->. simpl in Hfind.
              unfold uaddressed in Haddr. rewrite Hfind in Haddr.
              simpl in Haddr. congruence.
           ++ injection Heq as -> ->. by apply (Hlast pre k v post).
      * destruct (Hstore u) as (u1 & -> & Hattrs).
        destruct (IH u1 Hrest) as (u' & Hdec & Hnone & Hlast).
        exists u'. split; [exact Hdec |]. split.
        -- rewrite bool_decide_eq_true_2 by congruence. discriminate.
        -- intros pre k v post Heq Haddr Hpost.
           destruct pre as [| p pre]; simpl in Heq.
           ++ injection Heq as -> ->. simpl in *.
              rewrite Hnone by done. by rewrite Hattrs.
           ++ injection Heq as -> ->. by apply (Hlast pre k v post).
    + destruct (IH u Hrest) as (u' & Hdec & Hnone & Hlast).
      exists u'. split; [exact Hdec |]. split.
      * rewrite bool_decide_eq_false_2 by congruence. exact Hnone.
      * intros pre k v post Heq Haddr Hpost.
        destruct pre as [| p pre]; simpl in Heq.
        -- injection Heq as -> ->. simpl in Hfind.
           unfold uaddressed in Haddr. rewrite Hfind in Haddr. done.
        -- injection Heq as -> ->. by apply (Hlast pre k v post).
Qed.

(** X23: the attributes of the user [GetUser] returns, for a 2xx answer
    that holds an object whose members are stored without error.  When no
    member addresses [attributes] the map is nil.  Otherwise the last
    such member counts and the map is never nil: for [null] it is the
    empty map, and for an object it holds the keys whose last value is a
    string. *)
Theorem GetUser_attributes (c : Client) (username : string) (resp : Response)
    (members : list (string * json)) :
  request_ok "GET" (baseURL c +:+ dataPath c ["users"; username]) = true →
  httpClient c (nil_request c "GET" (dataPath c ["users"; username]))
  = Ok resp →
  is_2xx (StatusCode resp) = true →
  json_stream_value (RespBody resp) = Some (JObject members) →
  user_members_fit members = true →
  ∃ u,
    GetUser c username = Ok u
    ∧ (umentions User_ufields members "attributes" = false →
       User.Attributes u = None)
    ∧ (∀ pre k v post,
         members = pre ++ (k, v) :: post →
         uaddressed User_ufields k = Some "attributes" →
         umentions User_ufields post "attributes" = false →
         ∃ entries,
           User.Attributes u = Some entries
           ∧ (v = JNull → entries = ∅)
           ∧ (∀ ams, v = JObject ams →
                     ∀ key, entries !! key = last_value key ams ≫= pointer)).
Proof.
  intros Hok Hdo Hstatus Hvalue Hfit.
  destruct (decode_ufields_attributes members User_zero Hfit)
    as (u & Hdec & Hnone & Hlast).
  exists u. split; [| split].
  - unfold GetUser, client.get.
    rewrite do_nil_sends, Hdo, Hstatus by done.
    unfold client.json_Decode. rewrite Hvalue.
    unfold decode_User, decode_ustruct. by rewrite Hdec.
  - intros Hno. by rewrite Hnone.
  - intros pre k v post Heq Haddr Hpost.
    exact (UnmarshalJSON_member_value _ v (Hlast pre k v post Heq Haddr Hpost)).
Qed.

End User_attributes.

(** ** Logout, group membership and the creation of a user *)

Section More_resources.
Context `{GoLib}.

(** X24: [Logout] sends one [DELETE] for [/api/session] under the base
    address, without a body and without a content type, with the token of
    the session as its only header when there is one and with no header
    otherwise.  It returns nil on every 2xx answer and otherwise the
    [*APIError] of the answer as it is, with no context around it. *)
Theorem Logout_request (c : Client) (resp : Response) :
  request_ok "DELETE" (baseURL c +:+ "/api/session") = true →
  httpClient c (nil_request c "DELETE" "/api/session") = Ok resp →
  Logout c = (if is_2xx (StatusCode resp) then None
              else Some (parseError resp))
  ∧ URL (nil_request c "DELETE" "/api/session") = baseURL c +:+ "/api/session"
  ∧ ReqBody (nil_request c "DELETE" "/api/session") = None
  ∧ Header (nil_request c "DELETE" "/api/session") !! "Content-Type" = None
  ∧ Header (nil_request c "DELETE" "/api/session") !! "Guacamole-Token"
    = (if str_eqb (authToken c) "" then None else Some [authToken c]).
Proof.
  intros Hok Hdo. split; [| split; [done | split; [done |]]].
  - unfold Logout, client.delete. rewrite do_nil_sends, Hdo by done.
    by destruct (is_2xx _).
  - simpl. destruct (str_eqb (authToken c) ""); [done |].
    split; [by rewrite lookup_insert_ne | by rewrite lookup_insert_eq].
Qed.

(** X25: [GetUserGroups] returns the names of a 2xx answer in the order
    of the array; for the answer [null] it returns no name and no
    error. *)
Theorem GetUserGroups_names (c : Client) (username : string)
    (resp : Response) :
  request_ok "GET"
    (baseURL c +:+ dataPath c ["users"; username; "userGroups"]) = true →
  httpClient c
    (nil_request c "GET" (dataPath c ["users"; username; "userGroups"]))
  = Ok resp →
  is_2xx (StatusCode resp) = true →
  (json_stream_value (RespBody resp) = Some JNull →
   GetUserGroups c username = Ok [])
  ∧ (∀ names,
       json_stream_value (RespBody resp) = Some (JArray (map JString names)) →
       GetUserGroups c username = Ok names).
Proof.
  intros Hok Hdo Hstatus.
  split; [intros Hvalue | intros names Hvalue];
    unfold GetUserGroups, client.get;
    rewrite do_nil_sends, Hdo, Hstatus by done;
    unfold client.json_Decode; rewrite Hvalue; [reflexivity |].
  unfold decode_string_slice. simpl.
  replace (forallb fits_string (map JString names)) with true.
  - simpl. rewrite map_map. simpl. by rewrite map_id.
  - symmetry. apply forallb_forall. by intros v [s [<- _]]%in_map_iff.
Qed.

(** X26: [CreateUser] returns the user of the answer, not the user it
    sent.  On a 2xx answer that holds an object whose members are stored
    without error the result is that object decoded into a zero user, so
    for [{}] the zero user; on a 2xx answer that holds no JSON value it
    returns an error under the context of the method that holds no
    [*APIError]. *)
Theorem CreateUser_answer (c : Client) (user : User.t) (resp : Response)
    (text : string) :
  json_Marshal_User user = Ok text →
  request_ok "POST" (baseURL c +:+ dataPath c ["users"]) = true →
  httpClient c (body_request c "POST" (dataPath c ["users"]) text) = Ok resp →
  is_2xx (StatusCode resp) = true →
  (json_stream_value (RespBody resp) = None →
   ∃ err, CreateUser c user = Err (ErrWrap "guacamole: create user: " err)
          ∧ errors_As (Some (ErrWrap "guacamole: create user: " err)) = None)
  ∧ (∀ members,
       json_stream_value (RespBody resp) = Some (JObject members) →
       user_members_fit members = true →
       ∃ u, CreateUser c user = Ok u
            ∧ decode_ufields User_ufields members User_zero false = (u, None))
  ∧ (json_stream_value (RespBody resp) = Some (JObject []) →
     CreateUser c user = Ok User_zero).
Proof.
  intros Htext Hok Hdo Hstatus.
  assert (Hpost : ∀ out,
            client.post decode_User json_Marshal_User c (dataPath c ["users"])
              (Some user) (Some out)
            = let '(o', err) := client.json_Decode decode_User (RespBody resp) out
              in (Some o', err)).
  { intros out. unfold client.post.
    by rewrite (do_body_sends _ _ _ _ _ text), Hdo, Hstatus. }
  split; [| split].
  - intros Hvalue. unfold CreateUser. rewrite Hpost.
    unfold client.json_Decode. rewrite Hvalue. eexists. split; reflexivity.
  - intros members Hvalue Hfit.
    destruct (decode_ufields_attributes members User_zero Hfit)
      as (u & Hdec & _).
    exists u. split; [| exact Hdec].
    unfold CreateUser. rewrite Hpost.
    unfold client.json_Decode. rewrite Hvalue.
    unfold decode_User, decode_ustruct. by rewrite Hdec.
  - intros Hvalue. unfold CreateUser. rewrite Hpost.
    unfold client.json_Decode. by rewrite Hvalue.
Qed.

End More_resources.

(** ** The properties above at the requests of the package's tests *)

Lemma dataPath_dotdot_witness :
  let c := test_client (respond 200 "{}") in
  dataSource c ≠ ""
  ∧ path.ordinary "bob" = true
  ∧ dataPath c (["users"] ++ ["bob"; ".."]) = dataPath c ["users"].
Proof.
  intros c.
  assert (Hsource : dataSource c ≠ "") by discriminate.
  assert (Hs : path.ordinary "bob" = true) by reflexivity.
  repeat (split; [assumption |]).
  exact (dataPath_dotdot c ["users"] "bob" Hsource Hs).
Defined.

Lemma dataPath_injective_witness :
  let c := test_client (respond 200 "{}") in
  path.ordinary (dataSource c) = true
  ∧ Forall (λ e, path.ordinary e = true) ["users"; "a/b"]
  ∧ dataPath c ["users"; "a/b"] = "/api/session/data/postgresql/users/a%2Fb"
  ∧ ["users"; "a/b"] = ["users"; "a/b"].
Proof.
  intros c.
  assert (Hsource : path.ordinary (dataSource c) = true) by reflexivity.
  assert (Hall : Forall (λ e, path.ordinary e = true) ["users"; "a/b"])
    by (repeat constructor).
  assert (Hpath : dataPath c ["users"; "a/b"]
                  = "/api/session/data/postgresql/users/a%2Fb")
    by reflexivity.
  repeat (split; [assumption |]).
  exact (dataPath_injective c ["users"; "a/b"] ["users"; "a/b"]
           Hsource Hall Hall eq_refl).
Defined.

Lemma auth_request_form_witness :
  @request_ok Reference.lib "POST" (baseURL exchange_client +:+ "/api/tokens")
  = true
  ∧ httpClient exchange_client exchange_request
    = Ok (respond 403 denied_text)
  ∧ @Authenticate Reference.lib exchange_client "admin" "p&ss=w rd"
    = (exchange_client,
       Some (ErrAPIError {| Message := "Invalid credentials.";
                            Type_ := "PERMISSION_DENIED";
                            HTTPStatus := 403 |})).
Proof.
  assert (Hok : @request_ok Reference.lib "POST"
                  (baseURL exchange_client +:+ "/api/tokens") = true)
    by reflexivity.
  assert (Hdo : httpClient exchange_client exchange_request
                = Ok (respond 403 denied_text)) by (by vm_compute).
  repeat (split; [assumption |]).
  rewrite (proj1 (@auth_request_form Reference.lib exchange_client
                    "admin" "p&ss=w rd" Hok)).
  change (httpClient exchange_client _)
    with (httpClient exchange_client exchange_request).
  rewrite Hdo. reflexivity.
Defined.

Lemma Authenticate_without_token_witness :
  let c := test_client (respond 200 "{}") in
  @request_ok Reference.lib "POST" (baseURL c +:+ "/api/tokens") = true
  ∧ httpClient c (auth_request c "admin" "secret") = Ok (respond 200 "{}")
  ∧ @json_stream_value Reference.lib (RespBody (respond 200 "{}"))
    = Some (JObject [])
  ∧ @lacks_session Reference.lib (JObject []) = true
  ∧ @Authenticate Reference.lib c "admin" "secret"
    = (with_session c "" "", None).
Proof.
  intros c.
  assert (Hok : @request_ok Reference.lib "POST" (baseURL c +:+ "/api/tokens")
                = true) by reflexivity.
  assert (Hdo : httpClient c (auth_request c "admin" "secret")
                = Ok (respond 200 "{}")) by reflexivity.
  assert (Hvalue : @json_stream_value Reference.lib
                     (RespBody (respond 200 "{}")) = Some (JObject []))
    by reflexivity.
  assert (Hlacks : @lacks_session Reference.lib (JObject []) = true)
    by reflexivity.
  repeat (split; [assumption |]).
  exact (@Authenticate_without_token Reference.lib c "admin" "secret"
           (respond 200 "{}") (JObject []) Hok Hdo eq_refl Hvalue Hlacks).
Defined.

Lemma Authenticate_undecodable_witness :
  let c := test_client (respond 200 "oops") in
  @request_ok Reference.lib "POST" (baseURL c +:+ "/api/tokens") = true
  ∧ httpClient c (auth_request c "admin" "secret") = Ok (respond 200 "oops")
  ∧ @undecodable Reference.lib
      (@json_stream_value Reference.lib (RespBody (respond 200 "oops"))) = true
  ∧ (@Authenticate Reference.lib c "admin" "secret").1 = c
  ∧ (@Authenticate Reference.lib c "admin" "secret").2 ≠ None
  ∧ errors_As (@Authenticate Reference.lib c "admin" "secret").2 = None
  ∧ IsNotFound (@Authenticate Reference.lib c "admin" "secret").2
    = Returns false
  ∧ IsPermissionDenied (@Authenticate Reference.lib c "admin" "secret").2
    = Returns false.
Proof.
  intros c.
  assert (Hok : @request_ok Reference.lib "POST" (baseURL c +:+ "/api/tokens")
                = true) by reflexivity.
  assert (Hdo : httpClient c (auth_request c "admin" "secret")
                = Ok (respond 200 "oops")) by reflexivity.
  assert (Hun : @undecodable Reference.lib
                  (@json_stream_value Reference.lib
                     (RespBody (respond 200 "oops"))) = true) by reflexivity.
  repeat (split; [assumption |]).
  exact (@Authenticate_undecodable Reference.lib c "admin" "secret"
           (respond 200 "oops") Hok Hdo eq_refl Hun).
Defined.

Lemma parseError_empty_body_witness :
  (readErr (RespBody (respond 404 "")) = true
   ∨ data (RespBody (respond 404 "")) = "")
  ∧ @parseError Reference.lib (respond 404 "")
    = ErrAPIError {| Message := "Not Found"; Type_ := ""; HTTPStatus := 404 |}.
Proof.
  assert (Hbody : readErr (RespBody (respond 404 "")) = true
                  ∨ data (RespBody (respond 404 "")) = "")
    by (right; reflexivity).
  split; [assumption |].
  exact (@parseError_empty_body Reference.lib (respond 404 "") Hbody).
Defined.

Lemma parseError_json_not_object_witness :
  readErr (RespBody (respond 500 "null")) = false
  ∧ data (RespBody (respond 500 "null")) ≠ ""
  ∧ @json_value Reference.lib (data (RespBody (respond 500 "null")))
    = Some JNull
  ∧ (∀ members, JNull ≠ JObject members)
  ∧ @parseError Reference.lib (respond 500 "null")
    = ErrAPIError {| Message := ""; Type_ := ""; HTTPStatus := 500 |}.
Proof.
  assert (Hread : readErr (RespBody (respond 500 "null")) = false)
    by reflexivity.
  assert (Hdata : data (RespBody (respond 500 "null")) ≠ "") by discriminate.
  assert (Hvalue : @json_value Reference.lib
                     (data (RespBody (respond 500 "null"))) = Some JNull)
    by reflexivity.
  assert (Hshape : ∀ members, JNull ≠ JObject members) by discriminate.
  repeat (split; [assumption |]).
  exact (@parseError_json_not_object Reference.lib (respond 500 "null") JNull
           Hread Hdata Hvalue Hshape).
Defined.

Lemma get_outcomes_witness :
  let c := test_client (respond 204 "") in
  let path := "/api/session/data/postgresql/users/alice/userGroups" in
  @request_ok Reference.lib "GET" (baseURL c +:+ path) = true
  ∧ httpClient c (nil_request c "GET" path) = Ok (respond 204 "")
  ∧ is_2xx (StatusCode (respond 204 "")) = true
  ∧ @json_stream_value Reference.lib (RespBody (respond 204 "")) = None
  ∧ (@client.get Reference.lib _ decode_string_slice c path ["old"]).1
    = ["old"]
  ∧ (@client.get Reference.lib _ decode_string_slice c path ["old"]).2 ≠ None
  ∧ errors_As (@client.get Reference.lib _ decode_string_slice c path ["old"]).2
    = None.
Proof.
  intros c path.
  assert (Hok : @request_ok Reference.lib "GET" (baseURL c +:+ path) = true)
    by reflexivity.
  assert (Hdo : httpClient c (nil_request c "GET" path) = Ok (respond 204 ""))
    by reflexivity.
  assert (Hstatus : is_2xx (StatusCode (respond 204 "")) = true)
    by reflexivity.
  assert (Hvalue : @json_stream_value Reference.lib (RespBody (respond 204 ""))
                   = None) by reflexivity.
  repeat (split; [assumption |]).
  exact (proj1 (proj2 (@get_outcomes Reference.lib _ decode_string_slice c path
                         ["old"] (respond 204 "") Hok Hdo)) Hstatus Hvalue).
Defined.

Lemma users_errors_wrapped_witness :
  let c := test_client (respond 404 not_found_text) in
  is_2xx (StatusCode (respond 404 not_found_text)) = false
  ∧ @request_ok Reference.lib "GET"
      (baseURL c +:+ dataPath c ["users"; "alice"]) = true
  ∧ httpClient c (nil_request c "GET" (dataPath c ["users"; "alice"]))
    = Ok (respond 404 not_found_text)
  ∧ @GetUser Reference.lib c "alice"
    = Err (ErrWrap "guacamole: get user alice: "
             (ErrAPIError {| Message := "Not found"; Type_ := "NOT_FOUND";
                             HTTPStatus := 404 |})).
Proof.
  intros c.
  assert (Hstatus : is_2xx (StatusCode (respond 404 not_found_text)) = false)
    by reflexivity.
  assert (Hok : @request_ok Reference.lib "GET"
                  (baseURL c +:+ dataPath c ["users"; "alice"]) = true)
    by reflexivity.
  assert (Hdo : httpClient c (nil_request c "GET" (dataPath c ["users"; "alice"]))
                = Ok (respond 404 not_found_text)) by reflexivity.
  repeat (split; [assumption |]).
  exact (proj1 (@users_errors_wrapped Reference.lib c "alice"
                  (User.mk "alice" "" false None 0) None
                  (respond 404 not_found_text) Hstatus) Hok Hdo).
Defined.

Lemma ListConnectionHistory_entries_witness :
  let c := test_client (respond 200 history_text) in
  @request_ok Reference.lib "GET" (baseURL c +:+ history_path c "desc") = true
  ∧ httpClient c (nil_request c "GET" (history_path c "desc"))
    = Ok (respond 200 history_text)
  ∧ is_2xx (StatusCode (respond 200 history_text)) = true
  ∧ @json_stream_value Reference.lib (RespBody (respond 200 history_text))
    = Some (JArray history_elems)
  ∧ @history_elements_fit Reference.lib history_elems = true
  ∧ @ListConnectionHistory Reference.lib c "desc"
    = Ok (map (@history_entry Reference.lib) history_elems)
  ∧ URL (nil_request c "GET" (history_path c "desc"))
    = baseURL c +:+ dataPath c ["history"; "connections"]
      +:+ (if str_eqb "desc" "" then "" else "?order=" +:+ "desc").
Proof.
  intros c.
  assert (Hok : @request_ok Reference.lib "GET"
                  (baseURL c +:+ history_path c "desc") = true)
    by reflexivity.
  assert (Hdo : httpClient c (nil_request c "GET" (history_path c "desc"))
                = Ok (respond 200 history_text)) by reflexivity.
  assert (Hstatus : is_2xx (StatusCode (respond 200 history_text)) = true)
    by reflexivity.
  assert (Hvalue : @json_stream_value Reference.lib
                     (RespBody (respond 200 history_text))
                   = Some (JArray history_elems)) by reflexivity.
  assert (Hfit : @history_elements_fit Reference.lib history_elems = true)
    by reflexivity.
  repeat (split; [assumption |]).
  exact (@ListConnectionHistory_entries Reference.lib c "desc"
           (respond 200 history_text) history_elems
           Hok Hdo Hstatus Hvalue Hfit).
Defined.

Lemma MarshalJSON_UnmarshalJSON_witness :
  let entries : gmap string string := {["b" := "hello"]} in
  let text := "{" +:+ q "b" +:+ ":" +:+ q "hello" +:+ "}" in
  @MarshalJSON Reference.lib (Some entries) = Ok text
  ∧ @json_value Reference.lib text = Some (JObject (members_of entries))
  ∧ @UnmarshalJSON Reference.lib None text = (Some entries, None)
  ∧ @MarshalJSON Reference.lib None = Ok "{}"
  ∧ (@json_value Reference.lib "{}" = Some (JObject []) →
     @UnmarshalJSON Reference.lib None "{}" = (Some ∅, None)).
Proof.
  intros entries text.
  assert (Htext : @MarshalJSON Reference.lib (Some entries) = Ok text)
    by (by vm_compute).
  assert (Hvalue : @json_value Reference.lib text
                   = Some (JObject (members_of entries)))
    by (by vm_compute).
  repeat (split; [assumption |]).
  exact (@MarshalJSON_UnmarshalJSON Reference.lib None entries text
           Htext Hvalue).
Defined.

Lemma GetUser_attributes_witness :
  let c := test_client (respond 200 alice_text) in
  @request_ok Reference.lib "GET"
    (baseURL c +:+ dataPath c ["users"; "alice"]) = true
  ∧ httpClient c (nil_request c "GET" (dataPath c ["users"; "alice"]))
    = Ok (respond 200 alice_text)
  ∧ is_2xx (StatusCode (respond 200 alice_text)) = true
  ∧ @json_stream_value Reference.lib (RespBody (respond 200 alice_text))
    = Some (JObject alice_members)
  ∧ @user_members_fit Reference.lib alice_members = true
  ∧ ∃ u,
      @GetUser Reference.lib c "alice" = Ok u
      ∧ (@umentions Reference.lib _ User_ufields
           alice_members "attributes" = false →
         User.Attributes u = None)
      ∧ (∀ pre k v post,
           alice_members = pre ++ (k, v) :: post →
           @uaddressed Reference.lib _ User_ufields k
           = Some "attributes" →
           @umentions Reference.lib _ User_ufields
             post "attributes" = false →
           ∃ entries,
             User.Attributes u = Some entries
             ∧ (v = JNull → entries = ∅)
             ∧ (∀ ams, v = JObject ams →
                       ∀ key, entries !! key
                              = last_value key ams ≫= pointer)).
Proof.
  intros c.
  assert (Hok : @request_ok Reference.lib "GET"
                  (baseURL c +:+ dataPath c ["users"; "alice"]) = true)
    by reflexivity.
  assert (Hdo : httpClient c (nil_request c "GET" (dataPath c ["users"; "alice"]))
                = Ok (respond 200 alice_text)) by reflexivity.
  assert (Hstatus : is_2xx (StatusCode (respond 200 alice_text)) = true)
    by reflexivity.
  assert (Hvalue : @json_stream_value Reference.lib
                     (RespBody (respond 200 alice_text))
                   = Some (JObject alice_members)) by reflexivity.
  assert (Hfit : @user_members_fit Reference.lib alice_members = true)
    by reflexivity.
  repeat (split; [assumption |]).
  exact (@GetUser_attributes Reference.lib c "alice" (respond 200 alice_text)
           alice_members Hok Hdo Hstatus Hvalue Hfit).
Defined.

Lemma Logout_request_witness :
  let c := test_client (respond 204 "") in
  @request_ok Reference.lib "DELETE" (baseURL c +:+ "/api/session") = true
  ∧ httpClient c (nil_request c "DELETE" "/api/session") = Ok (respond 204 "")
  ∧ @Logout Reference.lib c = None
  ∧ URL (nil_request c "DELETE" "/api/session")
    = "http://127.0.0.1:8080/api/session"
  ∧ Header (nil_request c "DELETE" "/api/session") !! "Guacamole-Token"
    = Some ["test-token"].
Proof.
  intros c.
  assert (Hok : @request_ok Reference.lib "DELETE"
                  (baseURL c +:+ "/api/session") = true) by reflexivity.
  assert (Hdo : httpClient c (nil_request c "DELETE" "/api/session")
                = Ok (respond 204 "")) by reflexivity.
  repeat (split; [assumption |]).
  pose proof (@Logout_request Reference.lib c (respond 204 "") Hok Hdo)
    as (Hout & Hurl & _ & _ & Htoken).
  split; [exact Hout |]. split; [exact Hurl | exact Htoken].
Defined.

Lemma GetUserGroups_names_witness :
  let text := "[" +:+ q "admins" +:+ "," +:+ q "staff" +:+ "]" in
  let c := test_client (respond 200 text) in
  @request_ok Reference.lib "GET"
    (baseURL c +:+ dataPath c ["users"; "alice"; "userGroups"]) = true
  ∧ httpClient c
      (nil_request c "GET" (dataPath c ["users"; "alice"; "userGroups"]))
    = Ok (respond 200 text)
  ∧ is_2xx (StatusCode (respond 200 text)) = true
  ∧ @json_stream_value Reference.lib (RespBody (respond 200 text))
    = Some (JArray (map JString ["admins"; "staff"]))
  ∧ @GetUserGroups Reference.lib c "alice" = Ok ["admins"; "staff"].
Proof.
  intros text c.
  assert (Hok : @request_ok Reference.lib "GET"
                  (baseURL c +:+ dataPath c ["users"; "alice"; "userGroups"])
                = true) by reflexivity.
  assert (Hdo : httpClient c
                  (nil_request c "GET"
                     (dataPath c ["users"; "alice"; "userGroups"]))
                = Ok (respond 200 text)) by reflexivity.
  assert (Hstatus : is_2xx (StatusCode (respond 200 text)) = true)
    by reflexivity.
  assert (Hvalue : @json_stream_value Reference.lib (RespBody (respond 200 text))
                   = Some (JArray (map JString ["admins"; "staff"])))
    by reflexivity.
  repeat (split; [assumption |]).
  exact (proj2 (@GetUserGroups_names Reference.lib c "alice" (respond 200 text)
                  Hok Hdo Hstatus) ["admins"; "staff"] Hvalue).
Defined.

Lemma CreateUser_answer_witness :
  let user := User.mk "alice" "" false None 0 in
  let c := test_client (respond 200 "{}") in
  @json_Marshal_User Reference.lib user = Ok alice_body
  ∧ @request_ok Reference.lib "POST" (baseURL c +:+ dataPath c ["users"]) = true
  ∧ httpClient c (body_request c "POST" (dataPath c ["users"]) alice_body)
    = Ok (respond 200 "{}")
  ∧ is_2xx (StatusCode (respond 200 "{}")) = true
  ∧ @json_stream_value Reference.lib (RespBody (respond 200 "{}"))
    = Some (JObject [])
  ∧ @CreateUser Reference.lib c user = Ok User_zero.
Proof.
  intros user c.
  assert (Htext : @json_Marshal_User Reference.lib user = Ok alice_body)
    by (by vm_compute).
  assert (Hok : @request_ok Reference.lib "POST"
                  (baseURL c +:+ dataPath c ["users"]) = true) by reflexivity.
  assert (Hdo : httpClient c
                  (body_request c "POST" (dataPath c ["users"]) alice_body)
                = Ok (respond 200 "{}")) by reflexivity.
  assert (Hstatus : is_2xx (StatusCode (respond 200 "{}")) = true)
    by reflexivity.
  assert (Hvalue : @json_stream_value Reference.lib (RespBody (respond 200 "{}"))
                   = Some (JObject [])) by reflexivity.
  repeat (split; [assumption |]).
  exact (proj2 (proj2 (@CreateUser_answer Reference.lib c user
                         (respond 200 "{}") alice_body
                         Htext Hok Hdo Hstatus)) Hvalue).
Defined.
